(** * ViewabilityHelper: a shallow embedding and its verified properties

    Source: [Libraries/CustomComponents/Lists/ViewabilityHelper.js].

    Modelling conventions.
    - A JavaScript [number] holding a geometry value (offset, length, scroll
      offset, viewport height, percent threshold) is an exact rational [Q];
      IEEE rounding and signed zeros are not modelled.  The result of a
      division can leave the finite numbers, so the arithmetic of
      [_isViewable] runs on [number], which adds the two infinities and NaN.
    - Module [Double] embeds the three geometry functions once more, on
      binary64 floating-point numbers, operation by operation as JavaScript
      evaluates them; it is what decides how the code rounds.
    - Item indices, item counts, timer handles and millisecond timestamps
      are integers [Z].
    - An [invariant(...)] failure is an exception: operations return the
      state reached so far together with the error thrown, if any.
    - The three caller-supplied functions are pure: [getFrameMetrics] and
      [createViewToken] are Rocq functions, and a call of
      [onViewableItemsChanged] is recorded in a log of notifications. *)

From Stdlib Require Import ZArith QArith Qminmax Lqa Lia.
From Stdlib Require Import List String Bool Sorting.Sorted.
From Stdlib Require PrimFloat.
Import ListNotations.

(** ** JavaScript numbers *)

Module JS.

Inductive number : Type :=
  | Fin (q : Q)
  | PosInf
  | NegInf
  | NaN.

Definition Qltb (x y : Q) : bool := negb (Qle_bool y x).

  (** [Math.min] and [Math.max] on finite arguments. *)
Definition Math_min (a b : Q) : Q := if Qle_bool a b then a else b.
Definition Math_max (a b : Q) : Q := if Qle_bool a b then b else a.

  (** Sign of a non-NaN number; zero counts as positive (there is one zero). *)
Definition nonneg (x : number) : bool :=
    match x with
    | Fin q => Qle_bool 0 q
    | PosInf => true
    | NegInf => false
    | NaN => true
    end.

Definition signedInf (positive : bool) : number :=
    if positive then PosInf else NegInf.

  (** [a / b] *)
Definition div (a b : number) : number :=
    match a, b with
    | NaN, _ | _, NaN => NaN
    | Fin x, Fin y =>
        if Qeq_bool y 0 then
          if Qeq_bool x 0 then NaN else signedInf (Qltb 0 x)
        else Fin (x / y)
    | Fin _, (PosInf | NegInf) => Fin 0
    | (PosInf | NegInf), (PosInf | NegInf) => NaN
    | (PosInf | NegInf), Fin _ => signedInf (Bool.eqb (nonneg a) (nonneg b))
    end.

  (** [a * b] *)
Definition mul (a b : number) : number :=
    match a, b with
    | NaN, _ | _, NaN => NaN
    | Fin x, Fin y => Fin (x * y)
    | Fin x, (PosInf | NegInf) =>
        if Qeq_bool x 0 then NaN else signedInf (Bool.eqb (nonneg a) (nonneg b))
    | (PosInf | NegInf), Fin y =>
        if Qeq_bool y 0 then NaN else signedInf (Bool.eqb (nonneg a) (nonneg b))
    | (PosInf | NegInf), (PosInf | NegInf) =>
        signedInf (Bool.eqb (nonneg a) (nonneg b))
    end.

  (** [a >= b]; any comparison with NaN is false. *)
Definition ge (a b : number) : bool :=
    match a, b with
    | NaN, _ | _, NaN => false
    | Fin x, Fin y => Qle_bool y x
    | PosInf, _ => true
    | _, NegInf => true
    | Fin _, PosInf => false
    | NegInf, _ => false
    end.

  (** Two numbers denote the same value. *)
Definition same (a b : number) : Prop :=
    match a, b with
    | Fin x, Fin y => x == y
    | PosInf, PosInf | NegInf, NegInf | NaN, NaN => True
    | _, _ => False
    end.

End JS.

(** ** The geometric viewability test (module-level functions) *)

Definition _isEntirelyVisible (top bottom viewportHeight : Q) : bool :=
  Qle_bool 0 top && Qle_bool bottom viewportHeight && JS.Qltb top bottom.

Definition _getPixelsVisible (top bottom viewportHeight : Q) : Q :=
  let visibleHeight := JS.Math_min bottom viewportHeight - JS.Math_max top 0 in
  JS.Math_max 0 visibleHeight.

Definition _isViewable (viewAreaMode : bool) (viewablePercentThreshold : Q)
    (top bottom viewportHeight itemLength : Q) : bool :=
  if _isEntirelyVisible top bottom viewportHeight then true
  else
    let pixels := _getPixelsVisible top bottom viewportHeight in
    let percent :=
      JS.mul (JS.Fin 100)
             (if viewAreaMode
              then JS.div (JS.Fin pixels) (JS.Fin viewportHeight)
              else JS.div (JS.Fin pixels) (JS.Fin itemLength)) in
    JS.ge percent (JS.Fin viewablePercentThreshold).

(** The test as the specification words it: the visible pixels with the
    library's [Qmax]/[Qmin], and the percent read left to right as
    [100 * pixelsVisible / divisor]. *)
Module Spec.

Definition pixelsVisible (top bottom viewportHeight : Q) : Q :=
    Qmax 0 (Qmin bottom viewportHeight - Qmax top 0).

Definition percent (viewAreaMode : bool)
      (top bottom viewportHeight itemLength : Q) : JS.number :=
    JS.div (JS.mul (JS.Fin 100) (JS.Fin (pixelsVisible top bottom viewportHeight)))
           (JS.Fin (if viewAreaMode then viewportHeight else itemLength)).

Definition entirelyVisible (top bottom viewportHeight : Q) : Prop :=
    0 <= top /\ bottom <= viewportHeight /\ top < bottom.

End Spec.

(** ** Data model *)

Module FrameMetrics.
Record t : Type := { length : Q; offset : Q }.
End FrameMetrics.

Record RenderRange : Type := { first : Z; last : Z }.

Record ScrollInteractionFilter : Type := {
  minimumOffset : option Q;    (* scrolls with an offset less than this are ignored *)
  minimumElapsed : option Z    (* scrolls that happen before this are ignored *)
}.

(** The configuration object.  [minimumViewTime] is the property the type
    [ViewabilityConfig] declares; [minViewTime] is the property [onUpdate]
    reads.  A JavaScript object can carry either, both or neither.
    [waitForInteraction] is only ever tested for truthiness. *)
Record ViewabilityConfig : Type := {
  minimumViewTime : option Z;
  minViewTime : option Z;
  viewAreaCoveragePercentThreshold : option Q;
  itemVisiblePercentThreshold : option Q;
  waitForInteraction : bool;
  scrollInteractionFilter : option ScrollInteractionFilter
}.

(** The constructor's default argument, [{viewAreaCoveragePercentThreshold: 0}]. *)
Definition defaultConfig : ViewabilityConfig :=
  {| minimumViewTime := None; minViewTime := None;
     viewAreaCoveragePercentThreshold := Some 0;
     itemVisiblePercentThreshold := None;
     waitForInteraction := false;
     scrollInteractionFilter := None |}.

(** The three [invariant] messages. *)
Inductive Error : Type :=
| FilterNeedsWaitForInteraction
    (* 'scrollInteractionFilter only works in conjunction with waitForInteraction' *)
| MustSetExactlyOneThreshold
    (* 'Must set exactly one of itemVisiblePercentThreshold or viewAreaCoveragePercentThreshold' *)
| InvalidRenderRange.
    (* 'Invalid render range ...' *)

Definition isSome {A : Type} (o : option A) : bool :=
  match o with Some _ => true | None => false end.

(** ** Insertion-ordered maps and sets, as JavaScript's [Map] and [Set] *)

Module JsMap.
Section WithValue.
Context {V : Type}.

Definition t : Type := list (string * V).

Definition has (k : string) (m : t) : bool :=
      existsb (fun kv => String.eqb (fst kv) k) m.

    (** [m.set(k, v)]: an existing key keeps its position. *)
Fixpoint set (k : string) (v : V) (m : t) : t :=
      match m with
      | [] => [(k, v)]
      | (k', v') :: rest =>
          if String.eqb k' k then (k, v) :: rest else (k', v') :: set k v rest
      end.

    (** [new Map(entries)] *)
Definition ofEntries (entries : list (string * V)) : t :=
      fold_left (fun m kv => set (fst kv) (snd kv) m) entries [].

Definition values (m : t) : list V := map snd m.
Definition keys (m : t) : list string := map fst m.
End WithValue.
Arguments t : clear implicits.
End JsMap.

Module JsSet.
Definition t : Type := list Z.
Definition has (x : Z) (s : t) : bool := existsb (Z.eqb x) s.
Definition add (x : Z) (s : t) : t := if has x s then s else s ++ [x].
Definition delete (x : Z) (s : t) : t := filter (fun y => negb (Z.eqb x y)) s.
End JsSet.

(** [a.includes(x)] on an array of indices. *)
Definition includes (x : Z) (a : list Z) : bool := existsb (Z.eqb x) a.

(** [a.length === b.length && a.every((v, ii) => v === b[ii])] *)
Definition sameIndices (a b : list Z) : bool :=
  Nat.eqb (List.length a) (List.length b) &&
  forallb (fun iv => match nth_error b (fst iv) with
                     | Some w => Z.eqb (snd iv) w
                     | None => false
                     end)
          (combine (seq 0 (List.length a)) a).

(** ** The tracker *)

Section Tracker.

(** The type of the application payload carried by a view token
    ([item: any], [section?: any]). *)
Context {Item : Type}.

Record ViewToken : Type := {
  item : Item;
  key : string;
  index : option Z;
  isViewable : bool;
  section : option Item
}.

(** [{...viewable, isViewable: b}] *)
Definition withIsViewable (viewable : ViewToken) (b : bool) : ViewToken :=
  {| item := item viewable; key := key viewable; index := index viewable;
     isViewable := b; section := section viewable |}.

(** The argument of [onViewableItemsChanged]. *)
Record Notification : Type := {
  viewableItems : list ViewToken;
  changed : list ViewToken
}.

(** The instance fields of [class ViewabilityHelper]. *)
Record ViewabilityHelper : Type := {
  _config : ViewabilityConfig;
  _hasInteracted : bool;
  _lastUpdateTime : Z;
  _timers : JsSet.t;
  _viewableIndices : list Z;
  _viewableItems : JsMap.t ViewToken
}.

Definition set_hasInteracted (b : bool) (this : ViewabilityHelper) :=
  {| _config := _config this; _hasInteracted := b;
     _lastUpdateTime := _lastUpdateTime this; _timers := _timers this;
     _viewableIndices := _viewableIndices this;
     _viewableItems := _viewableItems this |}.

Definition set_lastUpdateTime (t : Z) (this : ViewabilityHelper) :=
  {| _config := _config this; _hasInteracted := _hasInteracted this;
     _lastUpdateTime := t; _timers := _timers this;
     _viewableIndices := _viewableIndices this;
     _viewableItems := _viewableItems this |}.

Definition set_timers (s : JsSet.t) (this : ViewabilityHelper) :=
  {| _config := _config this; _hasInteracted := _hasInteracted this;
     _lastUpdateTime := _lastUpdateTime this; _timers := s;
     _viewableIndices := _viewableIndices this;
     _viewableItems := _viewableItems this |}.

Definition set_viewableIndices (l : list Z) (this : ViewabilityHelper) :=
  {| _config := _config this; _hasInteracted := _hasInteracted this;
     _lastUpdateTime := _lastUpdateTime this; _timers := _timers this;
     _viewableIndices := l;
     _viewableItems := _viewableItems this |}.

Definition set_viewableItems (m : JsMap.t ViewToken) (this : ViewabilityHelper) :=
  {| _config := _config this; _hasInteracted := _hasInteracted this;
     _lastUpdateTime := _lastUpdateTime this; _timers := _timers this;
     _viewableIndices := _viewableIndices this;
     _viewableItems := m |}.

(** [constructor(config = {viewAreaCoveragePercentThreshold: 0})]: the
    argument is [None] when the caller passes nothing. *)
Definition constructor (config : option ViewabilityConfig)
  : Error + ViewabilityHelper :=
  let config := match config with Some c => c | None => defaultConfig end in
  if negb (isSome (scrollInteractionFilter config)) || waitForInteraction config
  then inr {| _config := config; _hasInteracted := false; _lastUpdateTime := 0%Z;
              _timers := []; _viewableIndices := []; _viewableItems := [] |}
  else inl FilterNeedsWaitForInteraction.

(** *** [computeViewableItems] *)

(** The threshold [invariant] of [computeViewableItems]. *)
Definition thresholdsValid (config : ViewabilityConfig) : bool :=
  let viewAreaMode := isSome (viewAreaCoveragePercentThreshold config) in
  let viewablePercentThreshold :=
    if viewAreaMode then viewAreaCoveragePercentThreshold config
    else itemVisiblePercentThreshold config in
  isSome viewablePercentThreshold &&
  negb (Bool.eqb (isSome (itemVisiblePercentThreshold config))
                 (isSome (viewAreaCoveragePercentThreshold config))).

(** The state of the [for] loop: the log of [getFrameMetrics] calls made so
    far comes with it (the source has no such log; it makes "which indices
    the scan visits" a statement about the function). *)
Record ScanState : Type := {
  firstVisible : Z;
  viewableIndices : list Z;
  metricsCalls : list Z
}.

Section Scan.

Variable viewAreaMode : bool.
Variable viewablePercentThreshold : Q.
Variable scrollOffset viewportHeight : Q.
Variable getFrameMetrics : Z -> option FrameMetrics.t.
Variable last_ : Z.

(** [for (let idx = first; idx <= last; idx++) { ... }], started at [idx]. *)
Fixpoint scanLoop (fuel : nat) (idx : Z) (st : ScanState) : ScanState :=
  match fuel with
  | O => st
  | S fuel' =>
      if (idx <=? last_)%Z then
        let calls := metricsCalls st ++ [idx] in
        match getFrameMetrics idx with
        | None =>
            scanLoop fuel' (idx + 1)%Z
              {| firstVisible := firstVisible st;
                 viewableIndices := viewableIndices st;
                 metricsCalls := calls |}
        | Some metrics =>
            let top := FrameMetrics.offset metrics - scrollOffset in
            let bottom := top + FrameMetrics.length metrics in
            if JS.Qltb top viewportHeight && JS.Qltb 0 bottom then
              scanLoop fuel' (idx + 1)%Z
                {| firstVisible := idx;
                   viewableIndices :=
                     if _isViewable viewAreaMode viewablePercentThreshold
                          top bottom viewportHeight (FrameMetrics.length metrics)
                     then viewableIndices st ++ [idx]
                     else viewableIndices st;
                   metricsCalls := calls |}
            else if (0 <=? firstVisible st)%Z then
              {| firstVisible := firstVisible st;
                 viewableIndices := viewableIndices st;
                 metricsCalls := calls |}
            else
              scanLoop fuel' (idx + 1)%Z
                {| firstVisible := firstVisible st;
                   viewableIndices := viewableIndices st;
                   metricsCalls := calls |}
        end
      else st
  end.

End Scan.

(** The outcome of a scan: the exception thrown, or the indices together
    with the [getFrameMetrics] calls made. *)
Definition computeViewableItems_traced (this : ViewabilityHelper)
    (itemCount : Z) (scrollOffset viewportHeight : Q)
    (getFrameMetrics : Z -> option FrameMetrics.t)
    (renderRange : option RenderRange) : Error + ScanState :=
  let config := _config this in
  let viewAreaMode := isSome (viewAreaCoveragePercentThreshold config) in
  let viewablePercentThreshold :=
    if viewAreaMode then viewAreaCoveragePercentThreshold config
    else itemVisiblePercentThreshold config in
  match viewablePercentThreshold with
  | Some threshold =>
      if negb (Bool.eqb (isSome (itemVisiblePercentThreshold config))
                        (isSome (viewAreaCoveragePercentThreshold config)))
      then
        if (itemCount =? 0)%Z then
          inr {| firstVisible := (-1)%Z; viewableIndices := []; metricsCalls := [] |}
        else
          let range := match renderRange with
                       | Some r => r
                       | None => {| first := 0%Z; last := (itemCount - 1)%Z |}
                       end in
          if (last range <? itemCount)%Z then
            inr (scanLoop viewAreaMode threshold scrollOffset viewportHeight
                   getFrameMetrics (last range)
                   (Z.to_nat (last range + 1 - first range)) (first range)
                   {| firstVisible := (-1)%Z; viewableIndices := [];
                      metricsCalls := [] |})
          else inl InvalidRenderRange
      else inl MustSetExactlyOneThreshold
  | None => inl MustSetExactlyOneThreshold
  end.

Definition computeViewableItems (this : ViewabilityHelper)
    (itemCount : Z) (scrollOffset viewportHeight : Q)
    (getFrameMetrics : Z -> option FrameMetrics.t)
    (renderRange : option RenderRange) : Error + list Z :=
  match computeViewableItems_traced this itemCount scrollOffset viewportHeight
          getFrameMetrics renderRange with
  | inl e => inl e
  | inr st => inr (viewableIndices st)
  end.

(** *** Finalize and diff: [_onUpdateSync] *)

(** First [for...of] loop: tokens of [nextItems] whose key [prevItems] lacks. *)
Definition pushAppeared (prevItems nextItems : JsMap.t ViewToken)
    (changed : list ViewToken) : list ViewToken :=
  fold_left (fun changed kv =>
               if negb (JsMap.has (fst kv) prevItems)
               then changed ++ [snd kv] else changed)
            nextItems changed.

(** Second [for...of] loop: tokens of [prevItems] whose key [nextItems]
    lacks, pushed as [{...viewable, isViewable: false}]. *)
Definition pushDisappeared (prevItems nextItems : JsMap.t ViewToken)
    (changed : list ViewToken) : list ViewToken :=
  fold_left (fun changed kv =>
               if negb (JsMap.has (fst kv) nextItems)
               then changed ++ [withIsViewable (snd kv) false] else changed)
            prevItems changed.

Definition nextItemsOf (this : ViewabilityHelper)
    (viewableIndicesToCheck : list Z)
    (createViewToken : Z -> bool -> ViewToken) : JsMap.t ViewToken :=
  let viewableIndicesToCheck :=
    filter (fun ii => includes ii (_viewableIndices this)) viewableIndicesToCheck in
  JsMap.ofEntries
    (map (fun ii => let viewable := createViewToken ii true in
                    (key viewable, viewable))
         viewableIndicesToCheck).

Definition changedOf (this : ViewabilityHelper)
    (viewableIndicesToCheck : list Z)
    (createViewToken : Z -> bool -> ViewToken) : list ViewToken :=
  let prevItems := _viewableItems this in
  let nextItems := nextItemsOf this viewableIndicesToCheck createViewToken in
  pushDisappeared prevItems nextItems (pushAppeared prevItems nextItems []).

(** Returns the new state and the call of [onViewableItemsChanged], if one
    is made. *)
Definition _onUpdateSync (viewableIndicesToCheck : list Z)
    (createViewToken : Z -> bool -> ViewToken)
    (this : ViewabilityHelper) : ViewabilityHelper * option Notification :=
  let nextItems := nextItemsOf this viewableIndicesToCheck createViewToken in
  let changed := changedOf this viewableIndicesToCheck createViewToken in
  if (0 <? List.length changed)%nat then
    (set_viewableItems nextItems this,
     Some {| viewableItems := JsMap.values nextItems; changed := changed |})
  else (this, None).

(** *** The host: timers and the notification log *)

(** What the arrow function given to [setTimeout] captures. *)
Record Deferred : Type := {
  snapshot : list Z;                          (* viewableIndices *)
  tokenFactory : Z -> bool -> ViewToken       (* createViewToken *)
}.

Record Timer : Type := {
  handle : Z;
  due : Z;          (* time of the call of setTimeout plus the delay *)
  task : Deferred
}.

Record Host : Type := {
  helper : ViewabilityHelper;
  timerQueue : list Timer;        (* the host's outstanding timeouts *)
  nextHandle : Z;
  notifications : list Notification   (* calls of onViewableItemsChanged *)
}.

Definition set_helper (this : ViewabilityHelper) (h : Host) : Host :=
  {| helper := this; timerQueue := timerQueue h;
     nextHandle := nextHandle h; notifications := notifications h |}.

Definition notify (n : option Notification) (h : Host) : Host :=
  {| helper := helper h; timerQueue := timerQueue h; nextHandle := nextHandle h;
     notifications := match n with
                      | Some n => notifications h ++ [n]
                      | None => notifications h
                      end |}.

(** [setTimeout(task, delay)] called at time [now]; returns the handle. *)
Definition setTimeout (now : Z) (d : Deferred) (delay : Z) (h : Host) : Z * Host :=
  (nextHandle h,
   {| helper := helper h;
      timerQueue := timerQueue h ++
                    [{| handle := nextHandle h; due := (now + delay)%Z; task := d |}];
      nextHandle := (nextHandle h + 1)%Z;
      notifications := notifications h |}).

(** [clearTimeout(handle)] *)
Definition clearTimeout (x : Z) (h : Host) : Host :=
  {| helper := helper h;
     timerQueue := filter (fun t => negb (Z.eqb (handle t) x)) (timerQueue h);
     nextHandle := nextHandle h; notifications := notifications h |}.

(** The host runs an expired timer: the timeout leaves the host's queue and
    the arrow function of [onUpdate] runs. *)
Definition fireTimer (t : Timer) (h : Host) : Host :=
  let h := clearTimeout (handle t) h in
  let this := set_timers (JsSet.delete (handle t) (_timers (helper h))) (helper h) in
  let r := _onUpdateSync (snapshot (task t)) (tokenFactory (task t)) this in
  notify (snd r) (set_helper (fst r) h).

(** The host runs, in queue order, the timers due at [now]. *)
Definition runTimers (now : Z) (h : Host) : Host :=
  fold_left (fun h t => if existsb (fun t' => Z.eqb (handle t') (handle t)) (timerQueue h)
                        then fireTimer t h else h)
            (filter (fun t => (due t <=? now)%Z) (timerQueue h)) h.

(** [dispose()]: [this._timers.forEach(clearTimeout)] *)
Definition dispose (h : Host) : Host :=
  fold_left (fun h x => clearTimeout x h) (_timers (helper h)) h.

(** [recordInteraction()] *)
Definition recordInteraction (this : ViewabilityHelper) : ViewabilityHelper :=
  set_hasInteracted true this.

(** *** [onUpdate] *)

(** What a call of [onUpdate] did: the host afterwards, the
    [getFrameMetrics] calls made, and the exception thrown, if any. *)
Record Outcome : Type := {
  after : Host;
  lookups : list Z;
  thrown : option Error
}.

(** A number used as a condition: zero is falsy. *)
Definition truthyZ (z : Z) : bool := negb (z =? 0)%Z.

(** Lines 160-165: the timestamp latch and the elapsed time. *)
Definition latchLastUpdateTime (updateTime : Z)
    (getFrameMetrics : Z -> option FrameMetrics.t)
    (this : ViewabilityHelper) : ViewabilityHelper :=
  if (_lastUpdateTime this =? 0)%Z && isSome (getFrameMetrics 0%Z)
  then set_lastUpdateTime updateTime this else this.

Definition updateElapsedOf (updateTime : Z) (this : ViewabilityHelper) : Z :=
  if truthyZ (_lastUpdateTime this)
  then (updateTime - _lastUpdateTime this)%Z else 0%Z.

(** Lines 166-176: the interaction latch. *)
Definition latchInteraction (scrollOffset : Q) (updateElapsed : Z)
    (this : ViewabilityHelper) : ViewabilityHelper :=
  if waitForInteraction (_config this) && negb (_hasInteracted this)
     && negb (Qeq_bool scrollOffset 0)
  then
    match scrollInteractionFilter (_config this) with
    | Some filter =>
        if (match minimumOffset filter with
            | None => true
            | Some m => Qle_bool m scrollOffset
            end)
           && (match minimumElapsed filter with
               | None => true
               | Some m => (m <=? updateElapsed)%Z
               end)
        then set_hasInteracted true this else this
    | None => set_hasInteracted true this
    end
  else this.

(** [onUpdate], called at time [now] ([Date.now()]).  The callback
    [onViewableItemsChanged] is the host's notification log. *)
Definition onUpdate (now : Z)
    (itemCount : Z) (scrollOffset viewportHeight : Q)
    (getFrameMetrics : Z -> option FrameMetrics.t)
    (createViewToken : Z -> bool -> ViewToken)
    (renderRange : option RenderRange)
    (h : Host) : Outcome :=
  let updateTime := now in
  let probe := if (_lastUpdateTime (helper h) =? 0)%Z then [0%Z] else [] in
  let this := latchLastUpdateTime updateTime getFrameMetrics (helper h) in
  let updateElapsed := updateElapsedOf updateTime this in
  let this := latchInteraction scrollOffset updateElapsed this in
  if waitForInteraction (_config this) && negb (_hasInteracted this) then
    {| after := set_helper this h; lookups := probe; thrown := None |}
  else
    match (if truthyZ itemCount
           then computeViewableItems_traced this itemCount scrollOffset
                  viewportHeight getFrameMetrics renderRange
           else inr {| firstVisible := (-1)%Z; viewableIndices := [];
                       metricsCalls := [] |}) with
    | inl e => {| after := set_helper this h; lookups := probe; thrown := Some e |}
    | inr scan =>
        let viewableIndices := viewableIndices scan in
        let calls := probe ++ metricsCalls scan in
        if sameIndices (_viewableIndices this) viewableIndices then
          {| after := set_helper this h; lookups := calls; thrown := None |}
        else
          let this := set_viewableIndices viewableIndices this in
          let this := set_lastUpdateTime updateTime this in
          match minViewTime (_config this) with
          | Some delay =>
              if truthyZ delay && (updateElapsed <? delay)%Z then
                let hh := setTimeout now
                            {| snapshot := viewableIndices;
                               tokenFactory := createViewToken |}
                            delay (set_helper this h) in
                let this := set_timers (JsSet.add (fst hh) (_timers this)) this in
                {| after := set_helper this (snd hh); lookups := calls;
                   thrown := None |}
              else
                let r := _onUpdateSync viewableIndices createViewToken this in
                {| after := notify (snd r) (set_helper (fst r) h);
                   lookups := calls; thrown := None |}
          | None =>
              let r := _onUpdateSync viewableIndices createViewToken this in
              {| after := notify (snd r) (set_helper (fst r) h);
                 lookups := calls; thrown := None |}
          end
    end.

End Tracker.

Arguments ViewToken : clear implicits.
Arguments Notification : clear implicits.
Arguments ViewabilityHelper : clear implicits.
Arguments Deferred : clear implicits.
Arguments Timer : clear implicits.
Arguments Host : clear implicits.
Arguments Outcome : clear implicits.

(** ** Vocabulary of the statements *)

(** The [n] consecutive indices [start], [start + 1], ... in ascending order. *)
Definition zrange (start : Z) (n : nat) : list Z :=
  map (fun k => (start + Z.of_nat k)%Z) (seq 0 n).

Section ScanVocabulary.

Variable scrollOffset viewportHeight : Q.
Variable getFrameMetrics : Z -> option FrameMetrics.t.

Definition topOf (metrics : FrameMetrics.t) : Q :=
  FrameMetrics.offset metrics - scrollOffset.

Definition bottomOf (metrics : FrameMetrics.t) : Q :=
  topOf metrics + FrameMetrics.length metrics.

(** The item at index [i] is measured and overlaps the viewport. *)
Definition overlapsAt (i : Z) : Prop :=
  exists metrics, getFrameMetrics i = Some metrics
    /\ topOf metrics < viewportHeight /\ 0 < bottomOf metrics.

(** The item at index [i] is measured and does not overlap the viewport. *)
Definition measuredOutsideAt (i : Z) : Prop :=
  exists metrics, getFrameMetrics i = Some metrics
    /\ ~ (topOf metrics < viewportHeight /\ 0 < bottomOf metrics).



End ScanVocabulary.

(** The boolean the loop body computes to decide whether it pushes [i]. *)
Definition collects (scrollOffset viewportHeight : Q)
    (getFrameMetrics : Z -> option FrameMetrics.t)
    (viewAreaMode : bool) (threshold : Q) (i : Z) : bool :=
  match getFrameMetrics i with
  | Some metrics =>
      JS.Qltb (topOf scrollOffset metrics) viewportHeight
      && JS.Qltb 0 (bottomOf scrollOffset metrics)
      && _isViewable viewAreaMode threshold (topOf scrollOffset metrics)
           (bottomOf scrollOffset metrics) viewportHeight
           (FrameMetrics.length metrics)
  | None => false
  end.

(** [stopPoint] for a loop entered at [start] with [firstVisible >= 0]
    already true or not. *)
Definition stopRel (scrollOffset viewportHeight : Q)
    (getFrameMetrics : Z -> option FrameMetrics.t)
    (seen : bool) (start i : Z) : Prop :=
  measuredOutsideAt scrollOffset viewportHeight getFrameMetrics i
  /\ (seen = true
      \/ exists k, (start <= k < i)%Z
           /\ overlapsAt scrollOffset viewportHeight getFrameMetrics k).

(** The mode and the threshold [computeViewableItems] works with. *)
Definition viewAreaModeOf (config : ViewabilityConfig) : bool :=
  isSome (viewAreaCoveragePercentThreshold config).

Definition thresholdOf (config : ViewabilityConfig) : option Q :=
  if viewAreaModeOf config then viewAreaCoveragePercentThreshold config
  else itemVisiblePercentThreshold config.

(** Exactly one of the two thresholds is set. *)
Definition exactlyOneThreshold (config : ViewabilityConfig) : Prop :=
  (viewAreaCoveragePercentThreshold config <> None
   /\ itemVisiblePercentThreshold config = None)
  \/ (viewAreaCoveragePercentThreshold config = None
      /\ itemVisiblePercentThreshold config <> None).

(** The render range a scan works with. *)
Definition rangeOf (itemCount : Z) (renderRange : option RenderRange) : RenderRange :=
  match renderRange with
  | Some r => r
  | None => {| first := 0%Z; last := (itemCount - 1)%Z |}
  end.

(** *** The stages of [onUpdate] *)

Section UpdateVocabulary.

Context {Item : Type}.

(** The tracker after the timestamp latch and the interaction latch
    (lines 160-176). *)
Definition afterGate (now : Z) (scrollOffset : Q)
    (getFrameMetrics : Z -> option FrameMetrics.t)
    (this : ViewabilityHelper Item) : ViewabilityHelper Item :=
  let this := latchLastUpdateTime now getFrameMetrics this in
  latchInteraction scrollOffset (updateElapsedOf now this) this.

(** [updateElapsed] *)
Definition elapsedAt (now : Z) (getFrameMetrics : Z -> option FrameMetrics.t)
    (this : ViewabilityHelper Item) : Z :=
  updateElapsedOf now (latchLastUpdateTime now getFrameMetrics this).

(** The test of line 177. *)
Definition suppressed (this : ViewabilityHelper Item) : bool :=
  waitForInteraction (_config this) && negb (_hasInteracted this).

(** Lines 180-189: the scan, or the empty result when [itemCount] is falsy. *)
Definition computedScan (this : ViewabilityHelper Item)
    (itemCount : Z) (scrollOffset viewportHeight : Q)
    (getFrameMetrics : Z -> option FrameMetrics.t)
    (renderRange : option RenderRange) : Error + ScanState :=
  if truthyZ itemCount
  then computeViewableItems_traced this itemCount scrollOffset viewportHeight
         getFrameMetrics renderRange
  else inr {| firstVisible := (-1)%Z; viewableIndices := []; metricsCalls := [] |}.

(** The [getFrameMetrics(0)] call of line 161. *)
Definition probeOf (this : ViewabilityHelper Item) : list Z :=
  if (_lastUpdateTime this =? 0)%Z then [0%Z] else [].

(** The host runs the timers [ts], in this order. *)
Definition fireTimers (ts : list (Timer Item)) (h : Host Item) : Host Item :=
  fold_left (fun h t => fireTimer t h) ts h.

(** What can happen to a tracker once it is constructed. *)
Inductive Operation : Type :=
| Update (now itemCount : Z) (scrollOffset viewportHeight : Q)
    (getFrameMetrics : Z -> option FrameMetrics.t)
    (createViewToken : Z -> bool -> ViewToken Item)
    (renderRange : option RenderRange)
| RecordInteraction
| RunTimers (now : Z)
| Dispose.

Definition perform (op : Operation) (h : Host Item) : Host Item :=
  match op with
  | Update now itemCount scrollOffset viewportHeight getFrameMetrics
      createViewToken renderRange =>
      after (onUpdate now itemCount scrollOffset viewportHeight getFrameMetrics
               createViewToken renderRange h)
  | RecordInteraction => set_helper (recordInteraction (helper h)) h
  | RunTimers now => runTimers now h
  | Dispose => dispose h
  end.

Definition performAll (ops : list Operation) (h : Host Item) : Host Item :=
  fold_left (fun h op => perform op h) ops h.

End UpdateVocabulary.

(** ** Concrete data for the examples *)

Module Demo.

Definition keyOf (i : Z) : string :=
  if (i =? 0)%Z then "a"%string
  else if (i =? 1)%Z then "b"%string else "c"%string.

(** A token factory: item [i] has key [keyOf i]. *)
Definition token (i : Z) (isViewable : bool) : ViewToken unit :=
  {| item := tt; key := keyOf i; index := Some i; isViewable := isViewable;
     section := None |}.

(** Two items of length 100, laid out one after the other. *)
Definition twoItems (i : Z) : option FrameMetrics.t :=
  if (i =? 0)%Z then Some {| FrameMetrics.length := 100; FrameMetrics.offset := 0 |}
  else if (i =? 1)%Z
       then Some {| FrameMetrics.length := 100; FrameMetrics.offset := 100 |}
       else None.

(** One item of length 10, far below the viewport. *)
Definition farItem (i : Z) : option FrameMetrics.t :=
  if (i =? 0)%Z then Some {| FrameMetrics.length := 10; FrameMetrics.offset := 1000 |}
  else None.

(** Item 1 has no metrics yet; items 0 and 2 overlap a viewport of 100. *)
Definition gapItems (i : Z) : option FrameMetrics.t :=
  if (i =? 0)%Z then Some {| FrameMetrics.length := 40; FrameMetrics.offset := 0 |}
  else if (i =? 2)%Z
       then Some {| FrameMetrics.length := 40; FrameMetrics.offset := 50 |}
       else if (i =? 3)%Z
            then Some {| FrameMetrics.length := 40; FrameMetrics.offset := 200 |}
            else None.

Definition config (minimumViewTime minViewTime : option Z)
    (viewArea itemVisible : option Q) (wait : bool) : ViewabilityConfig :=
  {| minimumViewTime := minimumViewTime; minViewTime := minViewTime;
     viewAreaCoveragePercentThreshold := viewArea;
     itemVisiblePercentThreshold := itemVisible;
     waitForInteraction := wait; scrollInteractionFilter := None |}.

(** A freshly constructed tracker, as the field initialisers leave it. *)
Definition fresh (config : ViewabilityConfig) : ViewabilityHelper unit :=
  {| _config := config; _hasInteracted := false; _lastUpdateTime := 0%Z;
     _timers := []; _viewableIndices := []; _viewableItems := [] |}.

Definition host (this : ViewabilityHelper unit) : Host unit :=
  {| helper := this; timerQueue := []; nextHandle := 1%Z; notifications := [] |}.

(** The debounce interval 500 under both property names. *)
Definition debounced : ViewabilityConfig :=
  config (Some 500%Z) (Some 500%Z) (Some 0) None false.

(** The debounce interval 500 under the documented name only. *)
Definition documented : ViewabilityConfig :=
  config (Some 500%Z) None (Some 0) None false.

(** No debounce, view-area threshold 0, nothing viewable until interaction. *)
Definition waiting : ViewabilityConfig :=
  config None None (Some 0) None true.

(** Neither threshold set, and both thresholds set. *)
Definition neither : ViewabilityConfig := config None None None None false.
Definition both : ViewabilityConfig := config None None (Some 0) (Some 50) false.

(** What the scan of [twoItems] at scroll offset 0 leaves, and the scan of
    [farItem]. *)
Definition scanTwoItems : ScanState :=
  {| firstVisible := 0%Z; viewableIndices := [0%Z]; metricsCalls := [0%Z; 1%Z] |}.

Definition scanFarItem : ScanState :=
  {| firstVisible := (-1)%Z; viewableIndices := []; metricsCalls := [0%Z] |}.

(** A scenario: item 0 is seen at time 1000 and its timer runs at 1500;
    a scroll at time 3000 brings item 1 in; a scroll back at time 3100
    takes it out again. *)
Definition step1 (config : ViewabilityConfig) : Host unit :=
  after (onUpdate 1000 2 0 100 twoItems token None (host (fresh config))).

Definition step2 (config : ViewabilityConfig) : Host unit :=
  runTimers 1500 (step1 config).

Definition step3 (config : ViewabilityConfig) : Host unit :=
  after (onUpdate 3000 2 50 100 twoItems token None (step2 config)).

Definition step4 (config : ViewabilityConfig) : Host unit :=
  after (onUpdate 3100 2 0 100 twoItems token None (step3 config)).

(** The committed items hold key "a"; the current indices hold item 1 only. *)
Definition diffState : ViewabilityHelper unit :=
  {| _config := defaultConfig; _hasInteracted := false; _lastUpdateTime := 1000%Z;
     _timers := []; _viewableIndices := [1%Z];
     _viewableItems := [("a"%string, token 0 true)] |}.

End Demo.

Arguments Operation : clear implicits.

(** ** Vocabulary of the further properties *)

(** [stopRel] for a scan over any integers: only an overlapping index that
    is not negative makes [firstVisible >= 0] true. *)
Definition stopRelAny (scrollOffset viewportHeight : Q)
    (getFrameMetrics : Z -> option FrameMetrics.t)
    (seen : bool) (start i : Z) : Prop :=
  measuredOutsideAt scrollOffset viewportHeight getFrameMetrics i
  /\ (seen = true
      \/ exists k, (start <= k < i)%Z /\ (0 <= k)%Z
           /\ overlapsAt scrollOffset viewportHeight getFrameMetrics k).

(** Index [i] is measured and outside the viewport, and a non-negative
    index of the scan before it, from [start] on, overlaps the viewport. *)
Definition stopPointAny (scrollOffset viewportHeight : Q)
    (getFrameMetrics : Z -> option FrameMetrics.t) (start i : Z) : Prop :=
  measuredOutsideAt scrollOffset viewportHeight getFrameMetrics i
  /\ exists k, (start <= k < i)%Z /\ (0 <= k)%Z
       /\ overlapsAt scrollOffset viewportHeight getFrameMetrics k.

Section FurtherVocabulary.

Context {Item : Type}.

(** The keys of a map of tokens are distinct and each token sits under its
    own key. *)
Definition wellKeyed (m : JsMap.t (ViewToken Item)) : Prop :=
  NoDup (JsMap.keys m) /\ forall k v, In (k, v) m -> key v = k.

(** The tokens of a notification have distinct keys, in [viewableItems] and
    in [changed]. *)
Definition distinctKeys (n : Notification Item) : Prop :=
  NoDup (map key (viewableItems n)) /\ NoDup (map key (changed n)).

(** The host's outstanding timeouts have distinct handles, all handed out
    already, and the tracker has each of them in [_timers]. *)
Definition timersTracked (h : Host Item) : Prop :=
  NoDup (map handle (timerQueue h))
  /\ (forall t, In t (timerQueue h) -> (handle t < nextHandle h)%Z)
  /\ (forall t, In t (timerQueue h) -> In (handle t) (_timers (helper h))).

(** The committed items are well keyed and so was every notification sent. *)
Definition keysDistinct (h : Host Item) : Prop :=
  wellKeyed (_viewableItems (helper h))
  /\ forall n, In n (notifications h) -> distinctKeys n.

(** An operation that is no interaction: an update with scroll offset 0, a
    timer run or a disposal. *)
Definition withoutInteraction (op : Operation Item) : Prop :=
  match op with
  | Update _ _ scrollOffset _ _ _ _ => scrollOffset == 0
  | RecordInteraction => False
  | RunTimers _ | Dispose => True
  end.

End FurtherVocabulary.

(** Further concrete data. *)
Module Cases.

(** Interaction counts from offset 10 on, 200 ms after the first timestamp. *)
Definition filtered : ViewabilityConfig :=
  {| minimumViewTime := None; minViewTime := None;
     viewAreaCoveragePercentThreshold := Some 0;
     itemVisiblePercentThreshold := None;
     waitForInteraction := true;
     scrollInteractionFilter :=
       Some {| minimumOffset := Some 10; minimumElapsed := Some 200%Z |} |}.

(** Items at indices -1, 0 and 1; the one at -1 overlaps a viewport of 100
    at scroll offset 0, the others lie below it. *)
Definition fromMinusOne (i : Z) : option FrameMetrics.t :=
  if (i =? -1)%Z then Some {| FrameMetrics.length := 50; FrameMetrics.offset := 0 |}
  else if (i =? 0)%Z
       then Some {| FrameMetrics.length := 50; FrameMetrics.offset := 500 |}
       else if (i =? 1)%Z
            then Some {| FrameMetrics.length := 50; FrameMetrics.offset := 550 |}
            else None.

(** Every index makes the same key. *)
Definition sameKey (i : Z) (isViewable : bool) : ViewToken unit :=
  {| item := tt; key := "k"%string; index := Some i; isViewable := isViewable;
     section := None |}.

(** A tracker with the filter above, timestamped at time 1000. *)
Definition timestamped : Host unit :=
  Demo.host
    {| _config := filtered; _hasInteracted := false; _lastUpdateTime := 1000%Z;
       _timers := []; _viewableIndices := []; _viewableItems := [] |}.

(** Items 0 and 1 are current, nothing is committed. *)
Definition twoCurrent : ViewabilityHelper unit :=
  {| _config := defaultConfig; _hasInteracted := false; _lastUpdateTime := 1000%Z;
     _timers := []; _viewableIndices := [0%Z; 1%Z]; _viewableItems := [] |}.

(** The scan of [Demo.twoItems] at scroll offset 1000: nothing overlaps. *)
Definition scanNothing : ScanState :=
  {| firstVisible := (-1)%Z; viewableIndices := []; metricsCalls := [0%Z; 1%Z] |}.

(** The timer the first update of [Demo.step1 Demo.debounced] schedules. *)
Definition firstTimer : Timer unit :=
  {| handle := 1%Z; due := 1500%Z;
     task := {| snapshot := [0%Z]; tokenFactory := Demo.token |} |}.

(** The scan of [Demo.gapItems]. *)
Definition scanGap : ScanState :=
  {| firstVisible := 2%Z; viewableIndices := [0%Z; 2%Z];
     metricsCalls := [0%Z; 1%Z; 2%Z; 3%Z] |}.

(** The scenario of [Demo.step1], then a scroll at time 1100 that takes
    every item out of view. *)
Definition scrolledAway (config : ViewabilityConfig) : Host unit :=
  after (onUpdate 1100 2 1000 100 Demo.twoItems Demo.token None
           (Demo.step1 config)).

End Cases.

(** ** The geometric test in double precision

    The three module-level functions on binary64 numbers: every [-], [/],
    [*] and comparison is the IEEE operation, [Math.max] and [Math.min] are
    JavaScript's (NaN if an argument is NaN, and [-0] below [+0]). *)
Module Double.
Import PrimFloat.

Definition Math_max (a b : float) : float :=
  if is_nan a || is_nan b then nan
  else if ltb a b then b
  else if ltb b a then a
  else if get_sign a then b else a.

Definition Math_min (a b : float) : float :=
  if is_nan a || is_nan b then nan
  else if ltb a b then a
  else if ltb b a then b
  else if get_sign a then a else b.

Definition _isEntirelyVisible (top bottom viewportHeight : float) : bool :=
  leb 0 top && leb bottom viewportHeight && ltb top bottom.

Definition _getPixelsVisible (top bottom viewportHeight : float) : float :=
  let visibleHeight := (Math_min bottom viewportHeight - Math_max top 0)%float in
  Math_max 0 visibleHeight.

Definition _isViewable (viewAreaMode : bool) (viewablePercentThreshold : float)
    (top bottom viewportHeight itemLength : float) : bool :=
  if _isEntirelyVisible top bottom viewportHeight then true
  else
    let pixels := _getPixelsVisible top bottom viewportHeight in
    let percent :=
      (100 * (if viewAreaMode then pixels / viewportHeight
              else pixels / itemLength))%float in
    leb viewablePercentThreshold percent.

(** The numbers of the examples. *)
Definition n0 : float := 0%float.
Definition n29 : float := 29%float.
Definition n50 : float := 50%float.
Definition n100 : float := 100%float.
Definition minus50 : float := (-50)%float.
Definition minus71 : float := (-71)%float.

End Double.

(** * Properties *)

(** ** Numbers and the geometric test *)

Lemma Qltb_iff (x y : Q) : JS.Qltb x y = true <-> x < y.
Proof.
  unfold JS.Qltb. rewrite negb_true_iff.
  destruct (Qle_bool y x) eqn:E.
  - apply Qle_bool_iff in E. split; [discriminate | intro; lra].
  - split; [intros _ | reflexivity].
    destruct (Qlt_le_dec x y) as [L | L]; [exact L |].
    apply Qle_bool_iff in L. congruence.
Qed.

Lemma Qltb_false_iff (x y : Q) : JS.Qltb x y = false <-> y <= x.
Proof.
  destruct (JS.Qltb x y) eqn:E.
  - apply Qltb_iff in E. split; [discriminate | intro; lra].
  - split; [intros _ | reflexivity].
    destruct (Qlt_le_dec x y) as [L | L]; [| exact L].
    apply Qltb_iff in L. congruence.
Qed.

Lemma Qle_bool_false_iff (x y : Q) : Qle_bool x y = false <-> y < x.
Proof.
  rewrite <- Qltb_iff. unfold JS.Qltb. rewrite negb_true_iff. reflexivity.
Qed.

Lemma Math_min_Qmin (a b : Q) : JS.Math_min a b == Qmin a b.
Proof.
  unfold JS.Math_min.
  destruct (Qle_bool a b) eqn:E;
    [apply Qle_bool_iff in E | apply Qle_bool_false_iff in E];
    destruct (Q.min_spec a b) as [[L ->] | [L ->]]; lra.
Qed.

Lemma Math_max_Qmax (a b : Q) : JS.Math_max a b == Qmax a b.
Proof.
  unfold JS.Math_max.
  destruct (Qle_bool a b) eqn:E;
    [apply Qle_bool_iff in E | apply Qle_bool_false_iff in E];
    destruct (Q.max_spec a b) as [[L ->] | [L ->]]; lra.
Qed.

Lemma getPixelsVisible_spec (top bottom viewportHeight : Q) :
  _getPixelsVisible top bottom viewportHeight
  == Spec.pixelsVisible top bottom viewportHeight.
Proof.
  unfold _getPixelsVisible, Spec.pixelsVisible.
  rewrite Math_max_Qmax, Math_min_Qmin, Math_max_Qmax. reflexivity.
Qed.

Lemma getPixelsVisible_nonneg (top bottom viewportHeight : Q) :
  0 <= _getPixelsVisible top bottom viewportHeight.
Proof.
  unfold _getPixelsVisible, JS.Math_max at 1.
  destruct (Qle_bool 0 _) eqn:E.
  - apply Qle_bool_iff in E. exact E.
  - lra.
Qed.

Lemma isEntirelyVisible_iff (top bottom viewportHeight : Q) :
  _isEntirelyVisible top bottom viewportHeight = true
  <-> Spec.entirelyVisible top bottom viewportHeight.
Proof.
  unfold _isEntirelyVisible, Spec.entirelyVisible.
  rewrite !andb_true_iff, !Qle_bool_iff, Qltb_iff. tauto.
Qed.

Lemma ge_same (a a' b b' : JS.number) :
  JS.same a a' -> JS.same b b' -> JS.ge a b = JS.ge a' b'.
Proof.
  destruct a, a', b, b'; simpl; try tauto.
  intros Ha Hb. rewrite Ha, Hb. reflexivity.
Qed.

Lemma same_refl (a : JS.number) : JS.same a a.
Proof. destruct a; simpl; auto. reflexivity. Qed.

(** [100 * (p / d)] and [(100 * p') / d] denote the same number when [p]
    and [p'] do, also when [d] is zero. *)
Lemma percent_assoc (p p' d : Q) :
  p == p' ->
  JS.same (JS.mul (JS.Fin 100) (JS.div (JS.Fin p) (JS.Fin d)))
          (JS.div (JS.mul (JS.Fin 100) (JS.Fin p')) (JS.Fin d)).
Proof.
  intro Hp. simpl.
  destruct (Qeq_bool d 0) eqn:Ed.
  - assert (Qeq_bool (100 * p') 0 = Qeq_bool p 0) as ->.
    { destruct (Qeq_bool p 0) eqn:E0.
      - apply Qeq_bool_iff in E0. apply Qeq_bool_iff. lra.
      - apply Qeq_bool_neq in E0.
        destruct (Qeq_bool (100 * p') 0) eqn:E1; [| reflexivity].
        apply Qeq_bool_iff in E1. exfalso. apply E0. lra. }
    destruct (Qeq_bool p 0) eqn:E0; [exact I |].
    assert (JS.Qltb 0 (100 * p') = JS.Qltb 0 p) as ->.
    { destruct (JS.Qltb 0 p) eqn:E1.
      - apply Qltb_iff in E1. apply Qltb_iff. lra.
      - apply Qltb_false_iff in E1. apply Qltb_false_iff. lra. }
    destruct (JS.Qltb 0 p); simpl; exact I.
  - apply Qeq_bool_neq in Ed. simpl. rewrite Hp. field. exact Ed.
Qed.

Lemma isViewable_percent (viewAreaMode : bool)
    (threshold top bottom viewportHeight itemLength : Q) :
  _isViewable viewAreaMode threshold top bottom viewportHeight itemLength
  = _isEntirelyVisible top bottom viewportHeight
    || JS.ge (Spec.percent viewAreaMode top bottom viewportHeight itemLength)
             (JS.Fin threshold).
Proof.
  unfold _isViewable, Spec.percent.
  destruct (_isEntirelyVisible top bottom viewportHeight); [reflexivity |].
  cbv zeta. rewrite orb_false_l.
  apply ge_same; [| apply same_refl].
  destruct viewAreaMode; apply percent_assoc, getPixelsVisible_spec.
Qed.

(** The test in exact arithmetic: it answers true exactly when the item is
    entirely visible ([top >= 0], [bottom <= viewportHeight], [bottom > top])
    -- then whatever the threshold -- or the visible percent,
    [100 * pixelsVisible / viewportHeight] in view-area mode and
    [100 * pixelsVisible / itemLength] in item-visible mode, with
    [pixelsVisible = max(0, min(bottom, viewportHeight) - max(top, 0))],
    is [>=] the threshold. *)
Theorem isViewable_exact_iff (viewAreaMode : bool)
    (threshold top bottom viewportHeight itemLength : Q) :
  (_isViewable viewAreaMode threshold top bottom viewportHeight itemLength = true
   <-> (0 <= top /\ bottom <= viewportHeight /\ top < bottom)
       \/ JS.ge (JS.div (JS.mul (JS.Fin 100)
                           (JS.Fin (Qmax 0 (Qmin bottom viewportHeight - Qmax top 0))))
                        (JS.Fin (if viewAreaMode then viewportHeight else itemLength)))
                (JS.Fin threshold) = true)
  /\ ((0 <= top /\ bottom <= viewportHeight /\ top < bottom) ->
      forall anyThreshold,
        _isViewable viewAreaMode anyThreshold top bottom viewportHeight itemLength
        = true).
Proof.
  split.
  - rewrite isViewable_percent, orb_true_iff, isEntirelyVisible_iff.
    reflexivity.
  - intros E t. rewrite isViewable_percent, orb_true_iff, isEntirelyVisible_iff.
    left. exact E.
Qed.

(** C10.  A zero-length item strictly inside the viewport is never entirely
    visible and has no visible pixels; in item-visible mode its percent is
    [0 / 0], NaN, and it is not viewable whatever the threshold; in
    view-area mode with threshold 0 its percent is 0 and it is viewable. *)
Theorem C10_zero_length_item (top viewportHeight threshold : Q) :
  0 < top -> top < viewportHeight ->
  _isEntirelyVisible top top viewportHeight = false
  /\ _getPixelsVisible top top viewportHeight == 0
  /\ JS.div (JS.Fin (_getPixelsVisible top top viewportHeight)) (JS.Fin 0) = JS.NaN
  /\ _isViewable false threshold top top viewportHeight 0 = false
  /\ JS.same (JS.mul (JS.Fin 100)
                (JS.div (JS.Fin (_getPixelsVisible top top viewportHeight))
                        (JS.Fin viewportHeight)))
             (JS.Fin 0)
  /\ _isViewable true 0 top top viewportHeight 0 = true.
Proof.
  intros Htop Hvh.
  assert (Hent : _isEntirelyVisible top top viewportHeight = false).
  { unfold _isEntirelyVisible.
    assert (JS.Qltb top top = false) as -> by (apply Qltb_false_iff; lra).
    apply andb_false_r. }
  assert (Hpix : _getPixelsVisible top top viewportHeight == 0).
  { rewrite getPixelsVisible_spec. unfold Spec.pixelsVisible.
    destruct (Q.min_spec top viewportHeight) as [[_ ->] | [L _]]; [| lra].
    destruct (Q.max_spec top 0) as [[L _] | [_ ->]]; [lra |].
    destruct (Q.max_spec 0 (top - top)) as [[L _] | [_ ->]]; lra. }
  assert (Hz : Qeq_bool (_getPixelsVisible top top viewportHeight) 0 = true)
    by (apply Qeq_bool_iff; exact Hpix).
  assert (Hnan : JS.div (JS.Fin (_getPixelsVisible top top viewportHeight))
                        (JS.Fin 0) = JS.NaN).
  { simpl. rewrite Hz. reflexivity. }
  assert (Hvh0 : Qeq_bool viewportHeight 0 = false).
  { destruct (Qeq_bool viewportHeight 0) eqn:E; [| reflexivity].
    apply Qeq_bool_iff in E. lra. }
  repeat split; try assumption.
  - unfold _isViewable. rewrite Hent. cbv zeta. rewrite Hnan. reflexivity.
  - simpl. rewrite Hvh0. simpl. rewrite Hpix. field. lra.
  - unfold _isViewable. rewrite Hent. cbv zeta. simpl. rewrite Hvh0. simpl.
    apply Qle_bool_iff. rewrite Hpix.
    setoid_replace (100 * (0 / viewportHeight)) with 0 by (field; lra). lra.
Qed.

(** ** The range scan *)

Lemma zrange_S (start : Z) (n : nat) :
  zrange start (S n) = start :: zrange (start + 1) n.
Proof.
  unfold zrange. simpl. rewrite Z.add_0_r. f_equal.
  rewrite <- seq_shift, map_map. apply map_ext. intro k. lia.
Qed.

Lemma zrange_In (start : Z) (n : nat) (i : Z) :
  In i (zrange start n) <-> (start <= i < start + Z.of_nat n)%Z.
Proof.
  unfold zrange. rewrite in_map_iff. split.
  - intros (k & <- & Hk). apply in_seq in Hk. lia.
  - intros H. exists (Z.to_nat (i - start)). split; [lia |].
    apply in_seq. lia.
Qed.

Lemma zrange_sorted (n : nat) : forall start, StronglySorted Z.lt (zrange start n).
Proof.
  induction n as [| n IH]; intro start.
  - constructor.
  - rewrite zrange_S. constructor; [apply IH |].
    apply Forall_forall. intros x Hx. apply zrange_In in Hx. lia.
Qed.

Lemma filter_sorted (f : Z -> bool) (l : list Z) :
  StronglySorted Z.lt l -> StronglySorted Z.lt (filter f l).
Proof.
  induction 1 as [| a l Hl IH Ha]; simpl; [constructor |].
  destruct (f a); [| exact IH].
  constructor; [exact IH |].
  apply Forall_forall. intros x Hx. apply filter_In in Hx.
  rewrite Forall_forall in Ha. apply Ha, Hx.
Qed.

Section ScanProperties.

Variable viewAreaMode : bool.
Variable threshold : Q.
Variable scrollOffset viewportHeight : Q.
Variable getFrameMetrics : Z -> option FrameMetrics.t.
Variable last_ : Z.

Let loop := scanLoop viewAreaMode threshold scrollOffset viewportHeight
              getFrameMetrics last_.
Let stops := stopRel scrollOffset viewportHeight getFrameMetrics.
Let pushes := collects scrollOffset viewportHeight getFrameMetrics
                viewAreaMode threshold.

Lemma overlaps_test (metrics : FrameMetrics.t) :
  JS.Qltb (FrameMetrics.offset metrics - scrollOffset) viewportHeight
  && JS.Qltb 0 (FrameMetrics.offset metrics - scrollOffset
                + FrameMetrics.length metrics) = true
  <-> topOf scrollOffset metrics < viewportHeight
      /\ 0 < bottomOf scrollOffset metrics.
Proof.
  rewrite andb_true_iff, !Qltb_iff. reflexivity.
Qed.


End ScanProperties.

Section TrackerProperties.

Context {Item : Type}.

Implicit Types (this : ViewabilityHelper Item) (h : Host Item).

Lemma exactlyOneThreshold_dec (config : ViewabilityConfig) :
  thresholdsValid config = true <-> exactlyOneThreshold config.
Proof.
  unfold thresholdsValid, exactlyOneThreshold.
  destruct (viewAreaCoveragePercentThreshold config),
           (itemVisiblePercentThreshold config); simpl;
    intuition (congruence || discriminate).
Qed.

(** The head of [computeViewableItems]: the threshold check, then the
    [itemCount === 0] exit, then the render-range check, then the loop. *)
Lemma computeViewableItems_traced_cases this (itemCount : Z)
    (scrollOffset viewportHeight : Q)
    (getFrameMetrics : Z -> option FrameMetrics.t)
    (renderRange : option RenderRange) :
  computeViewableItems_traced this itemCount scrollOffset viewportHeight
    getFrameMetrics renderRange
  = match thresholdOf (_config this) with
    | Some threshold =>
        if thresholdsValid (_config this) then
          if (itemCount =? 0)%Z then
            inr {| firstVisible := (-1)%Z; viewableIndices := [];
                   metricsCalls := [] |}
          else if (last (rangeOf itemCount renderRange) <? itemCount)%Z then
            inr (scanLoop (viewAreaModeOf (_config this)) threshold scrollOffset
                   viewportHeight getFrameMetrics
                   (last (rangeOf itemCount renderRange))
                   (Z.to_nat (last (rangeOf itemCount renderRange) + 1
                              - first (rangeOf itemCount renderRange)))
                   (first (rangeOf itemCount renderRange))
                   {| firstVisible := (-1)%Z; viewableIndices := [];
                      metricsCalls := [] |})
          else inl InvalidRenderRange
        else inl MustSetExactlyOneThreshold
    | None => inl MustSetExactlyOneThreshold
    end.
Proof.
  unfold computeViewableItems_traced, thresholdOf, viewAreaModeOf,
    thresholdsValid, rangeOf.
  destruct (viewAreaCoveragePercentThreshold (_config this)),
           (itemVisiblePercentThreshold (_config this)); reflexivity.
Qed.

Lemma thresholdOf_Some (config : ViewabilityConfig) :
  exactlyOneThreshold config -> exists threshold, thresholdOf config = Some threshold.
Proof.
  unfold exactlyOneThreshold, thresholdOf, viewAreaModeOf.
  destruct (viewAreaCoveragePercentThreshold config) as [a |],
           (itemVisiblePercentThreshold config) as [b |]; simpl;
    intros [[H1 H2] | [H1 H2]]; try congruence; eauto.
Qed.




(** C8, as the code has it.  With a valid threshold configuration and
    [itemCount <> 0], a supplied render range with [last >= itemCount] makes
    the call throw the invalid-render-range error, before any metrics
    lookup; with [itemCount = 0] the call returns the empty sequence,
    without a metrics lookup and without an error, whatever range is
    supplied. *)
Theorem C8_render_range this (itemCount : Z) (scrollOffset viewportHeight : Q)
    (getFrameMetrics : Z -> option FrameMetrics.t) (range : RenderRange) :
  exactlyOneThreshold (_config this) ->
  (itemCount <= last range)%Z ->
  (itemCount <> 0%Z ->
     computeViewableItems_traced this itemCount scrollOffset viewportHeight
       getFrameMetrics (Some range) = inl InvalidRenderRange
     /\ computeViewableItems this itemCount scrollOffset viewportHeight
          getFrameMetrics (Some range) = inl InvalidRenderRange)
  /\ (itemCount = 0%Z ->
        computeViewableItems_traced this itemCount scrollOffset viewportHeight
          getFrameMetrics (Some range)
        = inr {| firstVisible := (-1)%Z; viewableIndices := []; metricsCalls := [] |}
        /\ computeViewableItems this itemCount scrollOffset viewportHeight
             getFrameMetrics (Some range) = inr []).
Proof.
  intros Hone Hlast.
  destruct (thresholdOf_Some _ Hone) as (threshold & Hthr).
  unfold computeViewableItems.
  rewrite computeViewableItems_traced_cases, Hthr,
    (proj2 (exactlyOneThreshold_dec _) Hone).
  split.
  - intro Hnz. apply Z.eqb_neq in Hnz. rewrite Hnz. simpl.
    assert ((last range <? itemCount)%Z = false) as -> by (apply Z.ltb_ge; lia).
    split; reflexivity.
  - intros ->. simpl. split; reflexivity.
Qed.

(** C2, as the code has it.  The constructor does not look at the
    thresholds: it rejects a configuration exactly when
    [scrollInteractionFilter] is set without [waitForInteraction].  The
    threshold check belongs to [computeViewableItems]: every call, whatever
    its arguments, throws the threshold error when both or neither
    threshold is set, and no call throws it when exactly one is set. *)
Theorem C2_threshold_validation (config : ViewabilityConfig) :
  (constructor (Item := Item) (Some config) = inl FilterNeedsWaitForInteraction
   <-> scrollInteractionFilter config <> None /\ waitForInteraction config = false)
  /\ (constructor (Item := Item) (Some config) <> inl MustSetExactlyOneThreshold)
  /\ (forall this, constructor (Some config) = inr this -> _config this = config)
  /\ forall this (itemCount : Z) (scrollOffset viewportHeight : Q)
       (getFrameMetrics : Z -> option FrameMetrics.t)
       (renderRange : option RenderRange),
       _config this = config ->
       (~ exactlyOneThreshold config ->
          computeViewableItems this itemCount scrollOffset viewportHeight
            getFrameMetrics renderRange = inl MustSetExactlyOneThreshold)
       /\ (exactlyOneThreshold config ->
             computeViewableItems this itemCount scrollOffset viewportHeight
               getFrameMetrics renderRange <> inl MustSetExactlyOneThreshold).
Proof.
  split; [| split; [| split]].
  - unfold constructor.
    destruct (scrollInteractionFilter config), (waitForInteraction config); simpl;
      intuition (congruence || discriminate).
  - unfold constructor.
    destruct (negb _ || _); discriminate.
  - unfold constructor. intros this.
    destruct (negb _ || _); [| discriminate].
    intro H. injection H as <-. reflexivity.
  - intros this itemCount scrollOffset viewportHeight getFrameMetrics renderRange <-.
    unfold computeViewableItems. rewrite computeViewableItems_traced_cases.
    split.
    + intro Hnot.
      destruct (thresholdsValid (_config this)) eqn:Hv.
      * apply exactlyOneThreshold_dec in Hv. contradiction.
      * destruct (thresholdOf (_config this)); reflexivity.
    + intro Hone. destruct (thresholdOf_Some _ Hone) as (threshold & ->).
      rewrite (proj2 (exactlyOneThreshold_dec _) Hone).
      destruct (itemCount =? 0)%Z; [discriminate |].
      destruct (last _ <? itemCount)%Z; discriminate.
Qed.

End TrackerProperties.

(** ** Maps, sets and arrays *)

Lemma includes_In (x : Z) (a : list Z) : includes x a = true <-> In x a.
Proof.
  unfold includes. rewrite existsb_exists. split.
  - intros (y & Hy & E). apply Z.eqb_eq in E. subst. exact Hy.
  - intro H. exists x. split; [exact H | apply Z.eqb_refl].
Qed.

Lemma JsSet_has_In (x : Z) (s : JsSet.t) : JsSet.has x s = true <-> In x s.
Proof. apply includes_In. Qed.

Lemma JsSet_has_add (x : Z) (s : JsSet.t) : JsSet.has x (JsSet.add x s) = true.
Proof.
  unfold JsSet.add. destruct (JsSet.has x s) eqn:E; [exact E |].
  apply JsSet_has_In, in_or_app. right. left. reflexivity.
Qed.

Lemma JsSet_has_delete (x : Z) (s : JsSet.t) :
  JsSet.has x (JsSet.delete x s) = false.
Proof.
  destruct (JsSet.has x (JsSet.delete x s)) eqn:E; [| reflexivity].
  apply JsSet_has_In in E. unfold JsSet.delete in E.
  apply filter_In in E. destruct E as [_ E].
  rewrite Z.eqb_refl in E. discriminate.
Qed.

Lemma sameIndices_from (a : list Z) : forall (b pre : list Z),
  forallb (fun iv => match nth_error (pre ++ b) (fst iv) with
                     | Some w => Z.eqb (snd iv) w
                     | None => false
                     end)
          (combine (seq (List.length pre) (List.length a)) a) = true
  /\ List.length a = List.length b
  <-> a = b.
Proof.
  induction a as [| x a IH]; intros b pre.
  - destruct b; simpl; intuition (congruence || discriminate).
  - destruct b as [| y b]; simpl.
    + intuition (congruence || discriminate).
    + rewrite nth_error_app2 by lia. rewrite Nat.sub_diag. simpl.
      rewrite andb_true_iff, Z.eqb_eq.
      specialize (IH b (pre ++ [y])).
      rewrite <- app_assoc, length_app in IH. simpl in IH.
      replace (List.length pre + 1)%nat with (S (List.length pre)) in IH by lia.
      split.
      * intros [[-> Hall] Hlen]. f_equal. apply IH. split; [exact Hall | lia].
      * intros E. injection E as -> ->.
        destruct (proj2 IH eq_refl) as [Hall _]. auto.
Qed.

Lemma sameIndices_eq (a b : list Z) : sameIndices a b = true <-> a = b.
Proof.
  unfold sameIndices. rewrite andb_true_iff, Nat.eqb_eq.
  rewrite <- (sameIndices_from a b []). simpl. tauto.
Qed.

Section MapProperties.

Context {V : Type}.

Implicit Types (m : JsMap.t V) (k : string) (v : V).

Lemma JsMap_has_In k m : JsMap.has k m = true <-> In k (JsMap.keys m).
Proof.
  unfold JsMap.has, JsMap.keys. rewrite existsb_exists, in_map_iff.
  split; intros (kv & H1 & H2).
  - apply String.eqb_eq in H2. eauto.
  - exists kv. split; [exact H2 | apply String.eqb_eq; exact H1].
Qed.

Lemma JsMap_set_In k v m (kv : string * V) :
  In kv (JsMap.set k v m) -> kv = (k, v) \/ In kv m.
Proof.
  induction m as [| [k' v'] m IH]; simpl.
  - intros [<- | []]. left. reflexivity.
  - destruct (String.eqb k' k); simpl; intros [<- | H]; auto.
    destruct (IH H); auto.
Qed.

Lemma JsMap_has_set k v m k' :
  JsMap.has k' (JsMap.set k v m) = String.eqb k k' || JsMap.has k' m.
Proof.
  induction m as [| [k0 v0] m IH]; simpl.
  - reflexivity.
  - destruct (String.eqb k0 k) eqn:E; simpl.
    + apply String.eqb_eq in E. subst k0.
      destruct (String.eqb k k'); reflexivity.
    + rewrite IH.
      destruct (String.eqb k0 k'), (String.eqb k k'); reflexivity.
Qed.

Lemma JsMap_fold_In (entries : list (string * V)) : forall m (kv : string * V),
  In kv (fold_left (fun m e => JsMap.set (fst e) (snd e) m) entries m) ->
  In kv m \/ In kv entries.
Proof.
  induction entries as [| [k v] entries IH]; simpl; intros m kv H; [auto |].
  destruct (IH _ _ H) as [H' | H']; [| auto].
  destruct (JsMap_set_In _ _ _ _ H'); auto.
Qed.

Lemma JsMap_fold_has (entries : list (string * V)) : forall m k,
  JsMap.has k (fold_left (fun m e => JsMap.set (fst e) (snd e) m) entries m)
  = JsMap.has k m || existsb (fun e => String.eqb (fst e) k) entries.
Proof.
  induction entries as [| [k0 v0] entries IH]; simpl; intros m k.
  - rewrite orb_false_r. reflexivity.
  - rewrite IH, JsMap_has_set.
    destruct (String.eqb k0 k), (JsMap.has k m); reflexivity.
Qed.

(** A loop that pushes [g x] for the elements [x] that pass [p]. *)
Lemma fold_push {A B : Type} (p : A -> bool) (g : A -> B) (l : list A) :
  forall acc,
    fold_left (fun acc x => if p x then acc ++ [g x] else acc) l acc
    = acc ++ map g (filter p l).
Proof.
  induction l as [| x l IH]; simpl; intro acc.
  - rewrite app_nil_r. reflexivity.
  - rewrite IH. destruct (p x); simpl; [rewrite <- app_assoc |]; reflexivity.
Qed.

End MapProperties.

(** ** Finalize and diff *)

Section FinalizeProperties.

Context {Item : Type}.

Implicit Types (this : ViewabilityHelper Item) (h : Host Item).
Implicit Types (createViewToken : Z -> bool -> ViewToken Item).

(** The new mapping holds the tokens made, with the flag [true], for the
    indices to check that are still current, under their keys. *)
Lemma nextItemsOf_In this (toCheck : list Z) createViewToken k (v : ViewToken Item) :
  In (k, v) (nextItemsOf this toCheck createViewToken) ->
  exists ii, In ii toCheck /\ In ii (_viewableIndices this)
    /\ v = createViewToken ii true /\ k = key v.
Proof.
  unfold nextItemsOf, JsMap.ofEntries. intro H.
  apply JsMap_fold_In in H. destruct H as [[] | H].
  apply in_map_iff in H. destruct H as (ii & E & Hii).
  apply filter_In in Hii. destruct Hii as [H1 H2]. apply includes_In in H2.
  injection E as <- <-. eauto.
Qed.

Lemma nextItemsOf_has this (toCheck : list Z) createViewToken k :
  JsMap.has k (nextItemsOf this toCheck createViewToken) = true
  <-> exists ii, In ii toCheck /\ In ii (_viewableIndices this)
        /\ key (createViewToken ii true) = k.
Proof.
  unfold nextItemsOf, JsMap.ofEntries. rewrite JsMap_fold_has. simpl.
  rewrite existsb_exists. split.
  - intros (e & He & E). apply String.eqb_eq in E.
    apply in_map_iff in He. destruct He as (ii & <- & Hii).
    apply filter_In in Hii. destruct Hii as [H1 H2]. apply includes_In in H2.
    eauto.
  - intros (ii & H1 & H2 & E).
    exists (key (createViewToken ii true), createViewToken ii true). split.
    + apply in_map_iff. exists ii. split; [reflexivity |].
      apply filter_In. split; [exact H1 | apply includes_In; exact H2].
    + apply String.eqb_eq. exact E.
Qed.

(** The two loops of [_onUpdateSync] as one list, and its two exits. *)
Lemma finalize_diff this (toCheck : list Z) createViewToken :
  let prevItems := _viewableItems this in
  let nextItems := nextItemsOf this toCheck createViewToken in
  let changed :=
    map snd (filter (fun kv => negb (JsMap.has (fst kv) prevItems)) nextItems)
    ++ map (fun kv => withIsViewable (snd kv) false)
           (filter (fun kv => negb (JsMap.has (fst kv) nextItems)) prevItems) in
  (forall k v, In (k, v) nextItems ->
     exists ii, In ii toCheck /\ In ii (_viewableIndices this)
       /\ v = createViewToken ii true /\ k = key v)
  /\ ((_onUpdateSync toCheck createViewToken this
       = (set_viewableItems nextItems this,
          Some {| viewableItems := JsMap.values nextItems; changed := changed |})
       /\ changed <> [])
      \/ (changed = []
          /\ _onUpdateSync toCheck createViewToken this = (this, None))).
Proof.
  intros prevItems nextItems changed.
  assert (Hchanged : changedOf this toCheck createViewToken = changed).
  { unfold changedOf, pushDisappeared, pushAppeared.
    rewrite (fold_push (fun kv => negb (JsMap.has (fst kv) (_viewableItems this)))
               snd). simpl.
    rewrite (fold_push
               (fun kv => negb (JsMap.has (fst kv)
                                  (nextItemsOf this toCheck createViewToken)))
               (fun kv => withIsViewable (snd kv) false)).
    reflexivity. }
  split; [intros k v; apply nextItemsOf_In |].
  unfold _onUpdateSync. rewrite Hchanged. fold nextItems.
  destruct changed eqn:E; [right | left]; split; try reflexivity.
  discriminate.
Qed.

(** C7.  At a finalize, [changed] is, in this order, the tokens of the new
    mapping whose key the committed items lack, then the committed tokens
    whose key the new mapping lacks, each with [isViewable] set to false;
    the new mapping holds, under their keys, the tokens made with the flag
    true for the indices still current.  The callback is called exactly
    when [changed] is not empty, and exactly then are the committed items
    replaced by the new mapping; otherwise the tracker is left as it was. *)
Theorem C7_finalize_diff this (toCheck : list Z) createViewToken :
  let prevItems := _viewableItems this in
  let nextItems := nextItemsOf this toCheck createViewToken in
  let changed :=
    map snd (filter (fun kv => negb (JsMap.has (fst kv) prevItems)) nextItems)
    ++ map (fun kv => withIsViewable (snd kv) false)
           (filter (fun kv => negb (JsMap.has (fst kv) nextItems)) prevItems) in
  (forall k v, In (k, v) nextItems ->
     exists ii, In ii toCheck /\ In ii (_viewableIndices this)
       /\ v = createViewToken ii true /\ k = key v)
  /\ (forall k, In k (JsMap.keys nextItems) <->
        exists ii, In ii toCheck /\ In ii (_viewableIndices this)
          /\ key (createViewToken ii true) = k)
  /\ (changed <> [] ->
      _onUpdateSync toCheck createViewToken this
      = (set_viewableItems nextItems this,
         Some {| viewableItems := JsMap.values nextItems; changed := changed |}))
  /\ (changed = [] ->
      _onUpdateSync toCheck createViewToken this = (this, None)).
Proof.
  intros prevItems nextItems changed.
  destruct (finalize_diff this toCheck createViewToken)
    as (Hnext & Hrun).
  fold prevItems nextItems changed in Hrun.
  split; [exact Hnext |].
  split; [intro k; rewrite <- JsMap_has_In; apply nextItemsOf_has |].
  split; intro H; destruct Hrun as [(Hr & Hc) | (Hc & Hr)];
    try exact Hr; congruence.
Qed.

End FinalizeProperties.

(** ** Update orchestration *)

Section UpdateProperties.

Context {Item : Type}.

Implicit Types (this : ViewabilityHelper Item) (h : Host Item).
Implicit Types (createViewToken : Z -> bool -> ViewToken Item).
Implicit Types (getFrameMetrics : Z -> option FrameMetrics.t).

(** *** What the two latches touch *)

Lemma latchLastUpdateTime_fields now getFrameMetrics this :
  let this' := latchLastUpdateTime now getFrameMetrics this in
  _config this' = _config this
  /\ _hasInteracted this' = _hasInteracted this
  /\ _timers this' = _timers this
  /\ _viewableIndices this' = _viewableIndices this
  /\ _viewableItems this' = _viewableItems this.
Proof.
  unfold latchLastUpdateTime. destruct (_ && _); simpl; auto.
Qed.

Lemma latchInteraction_fields (scrollOffset : Q) (elapsed : Z) this :
  let this' := latchInteraction scrollOffset elapsed this in
  _config this' = _config this
  /\ _lastUpdateTime this' = _lastUpdateTime this
  /\ _timers this' = _timers this
  /\ _viewableIndices this' = _viewableIndices this
  /\ _viewableItems this' = _viewableItems this
  /\ (_hasInteracted this = true -> _hasInteracted this' = true).
Proof.
  unfold latchInteraction.
  destruct (_ && _ && _); simpl; [| tauto].
  destruct (scrollInteractionFilter (_config this)); simpl; [| tauto].
  destruct (_ && _); simpl; tauto.
Qed.

Lemma afterGate_fields now (scrollOffset : Q) getFrameMetrics this :
  let this' := afterGate now scrollOffset getFrameMetrics this in
  _config this' = _config this
  /\ _lastUpdateTime this'
     = (if (_lastUpdateTime this =? 0)%Z && isSome (getFrameMetrics 0%Z)
        then now else _lastUpdateTime this)
  /\ _timers this' = _timers this
  /\ _viewableIndices this' = _viewableIndices this
  /\ _viewableItems this' = _viewableItems this
  /\ (_hasInteracted this = true -> _hasInteracted this' = true).
Proof.
  unfold afterGate. cbv zeta.
  destruct (latchInteraction_fields scrollOffset
              (updateElapsedOf now (latchLastUpdateTime now getFrameMetrics this))
              (latchLastUpdateTime now getFrameMetrics this))
    as (H1 & H2 & H3 & H4 & H5 & H6).
  destruct (latchLastUpdateTime_fields now getFrameMetrics this)
    as (G1 & G2 & G3 & G4 & G5).
  rewrite H1, H2, H3, H4, H5, G1, G3, G4, G5.
  repeat split; auto.
  - unfold latchLastUpdateTime. destruct (_ && _); reflexivity.
  - intro H. apply H6. rewrite G2. exact H.
Qed.

(** A suppressed update changed nothing but, possibly, the timestamp. *)
Lemma afterGate_suppressed now (scrollOffset : Q) getFrameMetrics this :
  suppressed (afterGate now scrollOffset getFrameMetrics this) = true ->
  afterGate now scrollOffset getFrameMetrics this
  = latchLastUpdateTime now getFrameMetrics this.
Proof.
  unfold afterGate. cbv zeta.
  set (t := latchLastUpdateTime now getFrameMetrics this).
  unfold suppressed, latchInteraction.
  destruct (waitForInteraction (_config t) && negb (_hasInteracted t)
            && negb (Qeq_bool scrollOffset 0)); [| reflexivity].
  destruct (scrollInteractionFilter (_config t)) as [f |].
  - match goal with |- context [if ?c then set_hasInteracted true _ else _] =>
      destruct c end; [| reflexivity].
    simpl. rewrite andb_false_r. discriminate.
  - simpl. rewrite andb_false_r. discriminate.
Qed.

(** *** The branches of [onUpdate] *)

Section Branches.

Variables (now itemCount : Z) (scrollOffset viewportHeight : Q).
Variable getFrameMetrics : Z -> option FrameMetrics.t.
Variable createViewToken : Z -> bool -> ViewToken Item.
Variable renderRange : option RenderRange.
Variable h : Host Item.

Let gated := afterGate now scrollOffset getFrameMetrics (helper h).
Let outcome := onUpdate now itemCount scrollOffset viewportHeight
                 getFrameMetrics createViewToken renderRange h.
Let computed := computedScan gated itemCount scrollOffset viewportHeight
                  getFrameMetrics renderRange.
Let committed (scan : ScanState) :=
  set_lastUpdateTime now (set_viewableIndices (viewableIndices scan) gated).

Lemma onUpdate_suppressed :
  suppressed gated = true ->
  outcome = {| after := set_helper gated h; lookups := probeOf (helper h);
               thrown := None |}.
Proof.
  intro H. unfold outcome, onUpdate. cbv zeta.
  unfold suppressed, gated, afterGate in H. cbv zeta in H. rewrite H.
  reflexivity.
Qed.

Lemma onUpdate_thrown (e : Error) :
  suppressed gated = false -> computed = inl e ->
  outcome = {| after := set_helper gated h; lookups := probeOf (helper h);
               thrown := Some e |}.
Proof.
  intros H Hc. unfold outcome, onUpdate. cbv zeta.
  unfold suppressed, gated, afterGate in H. cbv zeta in H. rewrite H.
  unfold computed, computedScan, gated, afterGate in Hc. cbv zeta in Hc.
  rewrite Hc. reflexivity.
Qed.

Lemma onUpdate_same (scan : ScanState) :
  suppressed gated = false -> computed = inr scan ->
  viewableIndices scan = _viewableIndices gated ->
  outcome = {| after := set_helper gated h;
               lookups := probeOf (helper h) ++ metricsCalls scan;
               thrown := None |}.
Proof.
  intros H Hc Hsame. unfold outcome, onUpdate. cbv zeta.
  unfold suppressed, gated, afterGate in H. cbv zeta in H. rewrite H.
  unfold computed, computedScan, gated, afterGate in Hc. cbv zeta in Hc.
  rewrite Hc.
  assert (Hs : sameIndices (_viewableIndices gated) (viewableIndices scan) = true)
    by (apply sameIndices_eq; congruence).
  unfold gated, afterGate in Hs. cbv zeta in Hs. rewrite Hs. reflexivity.
Qed.

Lemma onUpdate_deferred (scan : ScanState) (delay : Z) :
  suppressed gated = false -> computed = inr scan ->
  viewableIndices scan <> _viewableIndices gated ->
  minViewTime (_config (helper h)) = Some delay -> delay <> 0%Z ->
  (elapsedAt now getFrameMetrics (helper h) < delay)%Z ->
  outcome
  = {| after :=
         {| helper := set_timers (JsSet.add (nextHandle h) (_timers gated))
                        (committed scan);
            timerQueue :=
              timerQueue h ++
              [{| handle := nextHandle h; due := (now + delay)%Z;
                  task := {| snapshot := viewableIndices scan;
                             tokenFactory := createViewToken |} |}];
            nextHandle := (nextHandle h + 1)%Z;
            notifications := notifications h |};
       lookups := probeOf (helper h) ++ metricsCalls scan;
       thrown := None |}.
Proof.
  intros H Hc Hdiff Hcfg Hnz Hlt. unfold outcome, onUpdate. cbv zeta.
  unfold suppressed, gated, afterGate in H. cbv zeta in H. rewrite H.
  unfold computed, computedScan, gated, afterGate in Hc. cbv zeta in Hc.
  rewrite Hc.
  assert (Hs : sameIndices (_viewableIndices gated) (viewableIndices scan) = false).
  { destruct (sameIndices _ _) eqn:E; [| reflexivity].
    apply sameIndices_eq in E. congruence. }
  unfold gated, afterGate in Hs. cbv zeta in Hs. rewrite Hs.
  cbn [_config set_lastUpdateTime set_viewableIndices].
  destruct (afterGate_fields now scrollOffset getFrameMetrics (helper h))
    as (Hconf & _).
  unfold afterGate in Hconf. cbv zeta in Hconf. rewrite Hconf, Hcfg.
  assert (truthyZ delay = true) as ->
    by (unfold truthyZ; apply negb_true_iff, Z.eqb_neq; exact Hnz).
  unfold elapsedAt in Hlt. apply Z.ltb_lt in Hlt. rewrite Hlt.
  reflexivity.
Qed.

Lemma onUpdate_synchronous (scan : ScanState) :
  suppressed gated = false -> computed = inr scan ->
  viewableIndices scan <> _viewableIndices gated ->
  (match minViewTime (_config (helper h)) with
   | Some delay => delay = 0%Z \/ (delay <= elapsedAt now getFrameMetrics (helper h))%Z
   | None => True
   end) ->
  outcome
  = {| after := notify (snd (_onUpdateSync (viewableIndices scan) createViewToken
                               (committed scan)))
                  (set_helper (fst (_onUpdateSync (viewableIndices scan)
                                      createViewToken (committed scan))) h);
       lookups := probeOf (helper h) ++ metricsCalls scan;
       thrown := None |}.
Proof.
  intros H Hc Hdiff Hcfg. unfold outcome, onUpdate. cbv zeta.
  unfold suppressed, gated, afterGate in H. cbv zeta in H. rewrite H.
  unfold computed, computedScan, gated, afterGate in Hc. cbv zeta in Hc.
  rewrite Hc.
  assert (Hs : sameIndices (_viewableIndices gated) (viewableIndices scan) = false).
  { destruct (sameIndices _ _) eqn:E; [| reflexivity].
    apply sameIndices_eq in E. congruence. }
  unfold gated, afterGate in Hs. cbv zeta in Hs. rewrite Hs.
  cbn [_config set_lastUpdateTime set_viewableIndices].
  destruct (afterGate_fields now scrollOffset getFrameMetrics (helper h))
    as (Hconf & _).
  unfold afterGate in Hconf. cbv zeta in Hconf. rewrite Hconf.
  destruct (minViewTime (_config (helper h))) as [delay |]; [| reflexivity].
  assert (truthyZ delay
          && (updateElapsedOf now
                (latchLastUpdateTime now getFrameMetrics (helper h)) <? delay)%Z
          = false) as ->; [| reflexivity].
  destruct Hcfg as [-> | Hge]; [reflexivity |].
  apply andb_false_iff. right. apply Z.ltb_ge. exact Hge.
Qed.

End Branches.

(** Case analysis on the branch an update takes. *)
Ltac update_branches now itemCount scrollOffset viewportHeight getFrameMetrics
     createViewToken renderRange h :=
  let e := fresh "e" in
  let scan := fresh "scan" in
  let delay := fresh "delay" in
  let Hsame := fresh "Hsame" in
  let Hdiff := fresh "Hdiff" in
  let Hzero := fresh "Hzero" in
  let Hnz := fresh "Hnz" in
  let Hlt := fresh "Hlt" in
  let Hge := fresh "Hge" in
  let Hs := fresh "Hsuppressed" in
  let Hc := fresh "Hcomputed" in
  let Hcfg := fresh "Hdelay" in
  destruct (suppressed (afterGate now scrollOffset getFrameMetrics (helper h)))
    eqn:Hs;
  [ rewrite (onUpdate_suppressed now itemCount scrollOffset viewportHeight
               getFrameMetrics createViewToken renderRange h Hs)
  | destruct (computedScan (afterGate now scrollOffset getFrameMetrics (helper h))
                itemCount scrollOffset viewportHeight getFrameMetrics renderRange)
      as [e | scan] eqn:Hc;
    [ rewrite (onUpdate_thrown now itemCount scrollOffset viewportHeight
                 getFrameMetrics createViewToken renderRange h _ Hs Hc)
    | destruct (list_eq_dec Z.eq_dec (viewableIndices scan)
                  (_viewableIndices
                     (afterGate now scrollOffset getFrameMetrics (helper h))))
        as [Hsame | Hdiff];
      [ rewrite (onUpdate_same now itemCount scrollOffset viewportHeight
                   getFrameMetrics createViewToken renderRange h _ Hs Hc Hsame)
      | destruct (minViewTime (_config (helper h))) as [delay |] eqn:Hcfg;
        [ destruct (Z.eq_dec delay 0) as [Hzero | Hnz];
          [ rewrite (onUpdate_synchronous now itemCount scrollOffset viewportHeight
                       getFrameMetrics createViewToken renderRange h _ Hs Hc Hdiff)
              by (rewrite Hcfg; left; exact Hzero)
          | destruct (Z_lt_le_dec (elapsedAt now getFrameMetrics (helper h)) delay)
              as [Hlt | Hge];
            [ rewrite (onUpdate_deferred now itemCount scrollOffset viewportHeight
                         getFrameMetrics createViewToken renderRange h
                         _ _ Hs Hc Hdiff Hcfg Hnz Hlt)
            | rewrite (onUpdate_synchronous now itemCount scrollOffset
                         viewportHeight getFrameMetrics createViewToken
                         renderRange h _ Hs Hc Hdiff)
                by (rewrite Hcfg; right; exact Hge) ] ]
        | rewrite (onUpdate_synchronous now itemCount scrollOffset viewportHeight
                     getFrameMetrics createViewToken renderRange h _ Hs Hc Hdiff)
            by (rewrite Hcfg; exact I) ] ] ] ].

Lemma onUpdateSync_fields (toCheck : list Z) createViewToken this :
  let r := _onUpdateSync toCheck createViewToken this in
  _config (fst r) = _config this
  /\ _hasInteracted (fst r) = _hasInteracted this
  /\ _lastUpdateTime (fst r) = _lastUpdateTime this
  /\ _timers (fst r) = _timers this
  /\ _viewableIndices (fst r) = _viewableIndices this.
Proof.
  unfold _onUpdateSync. destruct (0 <? _)%nat; simpl; auto.
Qed.

(** Whatever branch an update takes, the configuration is kept and
    [_hasInteracted] is what the interaction latch left. *)
Lemma onUpdate_keeps (now itemCount : Z) (scrollOffset viewportHeight : Q)
    getFrameMetrics createViewToken (renderRange : option RenderRange) h :
  let o := onUpdate now itemCount scrollOffset viewportHeight getFrameMetrics
             createViewToken renderRange h in
  _config (helper (after o)) = _config (helper h)
  /\ _hasInteracted (helper (after o))
     = _hasInteracted (afterGate now scrollOffset getFrameMetrics (helper h)).
Proof.
  cbv zeta.
  destruct (afterGate_fields now scrollOffset getFrameMetrics (helper h))
    as (Hconf & _).
  update_branches now itemCount scrollOffset viewportHeight getFrameMetrics
    createViewToken renderRange h; simpl; auto;
  match goal with
  | |- context [_onUpdateSync ?l ?f ?t] =>
      destruct (onUpdateSync_fields l f t) as (-> & -> & _); simpl; auto
  end.
Qed.

(** An update that is neither suppressed nor interrupted by an exception
    leaves the computed sequence in [_viewableIndices] and either calls the
    callback at most once, or schedules one timer and does not call it. *)
Lemma onUpdate_accepted (now itemCount : Z) (scrollOffset viewportHeight : Q)
    getFrameMetrics createViewToken (renderRange : option RenderRange) h
    (scan : ScanState) :
  suppressed (afterGate now scrollOffset getFrameMetrics (helper h)) = false ->
  computedScan (afterGate now scrollOffset getFrameMetrics (helper h)) itemCount
    scrollOffset viewportHeight getFrameMetrics renderRange = inr scan ->
  let o := onUpdate now itemCount scrollOffset viewportHeight getFrameMetrics
             createViewToken renderRange h in
  _viewableIndices (helper (after o)) = viewableIndices scan
  /\ (((notifications (after o) = notifications h
        \/ exists n, notifications (after o) = notifications h ++ [n])
       /\ timerQueue (after o) = timerQueue h)
      \/ (notifications (after o) = notifications h
          /\ exists t, timerQueue (after o) = timerQueue h ++ [t])).
Proof.
  intros Hs Hc. cbv zeta.
  update_branches now itemCount scrollOffset viewportHeight getFrameMetrics
    createViewToken renderRange h; try congruence;
    assert (scan0 = scan) as -> by congruence; simpl.
  - split; [congruence | left; auto].
  - split.
    + destruct (onUpdateSync_fields (viewableIndices scan) createViewToken
                  (set_lastUpdateTime now
                     (set_viewableIndices (viewableIndices scan)
                        (afterGate now scrollOffset getFrameMetrics (helper h)))))
        as (_ & _ & _ & _ & ->). reflexivity.
    + left. split; [| reflexivity].
      destruct (snd (_onUpdateSync _ _ _)); eauto.
  - split; [reflexivity | right; eauto].
  - split.
    + destruct (onUpdateSync_fields (viewableIndices scan) createViewToken
                  (set_lastUpdateTime now
                     (set_viewableIndices (viewableIndices scan)
                        (afterGate now scrollOffset getFrameMetrics (helper h)))))
        as (_ & _ & _ & _ & ->). reflexivity.
    + left. split; [| reflexivity].
      destruct (snd (_onUpdateSync _ _ _)); eauto.
  - split.
    + destruct (onUpdateSync_fields (viewableIndices scan) createViewToken
                  (set_lastUpdateTime now
                     (set_viewableIndices (viewableIndices scan)
                        (afterGate now scrollOffset getFrameMetrics (helper h)))))
        as (_ & _ & _ & _ & ->). reflexivity.
    + left. split; [| reflexivity].
      destruct (snd (_onUpdateSync _ _ _)); eauto.
Qed.

(** *** Timers *)

Lemma fold_left_invariant {A B : Type} (P : A -> Prop) (f : A -> B -> A)
    (l : list B) :
  (forall a x, P a -> P (f a x)) -> forall a, P a -> P (fold_left f l a).
Proof.
  intro Hstep. induction l as [| x l IH]; simpl; auto.
Qed.

Lemma fireTimer_helper (t : Timer Item) h :
  helper (fireTimer t h)
  = fst (_onUpdateSync (snapshot (task t)) (tokenFactory (task t))
           (set_timers (JsSet.delete (handle t) (_timers (helper h))) (helper h))).
Proof. reflexivity. Qed.

Lemma fireTimer_keeps (t : Timer Item) h :
  _config (helper (fireTimer t h)) = _config (helper h)
  /\ _hasInteracted (helper (fireTimer t h)) = _hasInteracted (helper h)
  /\ _lastUpdateTime (helper (fireTimer t h)) = _lastUpdateTime (helper h)
  /\ _viewableIndices (helper (fireTimer t h)) = _viewableIndices (helper h).
Proof.
  rewrite fireTimer_helper.
  match goal with
  | |- context [_onUpdateSync ?l ?f ?x] =>
      destruct (onUpdateSync_fields l f x) as (-> & -> & -> & _ & ->)
  end. simpl. auto.
Qed.

(** Firing a timer takes its handle out of [_timers] and out of the host's
    queue, and calls the callback at most once; what that call reports
    viewable are tokens made, with the flag true, for indices of the
    timer's snapshot that are still in [_viewableIndices]. *)
Lemma fireTimer_effect (t : Timer Item) h :
  JsSet.has (handle t) (_timers (helper (fireTimer t h))) = false
  /\ (forall t', In t' (timerQueue (fireTimer t h)) -> handle t' <> handle t)
  /\ (notifications (fireTimer t h) = notifications h
      \/ exists n, notifications (fireTimer t h) = notifications h ++ [n]
           /\ (forall v, In v (viewableItems n) ->
                 exists ii, In ii (snapshot (task t))
                   /\ In ii (_viewableIndices (helper h))
                   /\ v = tokenFactory (task t) ii true)
           /\ (forall v, In v (changed n) ->
                 isViewable v = false
                 \/ exists ii, In ii (snapshot (task t))
                      /\ In ii (_viewableIndices (helper h))
                      /\ v = tokenFactory (task t) ii true)).
Proof.
  unfold fireTimer. cbv zeta.
  set (this := set_timers _ _).
  assert (Hidx : _viewableIndices this = _viewableIndices (helper h)) by reflexivity.
  destruct (finalize_diff this (snapshot (task t)) (tokenFactory (task t)))
    as (Hnext & Hrun).
  split.
  { change (JsSet.has (handle t)
              (_timers (fst (_onUpdateSync (snapshot (task t))
                               (tokenFactory (task t)) this))) = false).
    destruct (onUpdateSync_fields (snapshot (task t)) (tokenFactory (task t)) this)
      as (_ & _ & _ & -> & _).
    apply JsSet_has_delete. }
  split.
  { intros t' Hin.
    assert (Hq : In t' (filter (fun x => negb (Z.eqb (handle x) (handle t)))
                          (timerQueue h))).
    { destruct (snd (_onUpdateSync _ _ this)); exact Hin. }
    apply filter_In in Hq. destruct Hq as [_ Hq].
    apply negb_true_iff, Z.eqb_neq in Hq. exact Hq. }
  destruct Hrun as [(-> & _) | (_ & ->)]; simpl; [| left; reflexivity].
  right. eexists. split; [reflexivity |]. simpl. split.
  - intros v Hv. unfold JsMap.values in Hv. apply in_map_iff in Hv.
    destruct Hv as ([k v'] & <- & Hin). simpl.
    destruct (Hnext _ _ Hin) as (ii & H1 & H2 & H3 & _).
    rewrite Hidx in H2. eauto.
  - intros v Hv. apply in_app_or in Hv. destruct Hv as [Hv | Hv].
    + right. apply in_map_iff in Hv. destruct Hv as ([k v'] & <- & Hin). simpl.
      apply filter_In in Hin. destruct Hin as [Hin _].
      destruct (Hnext _ _ Hin) as (ii & H1 & H2 & H3 & _).
      rewrite Hidx in H2. eauto.
    + left. apply in_map_iff in Hv. destruct Hv as (kv & <- & _). reflexivity.
Qed.

Lemma clearTimeout_helper (x : Z) h : helper (clearTimeout x h) = helper h.
Proof. reflexivity. Qed.

Lemma perform_keeps_interacted (op : Operation Item) h :
  _hasInteracted (helper h) = true ->
  _hasInteracted (helper (perform op h)) = true.
Proof.
  intro H. destruct op; simpl.
  - destruct (onUpdate_keeps now itemCount scrollOffset viewportHeight
                getFrameMetrics createViewToken renderRange h) as (_ & ->).
    destruct (afterGate_fields now scrollOffset getFrameMetrics (helper h))
      as (_ & _ & _ & _ & _ & Hmono). auto.
  - reflexivity.
  - unfold runTimers.
    apply (fold_left_invariant
             (fun h => _hasInteracted (helper h) = true)); [| exact H].
    intros a t Ha. destruct (existsb _ _); [| exact Ha].
    destruct (fireTimer_keeps t a) as (_ & -> & _). exact Ha.
  - unfold dispose.
    apply (fold_left_invariant
             (fun h => _hasInteracted (helper h) = true)); [| exact H].
    intros a x Ha. exact Ha.
Qed.

End UpdateProperties.

(** ** The claims about updates *)

Section UpdateClaims.

Context {Item : Type}.

Implicit Types (this : ViewabilityHelper Item) (h : Host Item).
Implicit Types (createViewToken : Z -> bool -> ViewToken Item).
Implicit Types (getFrameMetrics : Z -> option FrameMetrics.t).

(** C3, as the code has it.  An update made with [waitForInteraction]
    configured, after whose gating check no interaction is latched, throws
    nothing, runs no scan (the only metrics lookup is the probe of item 0
    that line 161 makes while [_lastUpdateTime] is 0), calls no callback,
    schedules no timer and leaves every field of the tracker as it was,
    except [_lastUpdateTime]: when that was 0 and item 0 has metrics, it
    now holds the time of the update. *)
Theorem C3_suppressed_update (now itemCount : Z) (scrollOffset viewportHeight : Q)
    getFrameMetrics createViewToken (renderRange : option RenderRange) h :
  waitForInteraction (_config (helper h)) = true ->
  _hasInteracted (afterGate now scrollOffset getFrameMetrics (helper h)) = false ->
  let o := onUpdate now itemCount scrollOffset viewportHeight getFrameMetrics
             createViewToken renderRange h in
  thrown o = None
  /\ lookups o = (if (_lastUpdateTime (helper h) =? 0)%Z then [0%Z] else [])
  /\ notifications (after o) = notifications h
  /\ timerQueue (after o) = timerQueue h
  /\ nextHandle (after o) = nextHandle h
  /\ _config (helper (after o)) = _config (helper h)
  /\ _hasInteracted (helper (after o)) = _hasInteracted (helper h)
  /\ _timers (helper (after o)) = _timers (helper h)
  /\ _viewableIndices (helper (after o)) = _viewableIndices (helper h)
  /\ _viewableItems (helper (after o)) = _viewableItems (helper h)
  /\ _lastUpdateTime (helper (after o))
     = (if (_lastUpdateTime (helper h) =? 0)%Z && isSome (getFrameMetrics 0%Z)
        then now else _lastUpdateTime (helper h)).
Proof.
  intros Hwait Hnot. cbv zeta.
  destruct (afterGate_fields now scrollOffset getFrameMetrics (helper h))
    as (Hconf & Htime & Htimers & Hidx & Hitems & _).
  assert (Hs : suppressed (afterGate now scrollOffset getFrameMetrics (helper h))
               = true).
  { unfold suppressed. rewrite Hconf, Hwait, Hnot. reflexivity. }
  rewrite (onUpdate_suppressed now itemCount scrollOffset viewportHeight
             getFrameMetrics createViewToken renderRange h Hs).
  simpl. rewrite Hconf, Htime, Htimers, Hidx, Hitems, Hnot.
  repeat split.
  rewrite (afterGate_suppressed _ _ _ _ Hs) in Hnot.
  destruct (latchLastUpdateTime_fields now getFrameMetrics (helper h))
    as (_ & <- & _). symmetry. exact Hnot.
Qed.

(** C6, as the code has it.  An update that passes the gate and computes
    the sequence [_viewableIndices] already holds is discarded: nothing is
    thrown, no timer is scheduled, the callback is not called, and
    [_lastUpdateTime] is not refreshed -- it keeps its value, unless that
    was 0 and item 0 has metrics, in which case line 163 has set it to the
    time of the update.  Of two consecutive updates that compute the same
    sequence, the second is discarded in this way, and the first either
    called the callback at most once or scheduled one timer without
    calling it. *)
Theorem C6_unchanged_indices :
  (forall (now itemCount : Z) (scrollOffset viewportHeight : Q)
      getFrameMetrics createViewToken (renderRange : option RenderRange) h
      (scan : ScanState),
      suppressed (afterGate now scrollOffset getFrameMetrics (helper h)) = false ->
      computedScan (afterGate now scrollOffset getFrameMetrics (helper h))
        itemCount scrollOffset viewportHeight getFrameMetrics renderRange
      = inr scan ->
      viewableIndices scan = _viewableIndices (helper h) ->
      let o := onUpdate now itemCount scrollOffset viewportHeight getFrameMetrics
                 createViewToken renderRange h in
      thrown o = None
      /\ notifications (after o) = notifications h
      /\ timerQueue (after o) = timerQueue h
      /\ nextHandle (after o) = nextHandle h
      /\ _timers (helper (after o)) = _timers (helper h)
      /\ _viewableIndices (helper (after o)) = _viewableIndices (helper h)
      /\ _viewableItems (helper (after o)) = _viewableItems (helper h)
      /\ _lastUpdateTime (helper (after o))
         = (if (_lastUpdateTime (helper h) =? 0)%Z && isSome (getFrameMetrics 0%Z)
            then now else _lastUpdateTime (helper h)))
  /\ (forall (now1 itemCount1 : Z) (scrollOffset1 viewportHeight1 : Q)
        getFrameMetrics1 createViewToken1 (renderRange1 : option RenderRange)
        (now2 itemCount2 : Z) (scrollOffset2 viewportHeight2 : Q)
        getFrameMetrics2 createViewToken2 (renderRange2 : option RenderRange)
        h (scan1 scan2 : ScanState),
        suppressed (afterGate now1 scrollOffset1 getFrameMetrics1 (helper h))
        = false ->
        computedScan (afterGate now1 scrollOffset1 getFrameMetrics1 (helper h))
          itemCount1 scrollOffset1 viewportHeight1 getFrameMetrics1 renderRange1
        = inr scan1 ->
        let h1 := after (onUpdate now1 itemCount1 scrollOffset1 viewportHeight1
                           getFrameMetrics1 createViewToken1 renderRange1 h) in
        computedScan (afterGate now2 scrollOffset2 getFrameMetrics2 (helper h1))
          itemCount2 scrollOffset2 viewportHeight2 getFrameMetrics2 renderRange2
        = inr scan2 ->
        viewableIndices scan2 = viewableIndices scan1 ->
        let h2 := after (onUpdate now2 itemCount2 scrollOffset2 viewportHeight2
                           getFrameMetrics2 createViewToken2 renderRange2 h1) in
        notifications h2 = notifications h1
        /\ timerQueue h2 = timerQueue h1
        /\ (((notifications h1 = notifications h
              \/ exists n, notifications h1 = notifications h ++ [n])
             /\ timerQueue h1 = timerQueue h)
            \/ (notifications h1 = notifications h
                /\ exists t, timerQueue h1 = timerQueue h ++ [t]))).
Proof.
  assert (Hnoop : forall (now itemCount : Z) (scrollOffset viewportHeight : Q)
      getFrameMetrics createViewToken (renderRange : option RenderRange) h
      (scan : ScanState),
      suppressed (afterGate now scrollOffset getFrameMetrics (helper h)) = false ->
      computedScan (afterGate now scrollOffset getFrameMetrics (helper h))
        itemCount scrollOffset viewportHeight getFrameMetrics renderRange
      = inr scan ->
      viewableIndices scan = _viewableIndices (helper h) ->
      onUpdate now itemCount scrollOffset viewportHeight getFrameMetrics
        createViewToken renderRange h
      = {| after := set_helper (afterGate now scrollOffset getFrameMetrics (helper h)) h;
           lookups := probeOf (helper h) ++ metricsCalls scan;
           thrown := None |}).
  { intros now itemCount scrollOffset viewportHeight getFrameMetrics
      createViewToken renderRange h scan Hs Hc Hsame.
    apply onUpdate_same; [exact Hs | exact Hc |].
    destruct (afterGate_fields now scrollOffset getFrameMetrics (helper h))
      as (_ & _ & _ & -> & _). exact Hsame. }
  split.
  - intros now itemCount scrollOffset viewportHeight getFrameMetrics
      createViewToken renderRange h scan Hs Hc Hsame. cbv zeta.
    rewrite (Hnoop _ _ _ _ _ _ _ _ _ Hs Hc Hsame). simpl.
    destruct (afterGate_fields now scrollOffset getFrameMetrics (helper h))
      as (_ & -> & -> & -> & -> & _).
    repeat split.
  - intros now1 itemCount1 scrollOffset1 viewportHeight1 getFrameMetrics1
      createViewToken1 renderRange1 now2 itemCount2 scrollOffset2 viewportHeight2
      getFrameMetrics2 createViewToken2 renderRange2 h scan1 scan2 Hs1 Hc1 h1
      Hc2 Hsame h2.
    destruct (onUpdate_accepted now1 itemCount1 scrollOffset1 viewportHeight1
                getFrameMetrics1 createViewToken1 renderRange1 h scan1 Hs1 Hc1)
      as (Hidx & Hcount).
    destruct (onUpdate_keeps now1 itemCount1 scrollOffset1 viewportHeight1
                getFrameMetrics1 createViewToken1 renderRange1 h)
      as (Hconf1 & Hint1).
    fold h1 in Hidx, Hcount, Hconf1, Hint1.
    assert (Hs2 : suppressed
                    (afterGate now2 scrollOffset2 getFrameMetrics2 (helper h1))
                  = false).
    { destruct (afterGate_fields now2 scrollOffset2 getFrameMetrics2 (helper h1))
        as (Hconf2 & _ & _ & _ & _ & Hmono).
      destruct (afterGate_fields now1 scrollOffset1 getFrameMetrics1 (helper h))
        as (Hconf & _).
      unfold suppressed in *. rewrite Hconf2, Hconf1. rewrite Hconf in Hs1.
      destruct (waitForInteraction (_config (helper h))); [| reflexivity].
      cbn [andb] in Hs1 |- *. apply negb_false_iff in Hs1. apply negb_false_iff.
      apply Hmono. rewrite Hint1. exact Hs1. }
    assert (Hsame2 : viewableIndices scan2 = _viewableIndices (helper h1))
      by congruence.
    unfold h2. rewrite (Hnoop _ _ _ _ _ _ _ _ _ Hs2 Hc2 Hsame2). simpl.
    repeat split; try reflexivity. exact Hcount.
Qed.

(** C9.  No operation on a tracker resets [_hasInteracted] once it is true.
    With [waitForInteraction] configured and no filter, an update with
    scroll offset 0 leaves the flag as it was and an update with a non-zero
    scroll offset sets it; [recordInteraction] sets it, whatever the state. *)
Theorem C9_interaction_latch :
  (forall (ops : list (Operation Item)) h,
      _hasInteracted (helper h) = true ->
      _hasInteracted (helper (performAll ops h)) = true)
  /\ (forall (now itemCount : Z) (scrollOffset viewportHeight : Q)
        getFrameMetrics createViewToken (renderRange : option RenderRange) h,
        waitForInteraction (_config (helper h)) = true ->
        scrollInteractionFilter (_config (helper h)) = None ->
        let o := onUpdate now itemCount scrollOffset viewportHeight
                   getFrameMetrics createViewToken renderRange h in
        (scrollOffset == 0 ->
           _hasInteracted (helper (after o)) = _hasInteracted (helper h))
        /\ (~ scrollOffset == 0 -> _hasInteracted (helper (after o)) = true))
  /\ (forall this, _hasInteracted (recordInteraction this) = true).
Proof.
  split; [| split].
  - intros ops. induction ops as [| op ops IH]; intros h H; simpl; [exact H |].
    apply IH, perform_keeps_interacted, H.
  - intros now itemCount scrollOffset viewportHeight getFrameMetrics
      createViewToken renderRange h Hwait Hfilter. cbv zeta.
    destruct (onUpdate_keeps now itemCount scrollOffset viewportHeight
                getFrameMetrics createViewToken renderRange h) as (_ & ->).
    unfold afterGate. cbv zeta.
    destruct (latchLastUpdateTime_fields now getFrameMetrics (helper h))
      as (Hconf & Hint & _).
    unfold latchInteraction. rewrite Hconf, Hwait, Hfilter, Hint. simpl.
    split; intro Hz.
    + apply Qeq_bool_iff in Hz. rewrite Hz, andb_false_r. exact Hint.
    + destruct (Qeq_bool scrollOffset 0) eqn:E.
      { apply Qeq_bool_iff in E. contradiction. }
      destruct (_hasInteracted (helper h)); simpl; [exact Hint | reflexivity].
  - reflexivity.
Qed.

(** The debounce, for a configuration that carries the interval [delay]
    under the name [onUpdate] reads.  An update that passes the gate,
    computes a sequence other than [_viewableIndices] and comes less than
    [delay] ms after [_lastUpdateTime] does not finalize: it throws nothing,
    calls no callback, leaves the committed items alone, and schedules one
    timer, due [delay] ms later, whose handle it adds to [_timers].
    Whenever that timer fires, its handle leaves [_timers] and the host's
    queue, and the callback is called at most once, reporting as viewable
    only tokens of indices of the timer's snapshot that are still in
    [_viewableIndices]. *)
Theorem debounce_schedules_timer (now itemCount : Z) (scrollOffset viewportHeight : Q)
    getFrameMetrics createViewToken (renderRange : option RenderRange) h
    (scan : ScanState) (delay : Z) :
  suppressed (afterGate now scrollOffset getFrameMetrics (helper h)) = false ->
  computedScan (afterGate now scrollOffset getFrameMetrics (helper h))
    itemCount scrollOffset viewportHeight getFrameMetrics renderRange = inr scan ->
  viewableIndices scan <> _viewableIndices (helper h) ->
  minViewTime (_config (helper h)) = Some delay ->
  delay <> 0%Z ->
  (elapsedAt now getFrameMetrics (helper h) < delay)%Z ->
  let o := onUpdate now itemCount scrollOffset viewportHeight getFrameMetrics
             createViewToken renderRange h in
  let t := {| handle := nextHandle h; due := (now + delay)%Z;
              task := {| snapshot := viewableIndices scan;
                         tokenFactory := createViewToken |} |} in
  thrown o = None
  /\ notifications (after o) = notifications h
  /\ _viewableItems (helper (after o)) = _viewableItems (helper h)
  /\ _viewableIndices (helper (after o)) = viewableIndices scan
  /\ timerQueue (after o) = timerQueue h ++ [t]
  /\ JsSet.has (handle t) (_timers (helper (after o))) = true
  /\ forall h',
       JsSet.has (handle t) (_timers (helper (fireTimer t h'))) = false
       /\ (forall t', In t' (timerQueue (fireTimer t h')) -> handle t' <> handle t)
       /\ (notifications (fireTimer t h') = notifications h'
           \/ exists n, notifications (fireTimer t h') = notifications h' ++ [n]
                /\ (forall v, In v (viewableItems n) ->
                      exists ii, In ii (viewableIndices scan)
                        /\ In ii (_viewableIndices (helper h'))
                        /\ v = createViewToken ii true)
                /\ (forall v, In v (changed n) ->
                      isViewable v = false
                      \/ exists ii, In ii (viewableIndices scan)
                           /\ In ii (_viewableIndices (helper h'))
                           /\ v = createViewToken ii true)).
Proof.
  intros Hs Hc Hdiff Hcfg Hnz Hlt. cbv zeta.
  destruct (afterGate_fields now scrollOffset getFrameMetrics (helper h))
    as (_ & _ & Htimers & Hidx & Hitems & _).
  rewrite <- Hidx in Hdiff.
  rewrite (onUpdate_deferred now itemCount scrollOffset viewportHeight
             getFrameMetrics createViewToken renderRange h
             scan delay Hs Hc Hdiff Hcfg Hnz Hlt).
  simpl. rewrite Hitems.
  do 5 (split; [reflexivity |]).
  split; [apply JsSet_has_add |].
  intro h'.
  exact (fireTimer_effect
           {| handle := nextHandle h; due := (now + delay)%Z;
              task := {| snapshot := viewableIndices scan;
                         tokenFactory := createViewToken |} |} h').
Qed.

End UpdateClaims.

(** ** Concrete runs *)

(** The scan visits the unmeasured index 1 and goes on, and stops at index
    3, the first measured item outside the viewport after an overlapping
    one; indices 4 and 5 are never looked up. *)
Example scan_gapItems :
  computeViewableItems_traced (Demo.fresh defaultConfig) 6 0 100 Demo.gapItems None
  = inr {| firstVisible := 2%Z; viewableIndices := [0%Z; 2%Z];
           metricsCalls := [0%Z; 1%Z; 2%Z; 3%Z] |}.
Proof. vm_compute. reflexivity. Qed.

(** The examples of the specification: an item from -50 to 50 in a viewport
    of 100 covers 50 percent of it; 50 visible pixels of an item of length
    200 are 25 percent of it. *)
Example isViewable_view_area :
  _isViewable true 50 (-50) 50 100 100 = true
  /\ _isViewable true 51 (-50) 50 100 100 = false.
Proof. split; vm_compute; reflexivity. Qed.

Example isViewable_item_visible :
  _isViewable false 25 (-150) 50 100 200 = true
  /\ _isViewable false 26 (-150) 50 100 200 = false.
Proof. split; vm_compute; reflexivity. Qed.

(** Called on its own with an item length of 0 and visible pixels, the test
    divides by zero to infinity and answers true. *)
Example isViewable_infinite_percent : _isViewable false 100 (-50) 50 100 0 = true.
Proof. vm_compute. reflexivity. Qed.

(** The diff example of the specification: "a" was committed, "b" is new. *)
Example finalize_diff_example :
  _onUpdateSync [1%Z] Demo.token Demo.diffState
  = (set_viewableItems [("b"%string, Demo.token 1 true)] Demo.diffState,
     Some {| viewableItems := [Demo.token 1 true];
             changed := [Demo.token 1 true; Demo.token 0 false] |}).
Proof. vm_compute. reflexivity. Qed.

(** With the interval under the name [onUpdate] reads, the first update
    schedules a timer; with the interval under the documented name only,
    the same update finalizes at once. *)
Example debounce_property_name :
  (notifications (Demo.step1 Demo.debounced) = []
   /\ List.length (timerQueue (Demo.step1 Demo.debounced)) = 1%nat)
  /\ (notifications (Demo.step1 Demo.documented)
      = [{| viewableItems := [Demo.token 0 true];
            changed := [Demo.token 0 true] |}]
      /\ timerQueue (Demo.step1 Demo.documented) = []).
Proof. vm_compute. repeat split. Qed.

(** Disposal cancels the pending timer: none runs afterwards. *)
Example dispose_cancels :
  notifications (runTimers 1500 (dispose (Demo.step1 Demo.debounced))) = [].
Proof. vm_compute. reflexivity. Qed.

(** *** The debounce *)

Lemma debounce_schedules_timer_example :
  notifications (Demo.step1 Demo.debounced) = []
  /\ timerQueue (Demo.step1 Demo.debounced)
     = [{| handle := 1%Z; due := 1500%Z;
           task := {| snapshot := [0%Z]; tokenFactory := Demo.token |} |}].
Proof.
  pose proof (@debounce_schedules_timer unit 1000 2 0 100 Demo.twoItems Demo.token None
                (Demo.host (Demo.fresh Demo.debounced)) Demo.scanTwoItems 500%Z)
    as H.
  cbv zeta in H.
  destruct H as (_ & Hn & _ & _ & Hq & _).
  - vm_compute. reflexivity.
  - vm_compute. reflexivity.
  - vm_compute. discriminate.
  - reflexivity.
  - discriminate.
  - vm_compute. reflexivity.
  - split; [exact Hn | exact Hq].
Defined.

(** The guard of line 198, with the interval under the name the code
    reads: item 1 is not viewable at time 1500, comes into view at time
    3000, 2000 ms after the last accepted update, and is reported viewable
    by that very update; it is out of view again at time 3100. *)
Example debounce_elapsed_guard :
  minimumViewTime Demo.debounced = Some 500%Z
  /\ _viewableIndices (helper (Demo.step2 Demo.debounced)) = [0%Z]
  /\ _viewableIndices (helper (Demo.step3 Demo.debounced)) = [0%Z; 1%Z]
  /\ _viewableIndices (helper (Demo.step4 Demo.debounced)) = [0%Z]
  /\ notifications (Demo.step3 Demo.debounced)
     = notifications (Demo.step2 Demo.debounced)
       ++ [{| viewableItems := [Demo.token 0 true; Demo.token 1 true];
              changed := [Demo.token 1 true] |}].
Proof. vm_compute. repeat split. Qed.

(** *** C2 *)

Lemma C2_threshold_validation_witness :
  computeViewableItems (Demo.fresh Demo.neither) 2 0 100 Demo.twoItems None
  = inl MustSetExactlyOneThreshold
  /\ computeViewableItems (Demo.fresh defaultConfig) 2 0 100 Demo.twoItems None
     <> inl MustSetExactlyOneThreshold.
Proof.
  split.
  - apply (proj1 (proj2 (proj2 (proj2 (@C2_threshold_validation unit Demo.neither)))
                   (Demo.fresh Demo.neither) 2%Z 0 100 Demo.twoItems None eq_refl)).
    intros [[H _] | [_ H]]; apply H; reflexivity.
  - apply (proj2 (proj2 (proj2 (proj2 (@C2_threshold_validation unit defaultConfig)))
                   (Demo.fresh defaultConfig) 2%Z 0 100 Demo.twoItems None eq_refl)).
    left. split; [discriminate | reflexivity].
Defined.

(** The constructor accepts a configuration with neither threshold and one
    with both. *)
Lemma C2_counterexample :
  constructor (Some Demo.neither) = inr (Demo.fresh Demo.neither)
  /\ constructor (Some Demo.both) = inr (Demo.fresh Demo.both).
Proof. split; reflexivity. Qed.

(** *** C3 *)

Lemma C3_suppressed_update_witness :
  let o := onUpdate 1000 2 0 100 Demo.twoItems Demo.token None
             (Demo.host (Demo.fresh Demo.waiting)) in
  thrown o = None /\ lookups o = [0%Z] /\ notifications (after o) = []
  /\ _viewableIndices (helper (after o)) = [].
Proof.
  pose proof (@C3_suppressed_update unit 1000 2 0 100 Demo.twoItems Demo.token None
                (Demo.host (Demo.fresh Demo.waiting)) eq_refl eq_refl) as H.
  cbv zeta in H.
  destruct H as (H1 & H2 & H3 & _ & _ & _ & _ & _ & H4 & _).
  cbv zeta. repeat split; assumption.
Defined.

(** A suppressed update of a fresh tracker whose item 0 has metrics changes
    [_lastUpdateTime] from 0 to the time of the update. *)
Lemma C3_counterexample :
  let h := Demo.host (Demo.fresh Demo.waiting) in
  let o := onUpdate 1000 2 0 100 Demo.twoItems Demo.token None h in
  waitForInteraction (_config (helper h)) = true
  /\ _hasInteracted (helper (after o)) = false
  /\ _lastUpdateTime (helper h) = 0%Z
  /\ _lastUpdateTime (helper (after o)) = 1000%Z.
Proof. vm_compute. repeat split. Qed.

(** *** The test in exact arithmetic *)

Lemma isViewable_exact_iff_example :
  _isViewable true 50 (-50) 50 100 100 = true
  /\ _isViewable false 100 0 100 100 100 = true.
Proof.
  split.
  - apply (proj1 (isViewable_exact_iff true 50 (-50) 50 100 100)).
    right. vm_compute. reflexivity.
  - apply (proj2 (isViewable_exact_iff false 0 0 100 100 100)).
    repeat split; vm_compute; discriminate || reflexivity.
Defined.

(** *** C5 *)


(** *** C6 *)

Lemma C6_unchanged_indices_witness :
  let h := Demo.step2 Demo.debounced in
  let o := onUpdate 2000 2 0 100 Demo.twoItems Demo.token None h in
  thrown o = None /\ notifications (after o) = notifications h
  /\ timerQueue (after o) = timerQueue h
  /\ _lastUpdateTime (helper (after o)) = 1000%Z.
Proof.
  pose proof (proj1 (@C6_unchanged_indices unit) 2000%Z 2%Z 0 100 Demo.twoItems
                Demo.token None (Demo.step2 Demo.debounced) Demo.scanTwoItems)
    as H.
  cbv zeta in H.
  destruct H as (H1 & H2 & H3 & _ & _ & _ & _ & H4).
  - vm_compute. reflexivity.
  - vm_compute. reflexivity.
  - vm_compute. reflexivity.
  - cbv zeta. repeat split; assumption.
Defined.

(** On a fresh tracker whose only item lies below the viewport, the update
    computes the empty sequence, which [_viewableIndices] already holds,
    and yet [_lastUpdateTime] goes from 0 to the time of the update. *)
Lemma C6_counterexample :
  let h := Demo.host (Demo.fresh defaultConfig) in
  let o := onUpdate 5000 1 0 100 Demo.farItem Demo.token None h in
  computeViewableItems (helper h) 1 0 100 Demo.farItem None = inr []
  /\ _viewableIndices (helper h) = []
  /\ _lastUpdateTime (helper h) = 0%Z
  /\ _lastUpdateTime (helper (after o)) = 5000%Z.
Proof. vm_compute. repeat split. Qed.

(** *** C7 *)

Lemma C7_finalize_diff_witness :
  snd (_onUpdateSync [1%Z] Demo.token Demo.diffState)
  = Some {| viewableItems := [Demo.token 1 true];
            changed := [Demo.token 1 true; Demo.token 0 false] |}
  /\ _onUpdateSync [0%Z] Demo.token (helper (Demo.step2 Demo.debounced))
     = (helper (Demo.step2 Demo.debounced), None).
Proof.
  pose proof (@C7_finalize_diff unit Demo.diffState [1%Z] Demo.token) as H1.
  pose proof (@C7_finalize_diff unit (helper (Demo.step2 Demo.debounced)) [0%Z]
                Demo.token) as H0.
  cbv zeta in H1, H0.
  destruct H1 as (_ & _ & H1 & _). destruct H0 as (_ & _ & _ & H0).
  split.
  - rewrite H1; [reflexivity | vm_compute; discriminate].
  - apply H0. vm_compute. reflexivity.
Defined.

(** *** C8 *)

Lemma C8_render_range_witness :
  computeViewableItems (Demo.fresh defaultConfig) 2 0 100 Demo.twoItems
    (Some {| first := 0%Z; last := 2%Z |}) = inl InvalidRenderRange.
Proof.
  destruct (@C8_render_range unit (Demo.fresh defaultConfig) 2%Z 0 100
              Demo.twoItems {| first := 0%Z; last := 2%Z |}) as [H _].
  - left. split; [discriminate | reflexivity].
  - discriminate.
  - destruct H as [_ H]; [discriminate | exact H].
Defined.

(** With [itemCount = 0] a render range with [last >= itemCount] raises
    nothing: the call returns the empty sequence. *)
Lemma C8_counterexample :
  (0 <= last {| first := 0%Z; last := 5%Z |})%Z
  /\ computeViewableItems (Demo.fresh defaultConfig) 0 0 100 Demo.twoItems
       (Some {| first := 0%Z; last := 5%Z |}) = inr [].
Proof. split; [discriminate | reflexivity]. Qed.

(** *** C9 *)

Lemma C9_interaction_latch_witness :
  let h := Demo.host (Demo.fresh Demo.waiting) in
  _hasInteracted
    (helper (after (onUpdate 1000 2 0 100 Demo.twoItems Demo.token None h)))
  = false
  /\ _hasInteracted
       (helper (after (onUpdate 1000 2 5 100 Demo.twoItems Demo.token None h)))
     = true
  /\ _hasInteracted
       (helper (performAll
                  [Update 2000 2 0 100 Demo.twoItems Demo.token None;
                   RunTimers 3000; Dispose]
                  (after (onUpdate 1000 2 5 100 Demo.twoItems Demo.token None h))))
     = true.
Proof.
  cbv zeta.
  pose proof (proj1 (proj2 (@C9_interaction_latch unit))) as Hupdate.
  pose proof (proj1 (@C9_interaction_latch unit)) as Hmono.
  assert (H5 : _hasInteracted
                 (helper (after (onUpdate 1000 2 5 100 Demo.twoItems Demo.token
                                   None (Demo.host (Demo.fresh Demo.waiting)))))
               = true).
  { apply (Hupdate 1000%Z 2%Z 5 100 Demo.twoItems Demo.token None
             (Demo.host (Demo.fresh Demo.waiting)) eq_refl eq_refl).
    discriminate. }
  split; [| split].
  - apply (Hupdate 1000%Z 2%Z 0 100 Demo.twoItems Demo.token None
             (Demo.host (Demo.fresh Demo.waiting)) eq_refl eq_refl).
    reflexivity.
  - exact H5.
  - apply Hmono. exact H5.
Defined.

(** *** C10 *)

Lemma C10_zero_length_item_witness :
  _isViewable false 0 10 10 100 0 = false
  /\ _isViewable true 0 10 10 100 0 = true.
Proof.
  destruct (C10_zero_length_item 10 100 0) as (_ & _ & _ & H1 & _ & H2);
    [reflexivity | reflexivity |].
  split; assumption.
Defined.

(** * Further properties *)

(** ** The geometric test *)

Ltac pixel_cases top bottom viewportHeight :=
  rewrite ?getPixelsVisible_spec in *; unfold Spec.pixelsVisible in *;
  destruct (Q.min_spec bottom viewportHeight) as [[? ?] | [? ?]];
  destruct (Q.max_spec top 0) as [[? ?] | [? ?]];
  destruct (Q.max_spec 0 (Qmin bottom viewportHeight - Qmax top 0))
    as [[? ?] | [? ?]].

(** With a positive divisor the percent comparison is a comparison of
    products. *)
Lemma percent_ge_iff (p d thr : Q) :
  0 < d ->
  (JS.ge (JS.mul (JS.Fin 100) (JS.div (JS.Fin p) (JS.Fin d))) (JS.Fin thr) = true
   <-> thr * d <= 100 * p).
Proof.
  intro Hd. simpl.
  assert (Qeq_bool d 0 = false) as ->.
  { destruct (Qeq_bool d 0) eqn:E; [| reflexivity]. apply Qeq_bool_iff in E. lra. }
  simpl. rewrite Qle_bool_iff.
  assert (E : 100 * (p / d) * d == 100 * p) by (field; lra).
  split; intro H.
  - rewrite <- E. apply Qmult_le_compat_r; lra.
  - apply (Qmult_le_r _ _ d Hd). rewrite E. exact H.
Qed.

Lemma isViewable_cross (viewAreaMode : bool)
    (threshold top bottom viewportHeight itemLength : Q) :
  0 < (if viewAreaMode then viewportHeight else itemLength) ->
  (_isViewable viewAreaMode threshold top bottom viewportHeight itemLength = true
   <-> Spec.entirelyVisible top bottom viewportHeight
       \/ threshold * (if viewAreaMode then viewportHeight else itemLength)
          <= 100 * _getPixelsVisible top bottom viewportHeight).
Proof.
  intro Hd. unfold _isViewable. rewrite <- isEntirelyVisible_iff.
  destruct (_isEntirelyVisible top bottom viewportHeight).
  - intuition.
  - cbv zeta. destruct viewAreaMode; rewrite percent_ge_iff by exact Hd;
      intuition discriminate.
Qed.

Lemma ge_threshold_mono (p : JS.number) (a b : Q) :
  b <= a -> JS.ge p (JS.Fin a) = true -> JS.ge p (JS.Fin b) = true.
Proof.
  destruct p; simpl; auto. rewrite !Qle_bool_iff. intros. lra.
Qed.

(** X1.  The visible pixels are never negative; they are positive exactly
    when the item overlaps a viewport of positive height and has positive
    extent; they do not exceed a non-negative viewport height, nor the
    extent of an item whose bottom is not above its top. *)
Theorem X1_pixels_visible (top bottom viewportHeight : Q) :
  0 <= _getPixelsVisible top bottom viewportHeight
  /\ (0 < _getPixelsVisible top bottom viewportHeight
      <-> top < viewportHeight /\ 0 < bottom /\ top < bottom /\ 0 < viewportHeight)
  /\ (0 <= viewportHeight ->
      _getPixelsVisible top bottom viewportHeight <= viewportHeight)
  /\ (top <= bottom ->
      _getPixelsVisible top bottom viewportHeight <= bottom - top).
Proof.
  repeat split; intros; pixel_cases top bottom viewportHeight; lra.
Qed.

(** X2.  An entirely visible item overlaps the viewport (so the scan's
    overlap test never hides it), all of its extent is visible, and it is
    viewable in both modes, whatever the threshold and the item length
    passed. *)
Theorem X2_entirely_visible (top bottom viewportHeight : Q) :
  _isEntirelyVisible top bottom viewportHeight = true ->
  (top < viewportHeight /\ 0 < bottom)
  /\ _getPixelsVisible top bottom viewportHeight == bottom - top
  /\ forall viewAreaMode threshold itemLength,
       _isViewable viewAreaMode threshold top bottom viewportHeight itemLength
       = true.
Proof.
  intro H. pose proof (proj1 (isEntirelyVisible_iff _ _ _) H) as (H1 & H2 & H3).
  split; [lra |]. split.
  - pixel_cases top bottom viewportHeight; lra.
  - intros. unfold _isViewable. rewrite H. reflexivity.
Qed.

(** X3.  Lowering the threshold never turns a viewable item into one that
    is not viewable. *)
Theorem X3_threshold_monotone (viewAreaMode : bool)
    (lower threshold top bottom viewportHeight itemLength : Q) :
  lower <= threshold ->
  _isViewable viewAreaMode threshold top bottom viewportHeight itemLength = true ->
  _isViewable viewAreaMode lower top bottom viewportHeight itemLength = true.
Proof.
  intro Hle. unfold _isViewable.
  destruct (_isEntirelyVisible top bottom viewportHeight); [reflexivity |].
  cbv zeta. apply ge_threshold_mono, Hle.
Qed.


(** X6.  View-area mode with a threshold of 0 or less: in a viewport of
    positive height the test accepts every item, also one with no visible
    pixel; only the overlap test of the scan keeps such items out. *)
Theorem X6_view_area_zero (threshold top bottom viewportHeight itemLength : Q) :
  0 < viewportHeight -> threshold <= 0 ->
  _isViewable true threshold top bottom viewportHeight itemLength = true.
Proof.
  intros Hvh Hthr. apply (isViewable_cross true); [exact Hvh |]. right.
  assert (threshold * viewportHeight <= 0 * viewportHeight)
    by (apply Qmult_le_compat_r; lra).
  pose proof (getPixelsVisible_nonneg top bottom viewportHeight). lra.
Qed.

(** X7.  Item-visible mode with threshold 100, for an item of positive
    length [bottom - top] (as the scan passes it): the item is viewable
    exactly when it is entirely visible. *)
Theorem X7_item_visible_full (top bottom viewportHeight itemLength : Q) :
  itemLength == bottom - top -> 0 < itemLength ->
  (_isViewable false 100 top bottom viewportHeight itemLength = true
   <-> 0 <= top /\ bottom <= viewportHeight /\ top < bottom).
Proof.
  intros Hlen Hpos. rewrite (isViewable_cross false) by exact Hpos.
  unfold Spec.entirelyVisible.
  split; [intros [H | H]; [exact H |] | intro H; left; exact H].
  pixel_cases top bottom viewportHeight; lra.
Qed.

(** ** The scan over any range *)

Section ScanAnyRange.

Variable viewAreaMode : bool.
Variable threshold : Q.
Variable scrollOffset viewportHeight : Q.
Variable getFrameMetrics : Z -> option FrameMetrics.t.
Variable last_ : Z.

Let loop := scanLoop viewAreaMode threshold scrollOffset viewportHeight
              getFrameMetrics last_.
Let stops := stopRelAny scrollOffset viewportHeight getFrameMetrics.
Let pushes := collects scrollOffset viewportHeight getFrameMetrics
                viewAreaMode threshold.

(** One more iteration in front of a run of the loop. *)
Lemma scan_prepend (idx : Z) (seen seen' : bool) (n : nat) :
  ~ stops seen idx idx ->
  (forall j, (idx < j)%Z -> stops seen idx j <-> stops seen' (idx + 1)%Z j) ->
  (forall k, (S k < n)%nat -> ~ stops seen' (idx + 1)%Z (idx + 1 + Z.of_nat k)%Z) ->
  ((last_ + 1 <= idx + 1 + Z.of_nat n)%Z
   \/ exists k, n = S k /\ stops seen' (idx + 1)%Z (idx + 1 + Z.of_nat k)%Z) ->
  (forall k, (S k < S n)%nat -> ~ stops seen idx (idx + Z.of_nat k)%Z)
  /\ ((last_ + 1 <= idx + Z.of_nat (S n))%Z
      \/ exists k, S n = S k /\ stops seen idx (idx + Z.of_nat k)%Z).
Proof.
  intros Hhere Hshift Hno Hstop. split.
  - intros [| k] Hk.
    + rewrite Z.add_0_r. exact Hhere.
    + replace (idx + Z.of_nat (S k))%Z with (idx + 1 + Z.of_nat k)%Z by lia.
      rewrite Hshift by lia. apply Hno. lia.
  - destruct Hstop as [Hend | (k & -> & Hs)]; [left; lia | right].
    exists (S k). split; [reflexivity |].
    replace (idx + Z.of_nat (S k))%Z with (idx + 1 + Z.of_nat k)%Z by lia.
    apply Hshift; [lia | exact Hs].
Qed.

Lemma scanLoop_run_any (fuel : nat) : forall (idx : Z) (st : ScanState),
  (0 <= firstVisible st -> firstVisible st < idx)%Z ->
  (last_ + 1 - idx <= Z.of_nat fuel)%Z ->
  exists n : nat,
    (Z.of_nat n <= Z.max 0 (last_ + 1 - idx))%Z
    /\ metricsCalls (loop fuel idx st) = metricsCalls st ++ zrange idx n
    /\ viewableIndices (loop fuel idx st)
       = viewableIndices st ++ filter pushes (zrange idx n)
    /\ (forall k, (S k < n)%nat ->
          ~ stops (0 <=? firstVisible st)%Z idx (idx + Z.of_nat k)%Z)
    /\ ((last_ + 1 <= idx + Z.of_nat n)%Z
        \/ exists k, n = S k
             /\ stops (0 <=? firstVisible st)%Z idx (idx + Z.of_nat k)%Z).
Proof.
  induction fuel as [| fuel IH]; intros idx st Hfirst Hfuel.
  - exists O. simpl. rewrite !app_nil_r. repeat split; lia.
  - simpl. destruct (idx <=? last_)%Z eqn:Htest.
    2:{ apply Z.leb_gt in Htest. exists O. simpl. rewrite !app_nil_r.
        repeat split; lia. }
    apply Z.leb_le in Htest.
    destruct (getFrameMetrics idx) as [metrics |] eqn:Hm.
    + destruct (JS.Qltb (FrameMetrics.offset metrics - scrollOffset) viewportHeight
                && JS.Qltb 0 (FrameMetrics.offset metrics - scrollOffset
                              + FrameMetrics.length metrics)) eqn:Hov.
      * pose proof (proj1 (overlaps_test _ _ metrics) Hov) as Hov'.
        match goal with |- context [loop fuel (idx + 1)%Z ?s] =>
          destruct (IH (idx + 1)%Z s) as (n & Hn & Hcalls & Hview & Hno & Hstop);
            [simpl; lia | lia |] end.
        simpl in Hcalls, Hview, Hno, Hstop.
        exists (S n). rewrite zrange_S. split; [lia |]. split.
        { rewrite Hcalls, <- app_assoc. reflexivity. }
        split.
        { rewrite Hview. simpl. unfold pushes at 2, collects. rewrite Hm.
          unfold bottomOf, topOf. rewrite Hov. simpl.
          destruct (_isViewable _ _ _ _ _ _); [rewrite <- app_assoc |]; reflexivity. }
        apply (scan_prepend _ _ (0 <=? idx)%Z); [| | exact Hno | exact Hstop].
        { intros [(m' & Hm' & Hnot) _]. rewrite Hm in Hm'. injection Hm' as <-.
          tauto. }
        intros j Hj. unfold stops, stopRelAny.
        split; intros [Ho Hs]; (split; [exact Ho |]).
        -- destruct Hs as [Hs | (k & Hk & Hk0 & Hovk)].
           ++ left. apply Z.leb_le in Hs. apply Z.leb_le. lia.
           ++ destruct (Z.eq_dec k idx) as [-> | Hne].
              ** left. apply Z.leb_le. exact Hk0.
              ** right. exists k. repeat split; try lia. exact Hovk.
        -- right. destruct Hs as [Hs | (k & Hk & Hk0 & Hovk)].
           ++ apply Z.leb_le in Hs. exists idx. repeat split; try lia.
              exists metrics. tauto.
           ++ exists k. repeat split; try lia. exact Hovk.
      * assert (Hout : measuredOutsideAt scrollOffset viewportHeight
                         getFrameMetrics idx).
        { exists metrics. split; [exact Hm |]. intro H.
          apply overlaps_test in H. congruence. }
        destruct (0 <=? firstVisible st)%Z eqn:Hseen.
        -- exists 1%nat. simpl. split; [lia |]. split.
           { unfold zrange. simpl. rewrite Z.add_0_r. reflexivity. }
           split.
           { unfold zrange. simpl. rewrite Z.add_0_r. unfold pushes, collects.
             rewrite Hm. unfold bottomOf, topOf. rewrite Hov. simpl.
             rewrite app_nil_r. reflexivity. }
           split; [intros k Hk; lia |].
           right. exists O. split; [reflexivity |]. rewrite Z.add_0_r.
           split; [exact Hout | left; reflexivity].
        -- match goal with |- context [loop fuel (idx + 1)%Z ?s] =>
             destruct (IH (idx + 1)%Z s) as (n & Hn & Hcalls & Hview & Hno & Hstop);
               [simpl; lia | lia |] end.
           simpl in Hcalls, Hview, Hno, Hstop. rewrite Hseen in Hno, Hstop.
           exists (S n). rewrite zrange_S. split; [lia |]. split.
           { rewrite Hcalls, <- app_assoc. reflexivity. }
           split.
           { rewrite Hview. simpl. unfold pushes at 2, collects. rewrite Hm.
             unfold bottomOf, topOf. rewrite Hov. reflexivity. }
           apply (scan_prepend _ _ false); [| | exact Hno | exact Hstop].
           { intros [_ [Hs | (k & Hk & _)]]; [discriminate | lia]. }
           intros j Hj. unfold stops, stopRelAny.
           split; intros [Ho [Hs | (k & Hk & Hk0 & Hovk)]];
             try discriminate; (split; [exact Ho |]); right.
           ++ destruct (Z.eq_dec k idx) as [-> | Hne].
              ** destruct Hovk as (m' & Hm' & Hyes), Hout as (m'' & Hm'' & Hnot).
                 rewrite Hm' in Hm''. injection Hm'' as <-. tauto.
              ** exists k. repeat split; try lia. exact Hovk.
           ++ exists k. repeat split; try lia. exact Hovk.
    + match goal with |- context [loop fuel (idx + 1)%Z ?s] =>
        destruct (IH (idx + 1)%Z s) as (n & Hn & Hcalls & Hview & Hno & Hstop);
          [simpl; lia | lia |] end.
      simpl in Hcalls, Hview, Hno, Hstop.
      exists (S n). rewrite zrange_S. split; [lia |]. split.
      { rewrite Hcalls, <- app_assoc. reflexivity. }
      split.
      { rewrite Hview. simpl. unfold pushes at 2, collects. rewrite Hm. reflexivity. }
      apply (scan_prepend _ _ (0 <=? firstVisible st)%Z);
        [| | exact Hno | exact Hstop].
      { intros [(m' & Hm' & _) _]. congruence. }
      intros j Hj. unfold stops, stopRelAny.
      split; intros [Ho [Hs | (k & Hk & Hk0 & Hovk)]];
        (split; [exact Ho |]); auto; right.
      * destruct (Z.eq_dec k idx) as [-> | Hne].
        -- destruct Hovk as (m' & Hm' & _). congruence.
        -- exists k. repeat split; try lia. exact Hovk.
      * exists k. repeat split; try lia. exact Hovk.
Qed.

End ScanAnyRange.

Section ScanFurther.

Context {Item : Type}.

Implicit Types (this : ViewabilityHelper Item).

Lemma stopRelAny_false (scrollOffset viewportHeight : Q)
    (getFrameMetrics : Z -> option FrameMetrics.t) (start i : Z) :
  stopRelAny scrollOffset viewportHeight getFrameMetrics false start i
  <-> stopPointAny scrollOffset viewportHeight getFrameMetrics start i.
Proof.
  unfold stopRelAny, stopPointAny. intuition discriminate.
Qed.

(** What a scan that reaches the loop does, for any render range. *)
Lemma scan_any_range this (itemCount : Z) (scrollOffset viewportHeight : Q)
    (getFrameMetrics : Z -> option FrameMetrics.t)
    (renderRange : option RenderRange) (threshold : Q) :
  itemCount <> 0%Z ->
  exactlyOneThreshold (_config this) ->
  thresholdOf (_config this) = Some threshold ->
  (last (rangeOf itemCount renderRange) < itemCount)%Z ->
  exists st n,
    computeViewableItems_traced this itemCount scrollOffset viewportHeight
      getFrameMetrics renderRange = inr st
    /\ metricsCalls st = zrange (first (rangeOf itemCount renderRange)) n
    /\ (Z.of_nat n <= Z.max 0 (last (rangeOf itemCount renderRange) + 1
                               - first (rangeOf itemCount renderRange)))%Z
    /\ viewableIndices st
       = filter (collects scrollOffset viewportHeight getFrameMetrics
                   (viewAreaModeOf (_config this)) threshold)
                (metricsCalls st)
    /\ (forall i, In i (metricsCalls st) <->
          (first (rangeOf itemCount renderRange) <= i
           <= last (rangeOf itemCount renderRange))%Z
          /\ forall j, (first (rangeOf itemCount renderRange) <= j < i)%Z ->
               ~ stopPointAny scrollOffset viewportHeight getFrameMetrics
                   (first (rangeOf itemCount renderRange)) j).
Proof.
  intros Hcount Hone Hthr Hlast.
  set (r := rangeOf itemCount renderRange) in *.
  rewrite computeViewableItems_traced_cases, Hthr.
  rewrite (proj2 (exactlyOneThreshold_dec _) Hone).
  assert ((itemCount =? 0)%Z = false) as -> by (apply Z.eqb_neq; exact Hcount).
  assert ((last (rangeOf itemCount renderRange) <? itemCount)%Z = true) as ->
    by (apply Z.ltb_lt; exact Hlast).
  fold r.
  destruct (scanLoop_run_any (viewAreaModeOf (_config this)) threshold scrollOffset
              viewportHeight getFrameMetrics (last r)
              (Z.to_nat (last r + 1 - first r)) (first r)
              {| firstVisible := (-1)%Z; viewableIndices := []; metricsCalls := [] |})
    as (n & Hn & Hcalls & Hview & Hno & Hstop); [simpl; lia | lia |].
  simpl in Hcalls, Hview, Hno, Hstop.
  eexists. exists n. split; [reflexivity |].
  rewrite Hcalls, Hview. split; [reflexivity |]. split; [exact Hn |].
  split; [reflexivity |].
  intro i. rewrite zrange_In. split.
  - intros Hi. split; [lia |]. intros j Hj Hs.
    apply (Hno (Z.to_nat (j - first r))); [lia |].
    apply stopRelAny_false.
    replace (first r + Z.of_nat (Z.to_nat (j - first r)))%Z with j by lia.
    exact Hs.
  - intros [Hi Hnostop]. split; [lia |].
    destruct (Z_lt_le_dec i (first r + Z.of_nat n)) as [L | L]; [exact L |].
    destruct Hstop as [Hend | (k & -> & Hs)]; [lia |].
    exfalso. apply (Hnostop (first r + Z.of_nat k)%Z); [lia |].
    apply stopRelAny_false. exact Hs.
Qed.

(** The outcome of [computeViewableItems_traced] by the checks it makes. *)
Lemma computeViewableItems_outcomes this (itemCount : Z)
    (scrollOffset viewportHeight : Q)
    (getFrameMetrics : Z -> option FrameMetrics.t)
    (renderRange : option RenderRange) :
  (~ exactlyOneThreshold (_config this)
   /\ computeViewableItems_traced this itemCount scrollOffset viewportHeight
        getFrameMetrics renderRange = inl MustSetExactlyOneThreshold)
  \/ (exactlyOneThreshold (_config this) /\ itemCount = 0%Z
      /\ computeViewableItems_traced this itemCount scrollOffset viewportHeight
           getFrameMetrics renderRange
         = inr {| firstVisible := (-1)%Z; viewableIndices := [];
                  metricsCalls := [] |})
  \/ (exactlyOneThreshold (_config this) /\ itemCount <> 0%Z
      /\ (itemCount <= last (rangeOf itemCount renderRange))%Z
      /\ computeViewableItems_traced this itemCount scrollOffset viewportHeight
           getFrameMetrics renderRange = inl InvalidRenderRange)
  \/ (exactlyOneThreshold (_config this) /\ itemCount <> 0%Z
      /\ (last (rangeOf itemCount renderRange) < itemCount)%Z
      /\ exists st, computeViewableItems_traced this itemCount scrollOffset
                      viewportHeight getFrameMetrics renderRange = inr st).
Proof.
  rewrite computeViewableItems_traced_cases.
  destruct (thresholdsValid (_config this)) eqn:Hv.
  - apply exactlyOneThreshold_dec in Hv.
    destruct (thresholdOf_Some _ Hv) as (threshold & ->).
    right. destruct (itemCount =? 0)%Z eqn:Hz.
    + apply Z.eqb_eq in Hz. left. auto.
    + apply Z.eqb_neq in Hz. right.
      destruct (last _ <? itemCount)%Z eqn:Hl.
      * apply Z.ltb_lt in Hl. right. eauto 6.
      * apply Z.ltb_ge in Hl. left. auto.
  - left. split.
    + intro H. apply exactlyOneThreshold_dec in H. congruence.
    + destruct (thresholdOf (_config this)); reflexivity.
Qed.


(** X9.  Whatever its arguments, a call of [computeViewableItems] that
    returns has looked up each index at most once, in ascending order and
    only inside the render range; the indices it returns are among those
    looked up, have metrics, are below [itemCount] and come in strictly
    ascending order. *)
Theorem X9_scan_result_bounds this (itemCount : Z) (scrollOffset viewportHeight : Q)
    (getFrameMetrics : Z -> option FrameMetrics.t)
    (renderRange : option RenderRange) (st : ScanState) :
  computeViewableItems_traced this itemCount scrollOffset viewportHeight
    getFrameMetrics renderRange = inr st ->
  computeViewableItems this itemCount scrollOffset viewportHeight
    getFrameMetrics renderRange = inr (viewableIndices st)
  /\ StronglySorted Z.lt (metricsCalls st)
  /\ (forall i, In i (metricsCalls st) ->
        (first (rangeOf itemCount renderRange) <= i
         <= last (rangeOf itemCount renderRange))%Z)
  /\ StronglySorted Z.lt (viewableIndices st)
  /\ (forall i, In i (viewableIndices st) ->
        In i (metricsCalls st) /\ getFrameMetrics i <> None /\ (i < itemCount)%Z).
Proof.
  intro Hrun. split; [unfold computeViewableItems; rewrite Hrun; reflexivity |].
  destruct (computeViewableItems_outcomes this itemCount scrollOffset
              viewportHeight getFrameMetrics renderRange)
    as [(_ & E) | [(_ & _ & E) | [(_ & _ & _ & E) | (Hone & Hnz & Hlast & _)]]];
    try congruence.
  - assert (st = {| firstVisible := (-1)%Z; viewableIndices := [];
                    metricsCalls := [] |}) as -> by congruence.
    simpl. split; [constructor |]. split; [intros i [] |].
    split; [constructor |]. intros i [].
  - destruct (thresholdOf_Some _ Hone) as (threshold & Hthr).
    destruct (scan_any_range this itemCount scrollOffset viewportHeight
                getFrameMetrics renderRange threshold Hnz Hone Hthr Hlast)
      as (st' & n & Hrun' & Hcalls & Hn & Hview & Hvisited).
    assert (st' = st) as -> by congruence.
    split; [rewrite Hcalls; apply zrange_sorted |].
    split; [intros i Hi; apply Hvisited in Hi; tauto |].
    split; [rewrite Hview, Hcalls; apply filter_sorted, zrange_sorted |].
    intros i Hi. rewrite Hview in Hi. apply filter_In in Hi.
    destruct Hi as [Hin Hc]. split; [exact Hin |].
    apply Hvisited in Hin. split; [| lia].
    unfold collects in Hc. destruct (getFrameMetrics i); [discriminate | discriminate].
Qed.

(** X10.  The errors of [computeViewableItems], completely: it throws the
    threshold error exactly when both or neither threshold is set; it
    throws the render-range error exactly when the thresholds are valid,
    [itemCount] is not 0 and a render range with [last >= itemCount] is
    supplied; it throws nothing else, so a call without a render range on a
    valid configuration always returns. *)
Theorem X10_scan_errors this (itemCount : Z) (scrollOffset viewportHeight : Q)
    (getFrameMetrics : Z -> option FrameMetrics.t)
    (renderRange : option RenderRange) :
  let result := computeViewableItems this itemCount scrollOffset viewportHeight
                  getFrameMetrics renderRange in
  (result = inl MustSetExactlyOneThreshold
   <-> ~ exactlyOneThreshold (_config this))
  /\ (result = inl InvalidRenderRange
      <-> exactlyOneThreshold (_config this) /\ itemCount <> 0%Z
          /\ exists range, renderRange = Some range /\ (itemCount <= last range)%Z)
  /\ result <> inl FilterNeedsWaitForInteraction
  /\ (exactlyOneThreshold (_config this) -> renderRange = None ->
      exists indices, result = inr indices).
Proof.
  cbv zeta. unfold computeViewableItems.
  destruct (computeViewableItems_outcomes this itemCount scrollOffset
              viewportHeight getFrameMetrics renderRange)
    as [(Hnot & ->) | [(Hone & Hz & ->) | [(Hone & Hnz & Hl & ->)
                                          | (Hone & Hnz & Hl & st & ->)]]].
  - repeat split; try tauto; try discriminate; try contradiction.
  - split; [split; [discriminate | intro; contradiction] |].
    split; [split; [discriminate | intros (_ & H & _); contradiction] |].
    split; [discriminate | eauto].
  - split; [split; [discriminate | intro; contradiction] |].
    split.
    { split; [intros _ | reflexivity]. split; [exact Hone |].
      split; [exact Hnz |].
      destruct renderRange as [range |]; simpl in Hl; [eauto | lia]. }
    split; [discriminate | intros _ ->; simpl in Hl; lia].
  - split; [split; [discriminate | intro; contradiction] |].
    split.
    { split; [discriminate |].
      intros (_ & _ & range & -> & Hr). simpl in Hl. lia. }
    split; [discriminate | eauto].
Qed.

End ScanFurther.

(** ** Updates: latches, exceptions, the empty list *)

(** Case analysis on the branch an update takes. *)
Ltac update_cases now itemCount scrollOffset viewportHeight getFrameMetrics
     createViewToken renderRange h :=
  let e := fresh "e" in
  let scan := fresh "scan" in
  let delay := fresh "delay" in
  let Hsame := fresh "Hsame" in
  let Hdiff := fresh "Hdiff" in
  let Hzero := fresh "Hzero" in
  let Hnz := fresh "Hnz" in
  let Hlt := fresh "Hlt" in
  let Hge := fresh "Hge" in
  let Hs := fresh "Hsuppressed" in
  let Hc := fresh "Hcomputed" in
  let Hcfg := fresh "Hdelay" in
  destruct (suppressed (afterGate now scrollOffset getFrameMetrics (helper h)))
    eqn:Hs;
  [ rewrite (onUpdate_suppressed now itemCount scrollOffset viewportHeight
               getFrameMetrics createViewToken renderRange h Hs)
  | destruct (computedScan (afterGate now scrollOffset getFrameMetrics (helper h))
                itemCount scrollOffset viewportHeight getFrameMetrics renderRange)
      as [e | scan] eqn:Hc;
    [ rewrite (onUpdate_thrown now itemCount scrollOffset viewportHeight
                 getFrameMetrics createViewToken renderRange h _ Hs Hc)
    | destruct (list_eq_dec Z.eq_dec (viewableIndices scan)
                  (_viewableIndices
                     (afterGate now scrollOffset getFrameMetrics (helper h))))
        as [Hsame | Hdiff];
      [ rewrite (onUpdate_same now itemCount scrollOffset viewportHeight
                   getFrameMetrics createViewToken renderRange h _ Hs Hc Hsame)
      | destruct (minViewTime (_config (helper h))) as [delay |] eqn:Hcfg;
        [ destruct (Z.eq_dec delay 0) as [Hzero | Hnz];
          [ rewrite (onUpdate_synchronous now itemCount scrollOffset viewportHeight
                       getFrameMetrics createViewToken renderRange h _ Hs Hc Hdiff)
              by (rewrite Hcfg; left; exact Hzero)
          | destruct (Z_lt_le_dec (elapsedAt now getFrameMetrics (helper h)) delay)
              as [Hlt | Hge];
            [ rewrite (onUpdate_deferred now itemCount scrollOffset viewportHeight
                         getFrameMetrics createViewToken renderRange h
                         _ _ Hs Hc Hdiff Hcfg Hnz Hlt)
            | rewrite (onUpdate_synchronous now itemCount scrollOffset
                         viewportHeight getFrameMetrics createViewToken
                         renderRange h _ Hs Hc Hdiff)
                by (rewrite Hcfg; right; exact Hge) ] ]
        | rewrite (onUpdate_synchronous now itemCount scrollOffset viewportHeight
                     getFrameMetrics createViewToken renderRange h _ Hs Hc Hdiff)
            by (rewrite Hcfg; exact I) ] ] ] ].

Section UpdateFurther.

Context {Item : Type}.

Implicit Types (this : ViewabilityHelper Item) (h : Host Item).
Implicit Types (createViewToken : Z -> bool -> ViewToken Item).
Implicit Types (getFrameMetrics : Z -> option FrameMetrics.t).

(** [updateElapsed] in terms of the tracker before the call. *)
Lemma elapsedAt_value now getFrameMetrics this :
  elapsedAt now getFrameMetrics this
  = (if (_lastUpdateTime this =? 0)%Z then 0 else now - _lastUpdateTime this)%Z.
Proof.
  unfold elapsedAt, updateElapsedOf, latchLastUpdateTime, truthyZ.
  destruct (_lastUpdateTime this =? 0)%Z eqn:E; simpl.
  - destruct (isSome (getFrameMetrics 0%Z)); simpl.
    + destruct (now =? 0)%Z; simpl; lia.
    + rewrite E. reflexivity.
  - rewrite E. reflexivity.
Qed.

(** The scan reads the tracker's configuration and nothing else of it. *)
Lemma computeViewableItems_traced_config this this' (itemCount : Z)
    (scrollOffset viewportHeight : Q) getFrameMetrics
    (renderRange : option RenderRange) :
  _config this = _config this' ->
  computeViewableItems_traced this itemCount scrollOffset viewportHeight
    getFrameMetrics renderRange
  = computeViewableItems_traced this' itemCount scrollOffset viewportHeight
      getFrameMetrics renderRange.
Proof.
  intro H. rewrite !computeViewableItems_traced_cases, H. reflexivity.
Qed.

Lemma filter_all {A : Type} (p : A -> bool) (l : list A) :
  (forall x, In x l -> p x = true) -> filter p l = l.
Proof.
  induction l as [| x l IH]; simpl; intro H; [reflexivity |].
  rewrite (H x) by auto. f_equal. apply IH. auto.
Qed.

Lemma filter_none {A : Type} (p : A -> bool) (l : list A) :
  (forall x, In x l -> p x = false) -> filter p l = [].
Proof.
  induction l as [| x l IH]; simpl; intro H; [reflexivity |].
  rewrite (H x) by auto. apply IH. auto.
Qed.

Lemma JsMap_In_has {V : Type} (m : JsMap.t V) (kv : string * V) :
  In kv m -> JsMap.has (fst kv) m = true.
Proof.
  intro H. apply JsMap_has_In. apply in_map. exact H.
Qed.

(** X11.  The interaction latch, with or without a filter.  After an
    update [_hasInteracted] is true exactly when it was true before, or
    [waitForInteraction] is configured, the scroll offset is not 0 and the
    filter, if there is one, lets the scroll through: the offset is at
    least [minimumOffset] when that is set and the elapsed time is at least
    [minimumElapsed] when that is set, where the elapsed time is 0 for a
    tracker never timestamped and [now - _lastUpdateTime] otherwise.  This
    holds for every update, also one that then throws. *)
Theorem X11_interaction_filter (now itemCount : Z) (scrollOffset viewportHeight : Q)
    getFrameMetrics createViewToken (renderRange : option RenderRange) h :
  let o := onUpdate now itemCount scrollOffset viewportHeight getFrameMetrics
             createViewToken renderRange h in
  let elapsed := (if (_lastUpdateTime (helper h) =? 0)%Z then 0
                  else now - _lastUpdateTime (helper h))%Z in
  _hasInteracted (helper (after o)) = true
  <-> _hasInteracted (helper h) = true
      \/ (waitForInteraction (_config (helper h)) = true
          /\ ~ scrollOffset == 0
          /\ forall filter,
               scrollInteractionFilter (_config (helper h)) = Some filter ->
               (forall m, minimumOffset filter = Some m -> m <= scrollOffset)
               /\ (forall m, minimumElapsed filter = Some m -> (m <= elapsed)%Z)).
Proof.
  cbv zeta.
  destruct (onUpdate_keeps now itemCount scrollOffset viewportHeight
              getFrameMetrics createViewToken renderRange h) as (_ & ->).
  unfold afterGate. cbv zeta.
  destruct (latchLastUpdateTime_fields now getFrameMetrics (helper h))
    as (Hconf & Hint & _).
  rewrite <- (elapsedAt_value now getFrameMetrics (helper h)).
  unfold elapsedAt, latchInteraction. rewrite Hconf, Hint.
  set (elapsed := updateElapsedOf now _).
  destruct (_hasInteracted (helper h)) eqn:Hi.
  { rewrite andb_false_r. simpl. rewrite Hint. tauto. }
  destruct (waitForInteraction (_config (helper h))); simpl.
  2:{ rewrite Hint. intuition discriminate. }
  destruct (Qeq_bool scrollOffset 0) eqn:Hz; simpl.
  { apply Qeq_bool_iff in Hz. rewrite Hint. intuition discriminate. }
  apply Qeq_bool_neq in Hz.
  destruct (scrollInteractionFilter (_config (helper h))) as [filter |].
  2:{ simpl. split; [intros _ | reflexivity]. right.
      repeat split; auto; discriminate. }
  assert (Hyes : forall P : Prop,
             (forall m, minimumOffset filter = Some m -> m <= scrollOffset) ->
             (forall m, minimumElapsed filter = Some m -> (m <= elapsed)%Z) ->
             (true = true <-> P \/ (true = true /\ ~ scrollOffset == 0
                /\ forall f, Some filter = Some f ->
                     (forall m, minimumOffset f = Some m -> m <= scrollOffset)
                     /\ (forall m, minimumElapsed f = Some m -> (m <= elapsed)%Z)))).
  { intros P H1 H2. split; [intros _ | reflexivity]. right.
    split; [reflexivity |]. split; [exact Hz |].
    intros f Hf. injection Hf as <-. auto. }
  assert (Hno : forall b,
             ((exists m, minimumOffset filter = Some m /\ scrollOffset < m)
              \/ (exists m, minimumElapsed filter = Some m /\ (elapsed < m)%Z)) ->
             (b = true <-> b = true \/ (true = true /\ ~ scrollOffset == 0
                /\ forall f, Some filter = Some f ->
                     (forall m, minimumOffset f = Some m -> m <= scrollOffset)
                     /\ (forall m, minimumElapsed f = Some m -> (m <= elapsed)%Z)))).
  { intros b Hbad. split; [auto |]. intros [H | (_ & _ & H)]; [exact H |].
    exfalso. destruct (H _ eq_refl) as (H1 & H2).
    destruct Hbad as [(m & Hm & L) | (m & Hm & L)].
    - specialize (H1 _ Hm). lra.
    - specialize (H2 _ Hm). lia. }
  destruct (minimumOffset filter) as [mo |] eqn:Emo,
           (minimumElapsed filter) as [me |] eqn:Eme; simpl.
  - destruct (Qle_bool mo scrollOffset) eqn:E1; simpl.
    + destruct (me <=? elapsed)%Z eqn:E2; simpl.
      * apply Qle_bool_iff in E1. apply Z.leb_le in E2. apply Hyes.
        -- intros m Hm. injection Hm as <-. exact E1.
        -- intros m Hm. injection Hm as <-. exact E2.
      * apply Z.leb_gt in E2. rewrite Hint. apply Hno. right. eauto.
    + apply Qle_bool_false_iff in E1. rewrite Hint. apply Hno. left. eauto.
  - destruct (Qle_bool mo scrollOffset) eqn:E1; simpl.
    + apply Qle_bool_iff in E1. apply Hyes.
      * intros m Hm. injection Hm as <-. exact E1.
      * intros m Hm. discriminate.
    + apply Qle_bool_false_iff in E1. rewrite Hint. apply Hno. left. eauto.
  - destruct (me <=? elapsed)%Z eqn:E2; simpl.
    + apply Z.leb_le in E2. apply Hyes.
      * intros m Hm. discriminate.
      * intros m Hm. injection Hm as <-. exact E2.
    + apply Z.leb_gt in E2. rewrite Hint. apply Hno. right. eauto.
  - apply Hyes; intros m Hm; discriminate.
Qed.

(** X12.  A tracker that was never timestamped ([_lastUpdateTime] is 0).
    The elapsed time of the update is 0, whether or not the update latches
    the timestamp.  So a filter with a positive [minimumElapsed] lets no
    scroll of this update count as an interaction, and with a positive
    interval in [minViewTime] the update never finalizes at once: it calls
    no callback and leaves the committed items alone. *)
Theorem X12_never_timestamped (now itemCount : Z) (scrollOffset viewportHeight : Q)
    getFrameMetrics createViewToken (renderRange : option RenderRange) h :
  _lastUpdateTime (helper h) = 0%Z ->
  let o := onUpdate now itemCount scrollOffset viewportHeight getFrameMetrics
             createViewToken renderRange h in
  elapsedAt now getFrameMetrics (helper h) = 0%Z
  /\ (forall filter m,
        scrollInteractionFilter (_config (helper h)) = Some filter ->
        minimumElapsed filter = Some m -> (0 < m)%Z ->
        _hasInteracted (helper (after o)) = _hasInteracted (helper h))
  /\ (forall delay,
        minViewTime (_config (helper h)) = Some delay -> (0 < delay)%Z ->
        notifications (after o) = notifications h
        /\ _viewableItems (helper (after o)) = _viewableItems (helper h)).
Proof.
  intros Hzero. cbv zeta.
  assert (Hel : elapsedAt now getFrameMetrics (helper h) = 0%Z).
  { rewrite elapsedAt_value, Hzero. reflexivity. }
  split; [exact Hel |]. split.
  - intros filter m Hf Hm Hpos.
    destruct (onUpdate_keeps now itemCount scrollOffset viewportHeight
                getFrameMetrics createViewToken renderRange h) as (_ & ->).
    unfold afterGate. cbv zeta. fold (elapsedAt now getFrameMetrics (helper h)).
    rewrite Hel.
    destruct (latchLastUpdateTime_fields now getFrameMetrics (helper h))
      as (Hconf & Hint & _).
    unfold latchInteraction. rewrite Hconf, Hf, Hm.
    assert ((m <=? 0)%Z = false) as -> by (apply Z.leb_gt; exact Hpos).
    rewrite andb_false_r.
    destruct (_ && _ && _); exact Hint.
  - intros delay Hd Hpos.
    destruct (afterGate_fields now scrollOffset getFrameMetrics (helper h))
      as (_ & _ & _ & _ & Hitems & _).
    update_cases now itemCount scrollOffset viewportHeight getFrameMetrics
      createViewToken renderRange h; simpl; auto; try congruence;
      assert (delay0 = delay) as -> by congruence; lia.
Qed.

(** X13.  An update with [itemCount = 0] never throws, whatever the
    configuration and the render range, and looks up no metrics beyond the
    probe of item 0.  If it passes the gate, [_viewableIndices] is empty
    afterwards.  If moreover it is a change and no interval is configured
    in [minViewTime], the committed items are emptied, and when they were
    not empty the callback is called once, with no viewable item and every
    committed token reported with [isViewable] false. *)
Theorem X13_empty_list (now : Z) (scrollOffset viewportHeight : Q)
    getFrameMetrics createViewToken (renderRange : option RenderRange) h :
  let o := onUpdate now 0 scrollOffset viewportHeight getFrameMetrics
             createViewToken renderRange h in
  thrown o = None
  /\ lookups o = (if (_lastUpdateTime (helper h) =? 0)%Z then [0%Z] else [])
  /\ (suppressed (afterGate now scrollOffset getFrameMetrics (helper h)) = false ->
      _viewableIndices (helper (after o)) = []
      /\ (_viewableIndices (helper h) <> [] ->
          minViewTime (_config (helper h)) = None ->
          _viewableItems (helper (after o)) = []
          /\ notifications (after o)
             = notifications h
               ++ match _viewableItems (helper h) with
                  | [] => []
                  | prevItems =>
                      [{| viewableItems := [];
                          changed := map (fun kv => withIsViewable (snd kv) false)
                                         prevItems |}]
                  end)).
Proof.
  cbv zeta.
  destruct (afterGate_fields now scrollOffset getFrameMetrics (helper h))
    as (_ & _ & _ & Hidx & Hitems & _).
  assert (Hc : computedScan (afterGate now scrollOffset getFrameMetrics (helper h))
                 0 scrollOffset viewportHeight getFrameMetrics renderRange
               = inr {| firstVisible := (-1)%Z; viewableIndices := [];
                        metricsCalls := [] |}) by reflexivity.
  destruct (suppressed (afterGate now scrollOffset getFrameMetrics (helper h)))
    eqn:Hs.
  { rewrite (onUpdate_suppressed now 0 scrollOffset viewportHeight
               getFrameMetrics createViewToken renderRange h Hs).
    simpl. split; [reflexivity |]. split; [reflexivity |]. discriminate. }
  destruct (list_eq_dec Z.eq_dec (_viewableIndices (helper h)) []) as [He | Hne].
  { rewrite (onUpdate_same now 0 scrollOffset viewportHeight getFrameMetrics
               createViewToken renderRange h _ Hs Hc)
      by (simpl; congruence).
    simpl. rewrite app_nil_r, Hidx. split; [reflexivity |].
    split; [reflexivity |]. intros _. split; [exact He |]. contradiction. }
  assert (Hdiff : viewableIndices {| firstVisible := (-1)%Z; viewableIndices := [];
                                     metricsCalls := [] |}
                  <> _viewableIndices
                       (afterGate now scrollOffset getFrameMetrics (helper h)))
    by (simpl; congruence).
  destruct (minViewTime (_config (helper h))) as [delay |] eqn:Hd.
  - assert (Hgen : forall o,
              thrown o = None ->
              lookups o = probeOf (helper h) ->
              _viewableIndices (helper (after o)) = [] ->
              thrown o = None
              /\ lookups o = (if (_lastUpdateTime (helper h) =? 0)%Z
                              then [0%Z] else [])
              /\ (false = false ->
                  _viewableIndices (helper (after o)) = []
                  /\ (_viewableIndices (helper h) <> [] -> Some delay = None ->
                      _viewableItems (helper (after o)) = []
                      /\ notifications (after o)
                         = notifications h
                           ++ match _viewableItems (helper h) with
                              | [] => []
                              | p :: l =>
                                  [{| viewableItems := [];
                                      changed :=
                                        map (fun kv => withIsViewable (snd kv) false)
                                            (p :: l) |}]
                              end))).
    { intros o H1 H2 H3. split; [exact H1 |]. split; [exact H2 |]. intros _.
      split; [exact H3 |]. intros _ Hsome. discriminate. }
    destruct (Z.eq_dec delay 0) as [Hz | Hnz];
      [| destruct (Z_lt_le_dec (elapsedAt now getFrameMetrics (helper h)) delay)
           as [Hlt | Hge]].
    + rewrite (onUpdate_synchronous now 0 scrollOffset viewportHeight
                 getFrameMetrics createViewToken renderRange h _ Hs Hc Hdiff)
        by (rewrite Hd; left; exact Hz).
      apply Hgen; simpl; try (rewrite app_nil_r); try reflexivity.
      match goal with |- context [_onUpdateSync ?l ?f ?t] =>
        destruct (onUpdateSync_fields l f t) as (_ & _ & _ & _ & ->) end.
      reflexivity.
    + rewrite (onUpdate_deferred now 0 scrollOffset viewportHeight
                 getFrameMetrics createViewToken renderRange h _ _
                 Hs Hc Hdiff Hd Hnz Hlt).
      apply Hgen; simpl; try (rewrite app_nil_r); reflexivity.
    + rewrite (onUpdate_synchronous now 0 scrollOffset viewportHeight
                 getFrameMetrics createViewToken renderRange h _ Hs Hc Hdiff)
        by (rewrite Hd; right; exact Hge).
      apply Hgen; simpl; try (rewrite app_nil_r); try reflexivity.
      match goal with |- context [_onUpdateSync ?l ?f ?t] =>
        destruct (onUpdateSync_fields l f t) as (_ & _ & _ & _ & ->) end.
      reflexivity.
  - rewrite (onUpdate_synchronous now 0 scrollOffset viewportHeight
               getFrameMetrics createViewToken renderRange h _ Hs Hc Hdiff)
      by (rewrite Hd; exact I).
    simpl. rewrite app_nil_r.
    set (this := set_lastUpdateTime now _).
    assert (Hprev : _viewableItems this = _viewableItems (helper h)) by exact Hitems.
    destruct (finalize_diff this [] createViewToken) as (_ & Hrun).
    assert (Hnext : nextItemsOf this [] createViewToken = []) by reflexivity.
    rewrite Hnext in Hrun. simpl in Hrun.
    rewrite filter_all in Hrun by reflexivity.
    rewrite Hitems in Hrun.
    split; [reflexivity |]. split; [reflexivity |]. intros _.
    split.
    { destruct (onUpdateSync_fields [] createViewToken this)
        as (_ & _ & _ & _ & ->). reflexivity. }
    intros _ _.
    destruct Hrun as [(-> & Hchanged) | (Hchanged & ->)]; simpl.
    + split; [reflexivity |].
      destruct (_viewableItems (helper h)); [simpl in Hchanged; congruence |].
      reflexivity.
    + destruct (_viewableItems (helper h)) eqn:E; [| discriminate].
      split; [| rewrite app_nil_r; reflexivity].
      exact Hprev.
Qed.

End UpdateFurther.

(** ** Exceptions of an update, and more on the finalize *)

Section FinalizeFurther.

Context {Item : Type}.

Implicit Types (this : ViewabilityHelper Item) (h : Host Item).
Implicit Types (createViewToken : Z -> bool -> ViewToken Item).
Implicit Types (getFrameMetrics : Z -> option FrameMetrics.t).

Lemma computedScan_throws this this' (itemCount : Z)
    (scrollOffset viewportHeight : Q) getFrameMetrics
    (renderRange : option RenderRange) (e : Error) :
  _config this = _config this' ->
  (computedScan this itemCount scrollOffset viewportHeight getFrameMetrics
     renderRange = inl e
   <-> itemCount <> 0%Z
       /\ computeViewableItems this' itemCount scrollOffset viewportHeight
            getFrameMetrics renderRange = inl e).
Proof.
  intro Hconf. unfold computedScan, computeViewableItems, truthyZ.
  rewrite (computeViewableItems_traced_config this this' _ _ _ _ _ Hconf).
  destruct (itemCount =? 0)%Z eqn:Hz; simpl.
  - apply Z.eqb_eq in Hz. split; [discriminate | tauto].
  - apply Z.eqb_neq in Hz.
    destruct (computeViewableItems_traced this' itemCount scrollOffset
                viewportHeight getFrameMetrics renderRange);
      intuition congruence.
Qed.

(** X14.  The exceptions of [onUpdate], completely.  An update throws [e]
    exactly when it passes the gate, [itemCount] is not 0 and
    [computeViewableItems] throws [e] on these arguments.  An update that
    throws has made no metrics lookup beyond the probe of item 0, called no
    callback, scheduled no timer and left [_timers], [_viewableIndices] and
    the committed items as they were; the two latches it made before the
    scan stay. *)
Theorem X14_update_throws (now itemCount : Z) (scrollOffset viewportHeight : Q)
    getFrameMetrics createViewToken (renderRange : option RenderRange) h
    (e : Error) :
  let o := onUpdate now itemCount scrollOffset viewportHeight getFrameMetrics
             createViewToken renderRange h in
  (thrown o = Some e
   <-> suppressed (afterGate now scrollOffset getFrameMetrics (helper h)) = false
       /\ itemCount <> 0%Z
       /\ computeViewableItems (helper h) itemCount scrollOffset viewportHeight
            getFrameMetrics renderRange = inl e)
  /\ (thrown o = Some e ->
      after o = set_helper (afterGate now scrollOffset getFrameMetrics (helper h)) h
      /\ lookups o = (if (_lastUpdateTime (helper h) =? 0)%Z then [0%Z] else [])
      /\ notifications (after o) = notifications h
      /\ timerQueue (after o) = timerQueue h
      /\ _timers (helper (after o)) = _timers (helper h)
      /\ _viewableIndices (helper (after o)) = _viewableIndices (helper h)
      /\ _viewableItems (helper (after o)) = _viewableItems (helper h)).
Proof.
  cbv zeta.
  destruct (afterGate_fields now scrollOffset getFrameMetrics (helper h))
    as (Hconf & _ & Htimers & Hidx & Hitems & _).
  pose proof (computedScan_throws
                (afterGate now scrollOffset getFrameMetrics (helper h)) (helper h)
                itemCount scrollOffset viewportHeight getFrameMetrics renderRange
                e Hconf) as Hthrow.
  update_cases now itemCount scrollOffset viewportHeight getFrameMetrics
    createViewToken renderRange h; simpl.
  - split; [| discriminate]. split; [discriminate | intros (H & _); discriminate].
  - split.
    + rewrite <- Hthrow. split.
      * intro H. injection H as <-. auto.
      * intros (_ & H). congruence.
    + intros _. rewrite Htimers, Hidx, Hitems. repeat split.
  - split; [| discriminate]. split; [discriminate |].
    intros (_ & H). apply Hthrow in H. congruence.
  - split; [| discriminate]. split; [discriminate |].
    intros (_ & H). apply Hthrow in H. congruence.
  - split; [| discriminate]. split; [discriminate |].
    intros (_ & H). apply Hthrow in H. congruence.
  - split; [| discriminate]. split; [discriminate |].
    intros (_ & H). apply Hthrow in H. congruence.
  - split; [| discriminate]. split; [discriminate |].
    intros (_ & H). apply Hthrow in H. congruence.
Qed.

Lemma filter_nil_all {A : Type} (p : A -> bool) (l : list A) :
  filter p l = [] -> forall x, In x l -> p x = false.
Proof.
  induction l as [| a l IH]; simpl; intros H x Hx; [contradiction |].
  destruct (p a) eqn:E; [discriminate |].
  destruct Hx as [<- | Hx]; auto.
Qed.

Lemma nextItemsOf_indices this this' (toCheck : list Z) createViewToken :
  _viewableIndices this = _viewableIndices this' ->
  nextItemsOf this toCheck createViewToken
  = nextItemsOf this' toCheck createViewToken.
Proof. unfold nextItemsOf. intros ->. reflexivity. Qed.

(** X15.  The finalize is idempotent: run again with the same snapshot and
    factory right after itself, it calls no callback and changes nothing. *)
Theorem X15_finalize_idempotent this (toCheck : list Z) createViewToken :
  let r := _onUpdateSync toCheck createViewToken this in
  _onUpdateSync toCheck createViewToken (fst r) = (fst r, None).
Proof.
  cbv zeta.
  destruct (finalize_diff this toCheck createViewToken) as (_ & Hrun).
  destruct Hrun as [(Hr & _) | (Hc & Hr)].
  - rewrite Hr. simpl.
    set (next := nextItemsOf this toCheck createViewToken).
    destruct (finalize_diff (set_viewableItems next this) toCheck createViewToken)
      as (_ & [(_ & Hne) | (_ & ->)]); [| reflexivity].
    exfalso. apply Hne.
    rewrite (nextItemsOf_indices (set_viewableItems next this) this) by reflexivity.
    fold next. simpl.
    rewrite (filter_none (fun kv => negb (JsMap.has (fst kv) next)) next).
    + reflexivity.
    + intros kv Hkv. rewrite (JsMap_In_has next kv Hkv). reflexivity.
  - rewrite Hr. simpl. exact Hr.
Qed.

(** X16.  After a finalize the keys of the committed items are exactly the
    keys of the tokens of the snapshot's indices that are still in
    [_viewableIndices], whether or not the callback was called. *)
Theorem X16_committed_keys this (toCheck : list Z) createViewToken (k : string) :
  let r := _onUpdateSync toCheck createViewToken this in
  In k (JsMap.keys (_viewableItems (fst r)))
  <-> exists ii, In ii toCheck /\ In ii (_viewableIndices this)
        /\ key (createViewToken ii true) = k.
Proof.
  cbv zeta. rewrite <- nextItemsOf_has.
  destruct (finalize_diff this toCheck createViewToken) as (_ & Hrun).
  destruct Hrun as [(-> & _) | (Hc & ->)]; simpl.
  - rewrite JsMap_has_In. reflexivity.
  - apply app_eq_nil in Hc. destruct Hc as [Ha Hd].
    apply map_eq_nil in Ha. apply map_eq_nil in Hd.
    pose proof (filter_nil_all _ _ Ha) as Ha'.
    pose proof (filter_nil_all _ _ Hd) as Hd'.
    rewrite <- JsMap_has_In. split; intro H.
    + apply JsMap_has_In, in_map_iff in H. destruct H as (kv & <- & Hin).
      specialize (Hd' kv Hin). simpl in Hd'. apply negb_false_iff in Hd'.
      exact Hd'.
    + apply JsMap_has_In, in_map_iff in H. destruct H as (kv & <- & Hin).
      specialize (Ha' kv Hin). simpl in Ha'. apply negb_false_iff in Ha'.
      exact Ha'.
Qed.

(** *** Distinct keys *)

Lemma JsMap_keys_set {V : Type} (k : string) (v : V) (m : JsMap.t V) :
  JsMap.keys (JsMap.set k v m)
  = if JsMap.has k m then JsMap.keys m else JsMap.keys m ++ [k].
Proof.
  induction m as [| [k' v'] m IH]; simpl; [reflexivity |].
  destruct (String.eqb k' k) eqn:E; simpl.
  - apply String.eqb_eq in E. subst. reflexivity.
  - rewrite IH.
    destruct (JsMap.has k m); reflexivity.
Qed.

Lemma JsMap_keys_set_NoDup {V : Type} (k : string) (v : V) (m : JsMap.t V) :
  NoDup (JsMap.keys m) -> NoDup (JsMap.keys (JsMap.set k v m)).
Proof.
  intro H. rewrite JsMap_keys_set.
  destruct (JsMap.has k m) eqn:E; [exact H |].
  apply NoDup_app; [exact H | repeat constructor; intros [] |].
  intros a Ha [<- | []].
  apply JsMap_has_In in Ha. congruence.
Qed.

Lemma JsMap_ofEntries_NoDup {V : Type} (entries : list (string * V)) :
  NoDup (JsMap.keys (JsMap.ofEntries entries)).
Proof.
  unfold JsMap.ofEntries.
  apply (fold_left_invariant (fun m => NoDup (JsMap.keys m))).
  - intros m e Hm. apply JsMap_keys_set_NoDup, Hm.
  - constructor.
Qed.

Lemma distinct_after_filter {X Y : Type} (keep : X -> bool) (label : X -> Y)
    (xs : list X) :
  NoDup (map label xs) -> NoDup (map label (filter keep xs)).
Proof.
  induction xs as [| x xs IH]; simpl; intro H; [constructor |].
  inversion H as [| ? ? Hnot Hrest]; subst.
  destruct (keep x); simpl; [| auto].
  constructor; [| auto].
  intro Hin. apply Hnot. apply in_map_iff in Hin.
  destruct Hin as (y & <- & Hy). apply filter_In in Hy.
  apply in_map. tauto.
Qed.

Lemma wellKeyed_values (m : JsMap.t (ViewToken Item)) :
  wellKeyed m -> map key (JsMap.values m) = JsMap.keys m.
Proof.
  intros [_ H]. unfold JsMap.values, JsMap.keys. rewrite map_map.
  apply map_ext_in. intros [k v] Hin. simpl. apply H, Hin.
Qed.

Lemma nextItemsOf_wellKeyed this (toCheck : list Z) createViewToken :
  wellKeyed (nextItemsOf this toCheck createViewToken).
Proof.
  split.
  - apply JsMap_ofEntries_NoDup.
  - intros k v H. destruct (nextItemsOf_In _ _ _ _ _ H) as (_ & _ & _ & _ & ->).
    reflexivity.
Qed.

(** The finalize keeps the committed items well keyed and what it sends
    has distinct keys. *)
Lemma finalize_keys this (toCheck : list Z) createViewToken :
  wellKeyed (_viewableItems this) ->
  let r := _onUpdateSync toCheck createViewToken this in
  wellKeyed (_viewableItems (fst r))
  /\ forall n, snd r = Some n -> distinctKeys n.
Proof.
  intros Hprev. cbv zeta.
  pose proof (nextItemsOf_wellKeyed this toCheck createViewToken) as Hnext.
  destruct (finalize_diff this toCheck createViewToken) as (_ & Hrun).
  destruct Hrun as [(-> & _) | (_ & ->)]; simpl;
    [| split; [exact Hprev | discriminate]].
  split; [exact Hnext |].
  intros n Hn. injection Hn as <-. split; simpl.
  - rewrite wellKeyed_values by exact Hnext. apply Hnext.
  - set (next := nextItemsOf this toCheck createViewToken) in *.
    rewrite map_app, !map_map.
    rewrite (map_ext_in (fun x => key (snd x)) fst).
    2:{ intros [k v] Hin. apply filter_In in Hin. simpl.
        apply (proj2 Hnext), Hin. }
    rewrite (map_ext_in (fun x => key (withIsViewable (snd x) false)) fst).
    2:{ intros [k v] Hin. apply filter_In in Hin. simpl.
        apply (proj2 Hprev), Hin. }
    apply NoDup_app.
    + apply distinct_after_filter, Hnext.
    + apply distinct_after_filter, Hprev.
    + intros k Hk1 Hk2.
      apply in_map_iff in Hk1. destruct Hk1 as (kv1 & <- & H1).
      apply filter_In in H1. destruct H1 as [H1 _].
      apply in_map_iff in Hk2. destruct Hk2 as (kv2 & E & H2).
      apply filter_In in H2. destruct H2 as [_ H2].
      rewrite E, (JsMap_In_has next kv1 H1) in H2. discriminate.
Qed.

(** X17.  When the committed items have distinct keys, each token under its
    own key, a finalize keeps them so, and the notification it sends, if
    any, has no two tokens with the same key in [viewableItems], nor in
    [changed] -- also when two indices of the snapshot make the same key. *)
Theorem X17_distinct_keys this (toCheck : list Z) createViewToken :
  wellKeyed (_viewableItems this) ->
  let r := _onUpdateSync toCheck createViewToken this in
  wellKeyed (_viewableItems (fst r))
  /\ forall n, snd r = Some n ->
       NoDup (map key (viewableItems n)) /\ NoDup (map key (changed n)).
Proof. exact (finalize_keys this toCheck createViewToken). Qed.

End FinalizeFurther.

(** ** Invariants of the operations: keys and timers *)

Section OperationInvariants.

Context {Item : Type}.

Implicit Types (this : ViewabilityHelper Item) (h : Host Item).
Implicit Types (createViewToken : Z -> bool -> ViewToken Item).
Implicit Types (getFrameMetrics : Z -> option FrameMetrics.t).
Implicit Types (t : Timer Item).

Lemma fireTimer_timers t h :
  _timers (helper (fireTimer t h)) = JsSet.delete (handle t) (_timers (helper h)).
Proof.
  rewrite fireTimer_helper.
  match goal with |- context [_onUpdateSync ?l ?f ?x] =>
    destruct (onUpdateSync_fields l f x) as (_ & _ & _ & -> & _) end.
  reflexivity.
Qed.

Lemma fireTimer_queue t h :
  timerQueue (fireTimer t h)
  = filter (fun x => negb (Z.eqb (handle x) (handle t))) (timerQueue h).
Proof. reflexivity. Qed.

Lemma fireTimer_notifications t h :
  notifications (fireTimer t h)
  = notifications h
    ++ match snd (_onUpdateSync (snapshot (task t)) (tokenFactory (task t))
                    (set_timers (JsSet.delete (handle t) (_timers (helper h)))
                       (helper h))) with
       | Some n => [n]
       | None => []
       end.
Proof.
  unfold fireTimer. cbv zeta. unfold notify. simpl.
  destruct (snd _); [reflexivity | rewrite app_nil_r; reflexivity].
Qed.

(** *** Keys *)

Lemma keysDistinct_finalize h (toCheck : list Z) createViewToken this :
  keysDistinct h -> _viewableItems this = _viewableItems (helper h) ->
  keysDistinct
    (notify (snd (_onUpdateSync toCheck createViewToken this))
       (set_helper (fst (_onUpdateSync toCheck createViewToken this)) h)).
Proof.
  intros [Hk Hn] Hitems.
  destruct (finalize_keys this toCheck createViewToken) as (Hk' & Hn').
  { rewrite Hitems. exact Hk. }
  split; [exact Hk' |].
  unfold notify. simpl. intros n Hin.
  destruct (snd (_onUpdateSync toCheck createViewToken this)) as [n' |];
    [| auto].
  apply in_app_or in Hin. destruct Hin as [Hin | [<- | []]]; auto.
Qed.

Lemma perform_keysDistinct (op : Operation Item) h :
  keysDistinct h -> keysDistinct (perform op h).
Proof.
  intro H. destruct op; simpl.
  - destruct (afterGate_fields now scrollOffset getFrameMetrics (helper h))
      as (_ & _ & _ & _ & Hitems & _).
    update_cases now itemCount scrollOffset viewportHeight getFrameMetrics
      createViewToken renderRange h; simpl;
      try (apply keysDistinct_finalize; [exact H | exact Hitems]);
      (split; [simpl; rewrite Hitems; apply H | apply H]).
  - exact H.
  - unfold runTimers. apply (fold_left_invariant keysDistinct); [| exact H].
    intros a t Ha. destruct (existsb _ _); [| exact Ha].
    apply (keysDistinct_finalize (clearTimeout (handle t) a)); [exact Ha |].
    reflexivity.
  - unfold dispose. apply (fold_left_invariant keysDistinct); [| exact H].
    intros a x Ha. exact Ha.
Qed.

(** X18.  Distinct keys are an invariant of the tracker: from a host whose
    committed items have distinct keys and whose notifications so far had
    (a fresh tracker, for one), any sequence of updates, interaction
    records, timer runs and disposals leaves the committed items with
    distinct keys, and every notification sent has no two tokens with the
    same key in [viewableItems], nor in [changed]. *)
Theorem X18_keys_invariant (ops : list (Operation Item)) h :
  wellKeyed (_viewableItems (helper h)) ->
  (forall n, In n (notifications h) -> distinctKeys n) ->
  wellKeyed (_viewableItems (helper (performAll ops h)))
  /\ forall n, In n (notifications (performAll ops h)) ->
       NoDup (map key (viewableItems n)) /\ NoDup (map key (changed n)).
Proof.
  intros H1 H2.
  assert (H : keysDistinct h) by (split; assumption).
  clear H1 H2. revert h H. unfold performAll.
  induction ops as [| op ops IH]; intros h H; simpl; [exact H |].
  apply IH, perform_keysDistinct, H.
Qed.

(** *** Timers *)

Lemma timersTracked_fire t h :
  timersTracked h -> timersTracked (fireTimer t h).
Proof.
  intros (Hnd & Hlt & Hin). unfold timersTracked.
  rewrite fireTimer_queue, fireTimer_timers. simpl.
  split; [apply distinct_after_filter, Hnd |]. split.
  - intros t' Ht'. apply filter_In in Ht'. apply Hlt, Ht'.
  - intros t' Ht'. apply filter_In in Ht'. destruct Ht' as [Hq Hne].
    apply filter_In. split; [apply Hin, Hq |].
    rewrite Z.eqb_sym. exact Hne.
Qed.

Lemma timersTracked_clear (x : Z) h :
  timersTracked h -> timersTracked (clearTimeout x h).
Proof.
  intros (Hnd & Hlt & Hin). unfold timersTracked. simpl.
  split; [apply distinct_after_filter, Hnd |].
  split; intros t' Ht'; apply filter_In in Ht'; [apply Hlt | apply Hin]; apply Ht'.
Qed.

Lemma timersTracked_helper h this :
  timersTracked h -> _timers this = _timers (helper h) ->
  timersTracked (set_helper this h).
Proof.
  intros (Hnd & Hlt & Hin) Ht. unfold timersTracked. simpl.
  rewrite Ht. auto.
Qed.

Lemma timersTracked_notify h (n : option (Notification Item)) :
  timersTracked h -> timersTracked (notify n h).
Proof. intro H. exact H. Qed.

Lemma perform_timersTracked (op : Operation Item) h :
  timersTracked h -> timersTracked (perform op h).
Proof.
  intro H. destruct op; simpl.
  - destruct (afterGate_fields now scrollOffset getFrameMetrics (helper h))
      as (_ & _ & Htimers & _).
    update_cases now itemCount scrollOffset viewportHeight getFrameMetrics
      createViewToken renderRange h; simpl;
      try (apply timersTracked_helper; [exact H | exact Htimers]);
      try (apply timersTracked_notify, timersTracked_helper; [exact H |];
           match goal with |- context [_onUpdateSync ?l ?f ?x] =>
             destruct (onUpdateSync_fields l f x) as (_ & _ & _ & -> & _) end;
           exact Htimers).
    destruct H as (Hnd & Hbound & Hin). unfold timersTracked. simpl.
    split; [| split].
    + rewrite map_app. apply NoDup_app; [exact Hnd | repeat constructor; intros [] |].
      intros a Ha [<- | []]. apply in_map_iff in Ha.
      destruct Ha as (t' & E & Ht'). specialize (Hbound t' Ht'). simpl in E. lia.
    + intros t' Ht'. apply in_app_or in Ht'.
      destruct Ht' as [Ht' | [<- | []]]; [specialize (Hbound t' Ht') | simpl]; lia.
    + intros t' Ht'. apply in_app_or in Ht'. rewrite Htimers.
      destruct Ht' as [Ht' | [<- | []]].
      * specialize (Hin t' Ht'). unfold JsSet.add.
        destruct (JsSet.has _ _); [exact Hin | apply in_or_app; auto].
      * simpl. apply JsSet_has_In, JsSet_has_add.
  - exact H.
  - unfold runTimers. apply (fold_left_invariant timersTracked); [| exact H].
    intros a t Ha. destruct (existsb _ _); [| exact Ha].
    apply timersTracked_fire, Ha.
  - unfold dispose. apply (fold_left_invariant timersTracked); [| exact H].
    intros a x Ha. apply timersTracked_clear, Ha.
Qed.

(** X19.  Tracking of timers is an invariant of the tracker: from a host
    whose outstanding timeouts have distinct handles, all handed out
    already and all in [_timers] (a fresh tracker, for one), any sequence of
    operations leaves a host of this kind; in particular a handle is never
    used for two outstanding timeouts and every outstanding timeout can be
    cancelled by [dispose]. *)
Theorem X19_timers_invariant (ops : list (Operation Item)) h :
  timersTracked h ->
  NoDup (map handle (timerQueue (performAll ops h)))
  /\ (forall t, In t (timerQueue (performAll ops h)) ->
        (handle t < nextHandle (performAll ops h))%Z
        /\ In (handle t) (_timers (helper (performAll ops h)))).
Proof.
  intro H.
  assert (Hall : timersTracked (performAll ops h)).
  { revert h H. unfold performAll.
    induction ops as [| op ops IH]; intros h H; simpl; [exact H |].
    apply IH, perform_timersTracked, H. }
  destruct Hall as (H1 & H2 & H3). split; [exact H1 |].
  intros t Ht. split; [apply H2 | apply H3]; exact Ht.
Qed.

(** Cancelling in two rounds is cancelling once with both tests. *)
Lemma keep_twice (keep1 keep2 : Timer Item -> bool) (queue : list (Timer Item)) :
  filter keep2 (filter keep1 queue) = filter (fun t => keep1 t && keep2 t) queue.
Proof.
  induction queue as [| t queue IH]; simpl; [reflexivity |].
  destruct (keep1 t); simpl; [destruct (keep2 t); simpl; congruence | exact IH].
Qed.

Lemma dispose_fold (l : list Z) : forall h,
  let h' := fold_left (fun h x => clearTimeout x h) l h in
  helper h' = helper h /\ notifications h' = notifications h
  /\ nextHandle h' = nextHandle h
  /\ timerQueue h'
     = filter (fun t => negb (existsb (Z.eqb (handle t)) l)) (timerQueue h).
Proof.
  induction l as [| x l IH]; intro h; simpl.
  - repeat split. symmetry. apply filter_all. reflexivity.
  - destruct (IH (clearTimeout x h)) as (H1 & H2 & H3 & H4).
    rewrite H1, H2, H3, H4. simpl. repeat split.
    rewrite keep_twice. apply filter_ext. intro t.
    rewrite negb_orb. reflexivity.
Qed.

(** X20.  [dispose] cancels every outstanding timeout of a host whose
    timers are tracked: the host's queue is empty afterwards, so no timer
    run that follows calls the callback or changes anything.  [dispose]
    itself calls no callback and leaves the tracker as it was, [_timers]
    included: the handles of the cancelled timeouts stay in that set. *)
Theorem X20_dispose h :
  timersTracked h ->
  timerQueue (dispose h) = []
  /\ helper (dispose h) = helper h
  /\ notifications (dispose h) = notifications h
  /\ nextHandle (dispose h) = nextHandle h
  /\ forall now, runTimers now (dispose h) = dispose h.
Proof.
  intros (_ & _ & Hin). unfold dispose.
  destruct (dispose_fold (_timers (helper h)) h) as (H1 & H2 & H3 & H4).
  assert (Hq : timerQueue (fold_left (fun h x => clearTimeout x h)
                             (_timers (helper h)) h) = []).
  { rewrite H4. apply filter_none. intros t Ht.
    apply negb_false_iff, existsb_exists. exists (handle t).
    split; [apply Hin, Ht | apply Z.eqb_refl]. }
  repeat split; try assumption.
  intro now. unfold runTimers. rewrite Hq. reflexivity.
Qed.

(** Two outstanding timeouts with the same handle are the same timeout. *)
Lemma same_handle_same_timer (queue : list (Timer Item)) (t1 t2 : Timer Item) :
  NoDup (map handle queue) -> In t1 queue -> In t2 queue ->
  handle t1 = handle t2 -> t1 = t2.
Proof.
  induction queue as [| x queue IH]; simpl; intros H H1 H2 E; [contradiction |].
  inversion H as [| ? ? Hnot Hrest]; subst.
  destruct H1 as [-> | H1], H2 as [-> | H2]; auto.
  - exfalso. apply Hnot. rewrite E. apply in_map, H2.
  - exfalso. apply Hnot. rewrite <- E. apply in_map, H1.
Qed.

Lemma runTimers_fold (l : list (Timer Item)) : forall h,
  let h' := fold_left
              (fun h t => if existsb (fun t' => Z.eqb (handle t') (handle t))
                               (timerQueue h)
                          then fireTimer t h else h) l h in
  timerQueue h'
  = filter (fun x => negb (existsb (fun t => Z.eqb (handle x) (handle t)) l))
           (timerQueue h)
  /\ nextHandle h' = nextHandle h
  /\ (exists extra, notifications h' = notifications h ++ extra
        /\ (List.length extra <= List.length l)%nat)
  /\ _config (helper h') = _config (helper h)
  /\ _hasInteracted (helper h') = _hasInteracted (helper h)
  /\ _lastUpdateTime (helper h') = _lastUpdateTime (helper h)
  /\ _viewableIndices (helper h') = _viewableIndices (helper h).
Proof.
  induction l as [| t l IH]; intro h; simpl.
  - split; [symmetry; apply filter_all; reflexivity |].
    split; [reflexivity |].
    split; [exists []; rewrite app_nil_r; auto |]. auto.
  - match goal with |- context [fold_left _ l ?x] =>
      destruct (IH x) as (H1 & H2 & (extra & H3 & Hlen) & H4 & H5 & H6 & H7) end.
    rewrite H1, H2, H3, H4, H5, H6, H7. clear H1 H2 H3 H4 H5 H6 H7.
    assert (Hq : timerQueue
                   (if existsb (fun t' => Z.eqb (handle t') (handle t)) (timerQueue h)
                    then fireTimer t h else h)
                 = filter (fun x => negb (Z.eqb (handle x) (handle t)))
                          (timerQueue h)).
    { destruct (existsb _ _) eqn:E; [apply fireTimer_queue |].
      symmetry. apply filter_all. intros x Hx. apply negb_true_iff.
      destruct (Z.eqb (handle x) (handle t)) eqn:E'; [| reflexivity].
      assert (existsb (fun t' => Z.eqb (handle t') (handle t)) (timerQueue h) = true)
        by (apply existsb_exists; eauto).
      congruence. }
    rewrite Hq. split.
    { rewrite keep_twice. apply filter_ext. intro x.
      rewrite negb_orb. reflexivity. }
    destruct (existsb _ _).
    + destruct (fireTimer_keeps t h) as (-> & -> & -> & ->).
      rewrite fireTimer_notifications.
      split; [reflexivity |]. split; [| auto].
      eexists. rewrite <- app_assoc. split; [reflexivity |].
      rewrite length_app. destruct (snd _); simpl; lia.
    + split; [reflexivity |]. split; [| auto].
      exists extra. split; [reflexivity | lia].
Qed.

(** X21.  A timer run at time [now] on a host whose timers are tracked
    removes from the queue exactly the timeouts due by [now], keeping the
    others in order; it calls the callback at most once per timeout it
    removes, only adding to the log; and it leaves the configuration,
    [_hasInteracted], [_lastUpdateTime] and [_viewableIndices] alone. *)
Theorem X21_timer_run (now : Z) h :
  timersTracked h ->
  timerQueue (runTimers now h)
  = filter (fun t => negb (due t <=? now)%Z) (timerQueue h)
  /\ (exists extra,
        notifications (runTimers now h) = notifications h ++ extra
        /\ (List.length extra
            <= List.length (filter (fun t => (due t <=? now)%Z) (timerQueue h)))%nat)
  /\ _config (helper (runTimers now h)) = _config (helper h)
  /\ _hasInteracted (helper (runTimers now h)) = _hasInteracted (helper h)
  /\ _lastUpdateTime (helper (runTimers now h)) = _lastUpdateTime (helper h)
  /\ _viewableIndices (helper (runTimers now h)) = _viewableIndices (helper h).
Proof.
  intros (Hnd & _ & _). unfold runTimers.
  destruct (runTimers_fold (filter (fun t => (due t <=? now)%Z) (timerQueue h)) h)
    as (H1 & _ & H3 & H4 & H5 & H6 & H7).
  split; [| auto 6].
  rewrite H1. apply filter_ext_in. intros x Hx. f_equal.
  destruct (due x <=? now)%Z eqn:E.
  - apply existsb_exists. exists x. split; [| apply Z.eqb_refl].
    apply filter_In. auto.
  - destruct (existsb _ _) eqn:E'; [| reflexivity].
    apply existsb_exists in E'. destruct E' as (t & Ht & Heq).
    apply filter_In in Ht. destruct Ht as [Ht Hdue]. apply Z.eqb_eq in Heq.
    assert (x = t) by (apply (same_handle_same_timer (timerQueue h)); auto).
    subst. congruence.
Qed.

End OperationInvariants.

(** ** Interaction and staleness *)

Section InteractionFurther.

Context {Item : Type}.

Implicit Types (this : ViewabilityHelper Item) (h : Host Item).
Implicit Types (createViewToken : Z -> bool -> ViewToken Item).
Implicit Types (getFrameMetrics : Z -> option FrameMetrics.t).
Implicit Types (t : Timer Item).

(** X22.  A deferred finalize is checked against the indices current when
    it fires.  If an update passes the gate and computes a sequence (it is
    then what [_viewableIndices] holds), a timer fired right after it
    removes itself and calls the callback at most once, reporting as
    viewable only tokens of indices that are both in the timer's snapshot
    and in that sequence: an index the update no longer found viewable is
    dropped, whatever the time the timer was scheduled at. *)
Theorem X22_stale_snapshot (now itemCount : Z) (scrollOffset viewportHeight : Q)
    getFrameMetrics createViewToken (renderRange : option RenderRange) h
    (scan : ScanState) t :
  suppressed (afterGate now scrollOffset getFrameMetrics (helper h)) = false ->
  computedScan (afterGate now scrollOffset getFrameMetrics (helper h))
    itemCount scrollOffset viewportHeight getFrameMetrics renderRange = inr scan ->
  let h1 := after (onUpdate now itemCount scrollOffset viewportHeight
                     getFrameMetrics createViewToken renderRange h) in
  _viewableIndices (helper h1) = viewableIndices scan
  /\ (notifications (fireTimer t h1) = notifications h1
      \/ exists n, notifications (fireTimer t h1) = notifications h1 ++ [n]
           /\ (forall v, In v (viewableItems n) ->
                 exists ii, In ii (snapshot (task t))
                   /\ In ii (viewableIndices scan)
                   /\ v = tokenFactory (task t) ii true)
           /\ (forall v, In v (changed n) ->
                 isViewable v = false
                 \/ exists ii, In ii (snapshot (task t))
                      /\ In ii (viewableIndices scan)
                      /\ v = tokenFactory (task t) ii true)).
Proof.
  intros Hs Hc h1.
  destruct (onUpdate_accepted now itemCount scrollOffset viewportHeight
              getFrameMetrics createViewToken renderRange h scan Hs Hc)
    as (Hidx & _).
  fold h1 in Hidx. split; [exact Hidx |].
  destruct (fireTimer_effect t h1) as (_ & _ & Hn).
  rewrite Hidx in Hn. exact Hn.
Qed.

Lemma suppressed_update_keeps (now itemCount : Z) (scrollOffset viewportHeight : Q)
    getFrameMetrics createViewToken (renderRange : option RenderRange) h :
  waitForInteraction (_config (helper h)) = true ->
  _hasInteracted (helper h) = false ->
  scrollOffset == 0 ->
  let h1 := after (onUpdate now itemCount scrollOffset viewportHeight
                     getFrameMetrics createViewToken renderRange h) in
  _config (helper h1) = _config (helper h)
  /\ _hasInteracted (helper h1) = false
  /\ _viewableIndices (helper h1) = _viewableIndices (helper h)
  /\ _viewableItems (helper h1) = _viewableItems (helper h)
  /\ timerQueue h1 = timerQueue h
  /\ notifications h1 = notifications h.
Proof.
  intros Hwait Hno Hz. cbv zeta.
  destruct (afterGate_fields now scrollOffset getFrameMetrics (helper h))
    as (Hconf & _ & _ & Hidx & Hitems & _).
  assert (Hgate : _hasInteracted
                    (afterGate now scrollOffset getFrameMetrics (helper h))
                  = false).
  { unfold afterGate, latchInteraction. cbv zeta.
    destruct (latchLastUpdateTime_fields now getFrameMetrics (helper h))
      as (_ & Hint & _).
    apply Qeq_bool_iff in Hz. rewrite Hz, andb_false_r, Hint. exact Hno. }
  assert (Hs : suppressed (afterGate now scrollOffset getFrameMetrics (helper h))
               = true).
  { unfold suppressed. rewrite Hconf, Hwait, Hgate. reflexivity. }
  rewrite (onUpdate_suppressed now itemCount scrollOffset viewportHeight
             getFrameMetrics createViewToken renderRange h Hs).
  simpl. auto 7.
Qed.

(** X23.  Nothing is viewable before an interaction.  With
    [waitForInteraction] configured, no interaction latched and no
    outstanding timeout, a sequence of updates that all have scroll offset
    0, of timer runs and of disposals calls no callback, schedules no
    timer, and leaves [_viewableIndices], the committed items and the
    unlatched flag as they were: every one of these updates is
    suppressed. *)
Theorem X23_quiet_until_interaction (ops : list (Operation Item)) h :
  waitForInteraction (_config (helper h)) = true ->
  _hasInteracted (helper h) = false ->
  timerQueue h = [] ->
  Forall withoutInteraction ops ->
  notifications (performAll ops h) = notifications h
  /\ timerQueue (performAll ops h) = []
  /\ _hasInteracted (helper (performAll ops h)) = false
  /\ _viewableIndices (helper (performAll ops h)) = _viewableIndices (helper h)
  /\ _viewableItems (helper (performAll ops h)) = _viewableItems (helper h).
Proof.
  intros Hwait Hno Hq Hops. revert h Hwait Hno Hq. unfold performAll.
  induction Hops as [| op ops Hop Hops IH]; intros h Hwait Hno Hq; simpl; [auto |].
  assert (Hstep : _config (helper (perform op h)) = _config (helper h)
                  /\ _hasInteracted (helper (perform op h)) = false
                  /\ _viewableIndices (helper (perform op h))
                     = _viewableIndices (helper h)
                  /\ _viewableItems (helper (perform op h))
                     = _viewableItems (helper h)
                  /\ timerQueue (perform op h) = timerQueue h
                  /\ notifications (perform op h) = notifications h).
  { destruct op; simpl in Hop |- *.
    - apply suppressed_update_keeps; assumption.
    - contradiction.
    - unfold runTimers. rewrite Hq. simpl. auto 7.
    - destruct (dispose_fold (_timers (helper h)) h) as (H1 & H2 & _ & H4).
      unfold dispose. rewrite H1, H2, H4, Hq. simpl. auto 7. }
  destruct Hstep as (H1 & H2 & H3 & H4 & H5 & H6).
  destruct (IH (perform op h)) as (I1 & I2 & I3 & I4 & I5);
    [congruence | exact H2 | congruence |].
  rewrite I1, I2, I3, I4, I5. auto 7.
Qed.

(** X24.  Once an interaction is latched, or when [waitForInteraction] is
    not configured, no update is suppressed, whatever operations come in
    between. *)
Theorem X24_never_suppressed_again (ops : list (Operation Item)) h
    (now : Z) (scrollOffset : Q) getFrameMetrics :
  waitForInteraction (_config (helper h)) = false
  \/ _hasInteracted (helper h) = true ->
  suppressed (afterGate now scrollOffset getFrameMetrics
                (helper (performAll ops h))) = false.
Proof.
  intro H.
  assert (Hall : waitForInteraction (_config (helper (performAll ops h))) = false
                 \/ _hasInteracted (helper (performAll ops h)) = true).
  { revert h H. unfold performAll.
    induction ops as [| op ops IH]; intros h H; simpl; [exact H |].
    apply IH. destruct H as [H | H].
    - left.
      assert (Hc : _config (helper (perform op h)) = _config (helper h)).
      { destruct op; simpl; try reflexivity.
        + apply onUpdate_keeps.
        + unfold runTimers.
          apply (fold_left_invariant
                   (fun a => _config (helper a) = _config (helper h)));
            [| reflexivity].
          intros a t Ha. destruct (existsb _ _); [| exact Ha].
          destruct (fireTimer_keeps t a) as (-> & _). exact Ha.
        + unfold dispose.
          destruct (dispose_fold (_timers (helper h)) h) as (-> & _).
          reflexivity. }
      rewrite Hc. exact H.
    - right. apply perform_keeps_interacted, H. }
  destruct (afterGate_fields now scrollOffset getFrameMetrics
              (helper (performAll ops h))) as (Hconf & _ & _ & _ & _ & Hmono).
  unfold suppressed. rewrite Hconf.
  destruct Hall as [-> | Hi]; [reflexivity |].
  rewrite (Hmono Hi). apply andb_false_r.
Qed.

End InteractionFurther.

(** ** Concrete runs of the further properties *)

(** A scan that starts at index -1: the item there overlaps, the items at 0
    and 1 do not, and the scan goes on to index 1 all the same. *)
Example scan_from_minus_one :
  computeViewableItems_traced (Demo.fresh defaultConfig) 2 0 100 Cases.fromMinusOne
    (Some {| first := (-1)%Z; last := 1%Z |})
  = inr {| firstVisible := (-1)%Z; viewableIndices := [(-1)%Z];
           metricsCalls := [(-1)%Z; 0%Z; 1%Z] |}.
Proof. vm_compute. reflexivity. Qed.

Lemma X1_pixels_visible_witness :
  0 < _getPixelsVisible (-50) 50 100 /\ _getPixelsVisible (-50) 50 100 <= 100.
Proof.
  destruct (X1_pixels_visible (-50) 50 100) as (_ & H2 & H3 & _).
  split; [apply H2; repeat split; lra | apply H3; lra].
Defined.

Lemma X2_entirely_visible_witness :
  _getPixelsVisible 0 100 100 == 100 - 0
  /\ _isViewable false 100 0 100 100 100 = true.
Proof.
  destruct (X2_entirely_visible 0 100 100) as (_ & H1 & H2).
  - vm_compute. reflexivity.
  - split; [exact H1 | apply H2].
Defined.

Lemma X3_threshold_monotone_witness :
  _isViewable true 10 (-50) 50 100 100 = true.
Proof.
  apply (X3_threshold_monotone true 10 50 (-50) 50 100 100).
  - lra.
  - vm_compute. reflexivity.
Defined.


Lemma X6_view_area_zero_witness :
  _isViewable true 0 200 300 100 100 = true.
Proof. apply X6_view_area_zero; lra. Defined.

Lemma X7_item_visible_full_witness :
  _isViewable false 100 (-50) 50 100 100 <> true.
Proof.
  intro H.
  apply (proj1 (X7_item_visible_full (-50) 50 100 100 ltac:(lra) ltac:(lra))) in H.
  lra.
Defined.


Lemma X9_scan_result_bounds_witness :
  computeViewableItems (Demo.fresh defaultConfig) 6 0 100 Demo.gapItems None
  = inr [0%Z; 2%Z]
  /\ StronglySorted Z.lt [0%Z; 2%Z].
Proof.
  destruct (@X9_scan_result_bounds unit (Demo.fresh defaultConfig) 6 0 100
              Demo.gapItems None Cases.scanGap) as (H1 & _ & _ & H2 & _).
  - vm_compute. reflexivity.
  - split; [exact H1 | exact H2].
Defined.

Lemma X10_scan_errors_witness :
  computeViewableItems (Demo.fresh Demo.both) 2 0 100 Demo.twoItems None
  = inl MustSetExactlyOneThreshold.
Proof.
  pose proof (@X10_scan_errors unit (Demo.fresh Demo.both) 2 0 100 Demo.twoItems
                None) as H.
  cbv zeta in H. destruct H as (H & _). apply H.
  intros [[_ E] | [E _]]; discriminate.
Defined.

Lemma X11_interaction_filter_witness :
  _hasInteracted
    (helper (after (onUpdate 1300 2 20 100 Demo.twoItems Demo.token None
                      Cases.timestamped))) = true.
Proof.
  pose proof (@X11_interaction_filter unit 1300 2 20 100 Demo.twoItems Demo.token
                None Cases.timestamped) as H.
  cbv zeta in H. apply H. right.
  split; [reflexivity |]. split; [intro E; lra |].
  intros f Hf. injection Hf as <-.
  split; intros m Hm; injection Hm as <-; [lra | simpl; lia].
Defined.

Lemma X12_never_timestamped_witness :
  notifications (Demo.step1 Demo.debounced) = [].
Proof.
  pose proof (@X12_never_timestamped unit 1000 2 0 100 Demo.twoItems Demo.token
                None (Demo.host (Demo.fresh Demo.debounced)) eq_refl) as H.
  cbv zeta in H. destruct H as (_ & _ & H).
  destruct (H 500%Z eq_refl ltac:(lia)) as [Hn _]. exact Hn.
Defined.

Lemma X13_empty_list_witness :
  notifications (after (onUpdate 2000 0 0 100 Demo.twoItems Demo.token None
                          (Demo.host Demo.diffState)))
  = [{| viewableItems := []; changed := [Demo.token 0 false] |}].
Proof.
  pose proof (@X13_empty_list unit 2000 0 100 Demo.twoItems Demo.token None
                (Demo.host Demo.diffState)) as H.
  cbv zeta in H. destruct H as (_ & _ & H).
  destruct H as (_ & H); [vm_compute; reflexivity |].
  destruct H as (_ & H); [discriminate | reflexivity |].
  exact H.
Defined.

Lemma X14_update_throws_witness :
  thrown (onUpdate 1000 2 0 100 Demo.twoItems Demo.token
            (Some {| first := 0%Z; last := 5%Z |})
            (Demo.host (Demo.fresh defaultConfig)))
  = Some InvalidRenderRange.
Proof.
  pose proof (@X14_update_throws unit 1000 2 0 100 Demo.twoItems Demo.token
                (Some {| first := 0%Z; last := 5%Z |})
                (Demo.host (Demo.fresh defaultConfig)) InvalidRenderRange) as H.
  cbv zeta in H. destruct H as (H & _). apply H.
  split; [vm_compute; reflexivity |].
  split; [discriminate | vm_compute; reflexivity].
Defined.

Lemma X15_finalize_idempotent_witness :
  snd (_onUpdateSync [1%Z] Demo.token
         (fst (_onUpdateSync [1%Z] Demo.token Demo.diffState))) = None.
Proof.
  pose proof (@X15_finalize_idempotent unit Demo.diffState [1%Z] Demo.token) as H.
  cbv zeta in H. rewrite H. reflexivity.
Defined.

Lemma X16_committed_keys_witness :
  In "b"%string
     (JsMap.keys (_viewableItems
                    (fst (_onUpdateSync [1%Z] Demo.token Demo.diffState)))).
Proof.
  pose proof (@X16_committed_keys unit Demo.diffState [1%Z] Demo.token "b"%string)
    as H.
  cbv zeta in H. apply H. exists 1%Z.
  split; [left; reflexivity |]. split; [left; reflexivity | reflexivity].
Defined.

Lemma X17_distinct_keys_witness :
  wellKeyed (_viewableItems
               (fst (_onUpdateSync [0%Z; 1%Z] Cases.sameKey Cases.twoCurrent))).
Proof.
  pose proof (@X17_distinct_keys unit Cases.twoCurrent [0%Z; 1%Z] Cases.sameKey)
    as H.
  destruct H as (H & _); [| exact H].
  split; [constructor | intros k v []].
Defined.

Lemma X18_keys_invariant_witness :
  wellKeyed
    (_viewableItems
       (helper (performAll [Update 1000 2 50 100 Demo.twoItems Cases.sameKey None]
                  (Demo.host (Demo.fresh defaultConfig))))).
Proof.
  destruct (@X18_keys_invariant unit
              [Update 1000 2 50 100 Demo.twoItems Cases.sameKey None]
              (Demo.host (Demo.fresh defaultConfig))) as (H & _).
  - split; [constructor | intros k v []].
  - intros n [].
  - exact H.
Defined.

Lemma X19_timers_invariant_witness :
  NoDup (map handle
           (timerQueue
              (performAll [Update 1000 2 0 100 Demo.twoItems Demo.token None;
                           Update 1100 2 1000 100 Demo.twoItems Demo.token None]
                 (Demo.host (Demo.fresh Demo.debounced))))).
Proof.
  destruct (@X19_timers_invariant unit
              [Update 1000 2 0 100 Demo.twoItems Demo.token None;
               Update 1100 2 1000 100 Demo.twoItems Demo.token None]
              (Demo.host (Demo.fresh Demo.debounced))) as (H & _).
  - split; [constructor | split; intros t []].
  - exact H.
Defined.

Lemma X20_dispose_witness :
  timerQueue (dispose (Demo.step1 Demo.debounced)) = [].
Proof.
  destruct (@X20_dispose unit (Demo.step1 Demo.debounced)) as (H & _).
  - apply (perform_timersTracked
             (Update 1000 2 0 100 Demo.twoItems Demo.token None)
             (Demo.host (Demo.fresh Demo.debounced))).
    split; [constructor | split; intros t []].
  - exact H.
Defined.

Lemma X21_timer_run_witness :
  timerQueue (runTimers 1500 (Demo.step1 Demo.debounced)) = [].
Proof.
  destruct (@X21_timer_run unit 1500 (Demo.step1 Demo.debounced)) as (H & _).
  - apply (perform_timersTracked
             (Update 1000 2 0 100 Demo.twoItems Demo.token None)
             (Demo.host (Demo.fresh Demo.debounced))).
    split; [constructor | split; intros t []].
  - rewrite H. vm_compute. reflexivity.
Defined.

Lemma X22_stale_snapshot_witness :
  _viewableIndices
    (helper (after (onUpdate 1100 2 1000 100 Demo.twoItems Demo.token None
                      (Demo.step1 Demo.debounced)))) = [].
Proof.
  pose proof (@X22_stale_snapshot unit 1100 2 1000 100 Demo.twoItems Demo.token
                None (Demo.step1 Demo.debounced) Cases.scanNothing
                Cases.firstTimer) as H.
  cbv zeta in H. destruct H as (H & _).
  - vm_compute. reflexivity.
  - vm_compute. reflexivity.
  - exact H.
Defined.

Lemma X23_quiet_until_interaction_witness :
  notifications
    (performAll [Update 1000 2 0 100 Demo.twoItems Demo.token None;
                 RunTimers 2000;
                 Update 3000 2 0 100 Demo.twoItems Demo.token None]
       (Demo.host (Demo.fresh Demo.waiting))) = [].
Proof.
  destruct (@X23_quiet_until_interaction unit
              [Update 1000 2 0 100 Demo.twoItems Demo.token None;
               RunTimers 2000;
               Update 3000 2 0 100 Demo.twoItems Demo.token None]
              (Demo.host (Demo.fresh Demo.waiting))) as (H & _).
  - reflexivity.
  - reflexivity.
  - reflexivity.
  - repeat constructor; simpl; reflexivity.
  - exact H.
Defined.

Lemma X24_never_suppressed_again_witness :
  suppressed
    (afterGate 1000 0 Demo.twoItems
       (helper (performAll [Update 500 2 0 100 Demo.twoItems Demo.token None; Dispose]
                  (Demo.host (recordInteraction (Demo.fresh Demo.waiting))))))
  = false.
Proof.
  apply (@X24_never_suppressed_again unit).
  right. reflexivity.
Defined.

(** * Where the code and the specification part *)

(** ** Rounding in the percent *)

(** What [Double._isViewable] decides, branch by branch. *)
Lemma isViewable_double_iff (viewAreaMode : bool)
    (threshold top bottom viewportHeight itemLength : PrimFloat.float) :
  Double._isViewable viewAreaMode threshold top bottom viewportHeight itemLength
  = true
  <-> (PrimFloat.leb Double.n0 top = true
       /\ PrimFloat.leb bottom viewportHeight = true
       /\ PrimFloat.ltb top bottom = true)
      \/ PrimFloat.leb threshold
           (PrimFloat.mul Double.n100
              (PrimFloat.div (Double._getPixelsVisible top bottom viewportHeight)
                 (if viewAreaMode then viewportHeight else itemLength)))
         = true.
Proof.
  unfold Double._isViewable.
  assert (E : Double._isEntirelyVisible top bottom viewportHeight = true
              <-> PrimFloat.leb Double.n0 top = true
                  /\ PrimFloat.leb bottom viewportHeight = true
                  /\ PrimFloat.ltb top bottom = true).
  { unfold Double._isEntirelyVisible. rewrite !andb_true_iff. tauto. }
  destruct (Double._isEntirelyVisible top bottom viewportHeight).
  - split; [intros _; left; apply E; reflexivity | reflexivity].
  - cbv zeta. destruct viewAreaMode.
    + split; [auto |]. intros [H | H]; [| exact H].
      apply E in H. discriminate.
    + split; [auto |]. intros [H | H]; [| exact H].
      apply E in H. discriminate.
Qed.

(** C4 (the code against the claim).  View-area mode, threshold 29, an
    item from -71 to 29 in a viewport of 100: the item is not entirely
    visible and 29 of its pixels are visible, so the visible percent of the
    claim is 29, which is [>=] the threshold -- in exact arithmetic, and
    also in double precision when [100 * pixelsVisible / viewportHeight] is
    evaluated from left to right.  The code divides first: [29 / 100] is
    rounded, its product with 100 is below 29, and the item is judged not
    viewable. *)
Theorem C4_percent_rounded :
  Double._isEntirelyVisible Double.minus71 Double.n29 Double.n100 = false
  /\ Double._getPixelsVisible Double.minus71 Double.n29 Double.n100 = Double.n29
  /\ PrimFloat.ltb (PrimFloat.mul Double.n100 (PrimFloat.div Double.n29 Double.n100))
                   Double.n29 = true
  /\ Double._isViewable true Double.n29 Double.minus71 Double.n29 Double.n100
       Double.n100 = false
  /\ Double._isViewable false Double.n29 Double.minus71 Double.n29 Double.n100
       Double.n100 = false
  /\ PrimFloat.leb Double.n29
       (PrimFloat.div (PrimFloat.mul Double.n100 Double.n29) Double.n100) = true
  /\ 29 <= 100 * 29 / 100
  /\ _isViewable true 29 (-71) 29 100 100 = true.
Proof.
  repeat split; try (vm_compute; reflexivity).
  vm_compute. discriminate.
Qed.

(** Away from such quotients the two embeddings agree: the examples of the
    specification in double precision. *)
Example isViewable_double_examples :
  Double._isViewable true Double.n50 Double.minus50 Double.n50 Double.n100
    Double.n100 = true
  /\ Double._isViewable true Double.n100 Double.n0 Double.n100 Double.n100
       Double.n100 = true.
Proof. split; vm_compute; reflexivity. Qed.

(** ** The interval under its documented name *)

Section DocumentedKey.

Context {Item : Type}.

(** Without the property [minViewTime] no update schedules a timer,
    whatever [minimumViewTime] holds. *)
Lemma no_timer_without_minViewTime (now itemCount : Z)
    (scrollOffset viewportHeight : Q)
    (getFrameMetrics : Z -> option FrameMetrics.t)
    (createViewToken : Z -> bool -> ViewToken Item)
    (renderRange : option RenderRange) (h : Host Item) :
  minViewTime (_config (helper h)) = None ->
  let o := onUpdate now itemCount scrollOffset viewportHeight getFrameMetrics
             createViewToken renderRange h in
  timerQueue (after o) = timerQueue h
  /\ _timers (helper (after o)) = _timers (helper h).
Proof.
  intro Hnone. cbv zeta.
  destruct (afterGate_fields now scrollOffset getFrameMetrics (helper h))
    as (_ & _ & Htimers & _).
  update_cases now itemCount scrollOffset viewportHeight getFrameMetrics
    createViewToken renderRange h; simpl; try congruence; auto;
  match goal with |- context [_onUpdateSync ?l ?f ?x] =>
    destruct (onUpdateSync_fields l f x) as (_ & _ & _ & -> & _) end;
  simpl; auto.
Qed.

End DocumentedKey.

(** C1 (the code against the claim).  A tracker configured with
    [{minimumViewTime: 500, viewAreaCoveragePercentThreshold: 0}] gets its
    first update at time 1000, with item 0 in view: the elapsed time is 0,
    less than 500, and yet no timer is scheduled and the callback reports
    item 0 viewable at once.  The item is scrolled out at time 1100, and is
    then reported no longer viewable: it was in view for 100 ms and was
    reported viewable. *)
Theorem C1_documented_interval_ignored :
  minimumViewTime Demo.documented = Some 500%Z
  /\ elapsedAt 1000 Demo.twoItems (Demo.fresh Demo.documented) = 0%Z
  /\ _viewableIndices (helper (Demo.step1 Demo.documented)) = [0%Z]
  /\ timerQueue (Demo.step1 Demo.documented) = []
  /\ _timers (helper (Demo.step1 Demo.documented)) = []
  /\ notifications (Demo.step1 Demo.documented)
     = [{| viewableItems := [Demo.token 0 true];
           changed := [Demo.token 0 true] |}]
  /\ _viewableIndices (helper (Cases.scrolledAway Demo.documented)) = []
  /\ notifications (Cases.scrolledAway Demo.documented)
     = [{| viewableItems := [Demo.token 0 true];
           changed := [Demo.token 0 true] |};
        {| viewableItems := []; changed := [Demo.token 0 false] |}].
Proof. vm_compute. repeat split. Qed.

(** ** A render range that starts below 0 *)

